(** * Block identity, codec and integrity checks of [pkg/proto/block.go]

    A shallow embedding of the block layer of the node: [BlockID], the
    version-dispatched header and block codecs, challenged-header recovery,
    signature and transactions-root verification.

    Conventions of the embedding.
    - Go integers are [Z]; every conversion that wraps in Go ([uint32(x)],
      [byte(x)], [int64(x)]) is written out with [mod].  [int] is 64 bits wide.
    - A byte is [Byte.byte]; [[]byte], [crypto.Digest] ([32]byte),
      [crypto.Signature] ([64]byte) and [crypto.PublicKey] ([32]byte) are
      [list byte]; a property that needs a fixed width states it.
    - A Go call returns a value, returns an error, or panics: [outcome].
    - A method on a pointer receiver is a state transformer on the receiver:
      [M S A].  Fields written before an error or a panic stay written.
    - Collaborators that live outside [block.go] (crypto primitives, the
      protobuf encoder, the [Transaction] interface) are type classes. *)

From Stdlib Require Import String ZArith Lia Bool.
From Stdlib.Strings Require Import Byte.
From Stdlib Require Import List Permutation.
Import ListNotations.
Local Open Scope Z_scope.

Set Implicit Arguments.

(* ------------------------------------------------------------------ *)
(** ** Bytes and fixed-width integers *)

Abbreviation byte := Byte.byte.

Definition byte_to_Z (b : byte) : Z := Z.of_N (Byte.to_N b).

(** [byte(x)]: the low eight bits. *)
Definition Z_to_byte (z : Z) : byte :=
  match Byte.of_N (Z.to_N (z mod 256)) with
  | Some b => b
  | None => x00
  end.

Definition uint32 (z : Z) : Z := z mod 2 ^ 32.
Definition uint64 (z : Z) : Z := z mod 2 ^ 64.

(** Reinterpretation of the low [w] bits as a two's complement number. *)
Definition signed (w : Z) (z : Z) : Z :=
  let u := z mod 2 ^ w in
  if u <? 2 ^ (w - 1) then u else u - 2 ^ w.

Definition int16 (z : Z) : Z := signed 16 z.
Definition int64 (z : Z) : Z := signed 64 z.

(** [binary.BigEndian.PutUintN]: [n] bytes, most significant first. *)
Fixpoint be_encode (n : nat) (z : Z) : list byte :=
  match n with
  | O => []
  | S n' => be_encode n' (z / 256) ++ [Z_to_byte z]
  end.

(** [binary.BigEndian.UintN] on a slice of exactly the right length. *)
Definition be_decode (l : list byte) : Z :=
  fold_left (fun acc b => acc * 256 + byte_to_Z b) l 0.

Definition zeros (n : nat) : list byte := repeat x00 n.

(** Go's builtin [copy(dst, src)]: overwrites the first
    [min (len dst) (len src)] elements of [dst]. *)
Definition copy {A : Type} (dst src : list A) : list A :=
  firstn (length dst) src ++ skipn (length src) dst.

Fixpoint list_eqb {A : Type} (eqb : A -> A -> bool) (l1 l2 : list A) : bool :=
  match l1, l2 with
  | [], [] => true
  | x :: l1', y :: l2' => eqb x y && list_eqb eqb l1' l2'
  | _, _ => false
  end.

(** [bytes.Equal] *)
Definition bytes_Equal (a b : list byte) : bool := list_eqb Byte.eqb a b.

(* ------------------------------------------------------------------ *)
(** ** Errors, outcomes, receivers *)

Inductive error : Type :=
| ErrInvalidBlockIDDataSize
| io_EOF
| io_ErrUnexpectedEOF
| errors_New (msg : string)
| errors_Wrap (e : error) (msg : string)
| stderrs_Join (e1 e2 : error)
| errors_Errorf (format : string) (args : list Z)
| External (code : nat).

(** [errors.Is] against a sentinel: the chain of wrapped and joined errors
    is searched. *)
Fixpoint error_eqb (a b : error) : bool :=
  match a, b with
  | ErrInvalidBlockIDDataSize, ErrInvalidBlockIDDataSize => true
  | io_EOF, io_EOF => true
  | io_ErrUnexpectedEOF, io_ErrUnexpectedEOF => true
  | errors_New m1, errors_New m2 => String.eqb m1 m2
  | errors_Wrap e1 m1, errors_Wrap e2 m2 => error_eqb e1 e2 && String.eqb m1 m2
  | stderrs_Join a1 a2, stderrs_Join b1 b2 => error_eqb a1 b1 && error_eqb a2 b2
  | errors_Errorf f1 a1, errors_Errorf f2 a2 =>
      String.eqb f1 f2 && list_eqb Z.eqb a1 a2
  | External c1, External c2 => Nat.eqb c1 c2
  | _, _ => false
  end.

Fixpoint errors_Is (err target : error) : bool :=
  error_eqb err target ||
  match err with
  | errors_Wrap e _ => errors_Is e target
  | stderrs_Join e1 e2 => errors_Is e1 target || errors_Is e2 target
  | _ => false
  end.

Inductive outcome (A : Type) : Type :=
| Val (a : A)
| Fail (e : error)
| Panic.
Arguments Fail {A} e.
Arguments Panic {A}.

Definition obind {A B : Type} (x : outcome A) (k : A -> outcome B) : outcome B :=
  match x with
  | Val a => k a
  | Fail e => Fail e
  | Panic => Panic
  end.

(** A method with a pointer receiver of type [S]. *)
Definition M (S A : Type) : Type := S -> S * outcome A.

Definition ret {S A : Type} (a : A) : M S A := fun s => (s, Val a).
Definition bind {S A B : Type} (m : M S A) (k : A -> M S B) : M S B :=
  fun s => match m s with
           | (s', Val a) => k a s'
           | (s', Fail e) => (s', Fail e)
           | (s', Panic) => (s', Panic)
           end.
Definition lift {S A : Type} (x : outcome A) : M S A := fun s => (s, x).
Definition raise {S A : Type} (e : error) : M S A := fun s => (s, Fail e).
Definition modify {S : Type} (f : S -> S) : M S unit := fun s => (f s, Val tt).
Definition get {S : Type} : M S S := fun s => (s, Val s).

(** [if err != nil { return errors.Wrap(err, msg) }] *)
Definition wrap {S A : Type} (m : M S A) (msg : string) : M S A :=
  fun s => match m s with
           | (s', Fail e) => (s', Fail (errors_Wrap e msg))
           | r => r
           end.

Declare Scope go_scope.
Delimit Scope go_scope with go.
Notation "x <- m ;; k" := (bind m (fun x => k))
  (at level 61, m at next level, right associativity) : go_scope.
Notation "m ;;; k" := (bind m (fun _ => k))
  (at level 61, right associativity) : go_scope.

(** What the caller of [func (...) (err error)] sees: [None] is a nil error. *)
Inductive returned : Type :=
| Returns (err : option error)
| Panics.

(** [defer func() { if recover() != nil { err = errors.New("invalid data size") } }()] *)
Definition recover_invalid_data_size {S : Type} (body : M S unit) (s : S)
  : S * returned :=
  match body s with
  | (s', Val _) => (s', Returns None)
  | (s', Fail e) => (s', Returns (Some e))
  | (s', Panic) => (s', Returns (Some (errors_New "invalid data size")))
  end.

(* ------------------------------------------------------------------ *)
(** ** Slices *)

(** A [[]byte] argument: the [len] visible elements and the elements of the
    backing array between [len] and [cap]. *)
Record Slice : Type := { elems : list byte; spare : list byte }.

Definition slice_of (l : list byte) : Slice := {| elems := l; spare := [] |}.

Definition len (d : Slice) : Z := Z.of_nat (length (elems d)).
Definition cap (d : Slice) : Z := Z.of_nat (length (elems d) + length (spare d)).

(** [d[i]] *)
Definition index (d : Slice) (i : Z) : outcome byte :=
  if (0 <=? i) && (i <? len d)
  then Val (nth (Z.to_nat i) (elems d) x00)
  else Panic.

(** The contents of [d[lo:hi]]; Go checks [0 <= lo <= hi <= cap(d)]. *)
Definition reslice (d : Slice) (lo hi : Z) : outcome (list byte) :=
  if (0 <=? lo) && (lo <=? hi) && (hi <=? cap d)
  then Val (firstn (Z.to_nat (hi - lo)) (skipn (Z.to_nat lo) (elems d ++ spare d)))
  else Panic.

(** The contents of [d[lo:]], that is [d[lo:len(d)]]. *)
Definition reslice_from (d : Slice) (lo : Z) : outcome (list byte) :=
  reslice d lo (len d).

(* ------------------------------------------------------------------ *)
(** ** Collaborators outside [block.go] *)

Definition Scheme : Type := Z.

Definition Digest : Type := list byte.
Definition Signature : Type := list byte.
Definition PublicKey : Type := list byte.

Definition DigestSize : Z := 32.
Definition SignatureSize : Z := 64.
Definition PublicKeySize : Z := 32.

(** The zero values [crypto.Digest{}] and [crypto.Signature{}]. *)
Definition Digest_zero : Digest := zeros 32.
Definition Signature_zero : Signature := zeros 64.
Definition PublicKey_zero : PublicKey := zeros 32.

(** Package [crypto]: signature check, fast hash and the Merkle tree, all
    consumed as opaque operations. *)
Class Crypto : Type := {
  crypto_Verify : PublicKey -> Signature -> list byte -> bool;
  crypto_FastHash : list byte -> outcome Digest;
  MerkleTree : Type;
  crypto_NewMerkleTree : outcome MerkleTree;
  MerkleTree_Push : MerkleTree -> list byte -> MerkleTree;
  MerkleTree_Root : MerkleTree -> Digest;
  Signature_MarshalBinary : Signature -> outcome (list byte)
}.

(** The [Transaction] interface, as far as [block.go] calls it, together
    with the decoder of one transaction from its binary form. *)
Class Transaction (T : Type) : Type := {
  tx_MarshalBinary : T -> Scheme -> outcome (list byte);
  tx_BinarySize : T -> Z;
  tx_MerkleBytes : T -> Scheme -> outcome (list byte);
  BytesToTransaction : list byte -> Scheme -> outcome T
}.

(** Package [base58]. *)
Class Base58 : Type := {
  base58_Decode : string -> outcome (list byte);
  base58_Encode : list byte -> string
}.

(** [crypto.Sign] and the secret keys it takes. *)
Class Signing : Type := {
  SecretKey : Type;
  crypto_Sign : SecretKey -> list byte -> outcome Signature
}.

(** [MarshalSignedToProtobuf] of the [Transaction] interface and its
    inverse [SignedTxFromProtobuf]. *)
Class SignedProtobuf (T : Type) : Type := {
  tx_MarshalSignedToProtobuf : T -> Scheme -> outcome (list byte);
  SignedTxFromProtobuf : list byte -> outcome T
}.

(* ------------------------------------------------------------------ *)
(** ** [io.Reader], [io.LimitReader], [io.ReadFull] *)

(** A byte stream: the bytes it still delivers and the error its [Read]
    reports once they are exhausted ([io.EOF] for a stream that just ends). *)
Record Reader : Type := { pending : list byte; at_end : error }.

(** [io.LimitReader(r, n)]: at most [n] bytes of [r], then [io.EOF]. *)
Definition io_LimitReader (r : Reader) (n : Z) : Reader :=
  {| pending := firstn (Z.to_nat n) (pending r);
     at_end := if n <=? Z.of_nat (length (pending r)) then io_EOF else at_end r |}.

(** [io.ReadFull(r, buf)] with [len(buf) = n]: the bytes stored at the front
    of [buf], the error, and the reader afterwards.  A read that ends early
    with [io.EOF] after at least one byte reports [io.ErrUnexpectedEOF]. *)
Definition io_ReadFull (r : Reader) (n : nat) : list byte * option error * Reader :=
  if (n <=? length (pending r))%nat
  then (firstn n (pending r), None,
        {| pending := skipn n (pending r); at_end := at_end r |})
  else match pending r with
       | [] => ([], Some (at_end r), r)
       | _ :: _ =>
           (pending r,
            Some (if error_eqb (at_end r) io_EOF then io_ErrUnexpectedEOF else at_end r),
            {| pending := []; at_end := at_end r |})
       end.

(** A stream that delivers [data] and then just ends. *)
Definition stream (data : list byte) : Reader :=
  {| pending := data; at_end := io_EOF |}.

(** What [io.ReadFull] reports for a stream that ends before the buffer is
    full: [io.EOF] when nothing was read, [io.ErrUnexpectedEOF] otherwise. *)
Definition short_read_error (data : list byte) : error :=
  match data with
  | [] => io_EOF
  | _ :: _ => io_ErrUnexpectedEOF
  end.


(** The reader under a limited reader after [k] bytes went through it. *)
Definition advance (r : Reader) (k : nat) : Reader :=
  {| pending := skipn k (pending r); at_end := at_end r |}.

(* ------------------------------------------------------------------ *)
(** ** [io.Writer] *)

(** A byte sink: the bytes it has taken, and how much more it takes.  With
    [room = None] it takes whatever it is given; with [room = Some (k, e)]
    it takes [k] more bytes and answers a longer write with the count of
    the bytes it took and the error [e]. *)
Record Writer : Type := { taken : list byte; room : option (nat * error) }.

(** [w.Write(p)]: the writer afterwards, the count and the error. *)
Definition io_Write (w : Writer) (p : list byte) : Writer * Z * option error :=
  match room w with
  | None =>
      ({| taken := taken w ++ p; room := None |}, Z.of_nat (length p), None)
  | Some (k, e) =>
      if (length p <=? k)%nat
      then ({| taken := taken w ++ p; room := Some ((k - length p)%nat, e) |},
            Z.of_nat (length p), None)
      else ({| taken := taken w ++ firstn k p; room := Some (0%nat, e) |},
            Z.of_nat k, Some e)
  end.

(** An empty buffer that takes every write, as a [bytes.Buffer] does. *)
Definition buffer : Writer := {| taken := []; room := None |}.

(* ------------------------------------------------------------------ *)
(** ** [BlockVersion] *)

Definition BlockVersion : Type := Z.

Definition GenesisBlockVersion : BlockVersion := 1.
Definition PlainBlockVersion : BlockVersion := 2.
Definition NgBlockVersion : BlockVersion := 3.
Definition RewardBlockVersion : BlockVersion := 4.
Definition ProtobufBlockVersion : BlockVersion := 5.

(* ------------------------------------------------------------------ *)
(** ** [NxtConsensus] *)

Module NxtConsensus.

Record t : Type := {
  BaseTarget : Z;
  GenSignature : list byte
}.

Definition BinarySize (nc : t) : Z :=
  8 + Z.of_nat (length (GenSignature nc)).

End NxtConsensus.

(* ------------------------------------------------------------------ *)
(** ** [BlockID] *)

Definition BlockIDType : Type := Z.
Definition SignatureID : BlockIDType := 1.
Definition DigestID : BlockIDType := 2.

Module BlockID.

Record t : Type := {
  sig : Signature;
  dig : Digest;
  idType : BlockIDType
}.

(** The zero value [BlockID{}]. *)
Definition zero : t :=
  {| sig := Signature_zero; dig := Digest_zero; idType := 0 |}.

Definition NewBlockIDFromSignature (s : Signature) : t :=
  {| sig := s; dig := Digest_zero; idType := SignatureID |}.

Definition NewBlockIDFromDigest (d : Digest) : t :=
  {| sig := Signature_zero; dig := d; idType := DigestID |}.

(** [crypto.NewSignatureFromBytes] and [crypto.NewDigestFromBytes] are
    reached with data of exactly the right length, where they copy. *)
Definition NewBlockIDFromBytes (data : list byte) : outcome t :=
  if Z.of_nat (length data) =? SignatureSize then
    Val {| sig := data; dig := Digest_zero; idType := SignatureID |}
  else if Z.of_nat (length data) =? DigestSize then
    Val {| sig := Signature_zero; dig := data; idType := DigestID |}
  else Fail ErrInvalidBlockIDDataSize.

Definition IsValid (id : t) (version : BlockVersion) : bool :=
  if ProtobufBlockVersion <=? version
  then idType id =? DigestID
  else idType id =? SignatureID.

Definition Bytes (id : t) : list byte :=
  if idType id =? SignatureID then sig id
  else if idType id =? DigestID then dig id
  else [].

Definition IsSignature (id : t) : bool := idType id =? SignatureID.

(** The result of a streaming read: the receiver afterwards, the reader
    afterwards, the byte count and the error ([None] is nil). *)
Definition read_result : Type := t * Reader * Z * option error.

Definition read_rest (res : read_result) : Reader := snd (fst (fst res)).

Definition eof_like (err : error) : bool :=
  errors_Is err io_ErrUnexpectedEOF || errors_Is err io_EOF.

Definition readSignatureFrom (id : t) (r : Reader) : read_result :=
  let '(got, err, r') := io_ReadFull r 64 in
  let id' := {| sig := copy (sig id) got; dig := dig id; idType := idType id |} in
  let n := Z.of_nat (length got) in
  match err with
  | Some e =>
      if eof_like e
      then (id', r', n, Some (stderrs_Join ErrInvalidBlockIDDataSize e))
      else (id', r', n, Some e)
  | None => (id', r', n, None)
  end.

Definition readDigestFrom (id : t) (r : Reader) : read_result :=
  let '(got, err, r') := io_ReadFull r 32 in
  let id' := {| sig := sig id; dig := copy (dig id) got; idType := idType id |} in
  let n := Z.of_nat (length got) in
  match err with
  | Some e =>
      if eof_like e
      then (id', r', n, Some (stderrs_Join ErrInvalidBlockIDDataSize e))
      else (id', r', n, Some e)
  | None => (id', r', n, None)
  end.

Definition readUndefinedFrom (id : t) (r : Reader) : read_result :=
  let lr := io_LimitReader r SignatureSize in
  let '(got1, err1, lr1) := io_ReadFull lr 32 in
  let id1 := {| sig := sig id; dig := copy (dig id) got1; idType := idType id |} in
  let n1 := Z.of_nat (length got1) in
  match err1 with
  | Some e =>
      if eof_like e
      then (id1, advance r (length got1), n1,
            Some (stderrs_Join ErrInvalidBlockIDDataSize e))
      else (id1, advance r (length got1), n1, Some e)
  | None =>
      let '(got2, err2, _) := io_ReadFull lr1 32 in
      let id2 :=
        {| sig := firstn 32 (sig id1) ++ copy (skipn 32 (sig id1)) got2;
           dig := dig id1; idType := idType id1 |} in
      let n2 := Z.of_nat (length got2) in
      let r2 := advance r (length got1 + length got2) in
      match err2 with
      | Some e =>
          if eof_like e
          then ({| sig := sig id2; dig := dig id2; idType := DigestID |},
                r2, n1 + n2, None)
          else (id2, r2, n1 + n2, Some e)
      | None =>
          ({| sig := copy (firstn 32 (sig id2)) (dig id2) ++ skipn 32 (sig id2);
              dig := Digest_zero; idType := SignatureID |},
           r2, n1 + n2, None)
      end
  end.

Definition ReadFrom (id : t) (r : Reader) : read_result :=
  if idType id =? SignatureID then readSignatureFrom id r
  else if idType id =? DigestID then readDigestFrom id r
  else readUndefinedFrom id r.

(** [WriteTo]: the writer afterwards, and the count and the error of its
    one [Write]. *)
Definition WriteTo (id : t) (w : Writer) : Writer * Z * option error :=
  if idType id =? SignatureID then io_Write w (sig id)
  else if idType id =? DigestID then io_Write w (dig id)
  else (w, 0, Some (errors_New "undefined BlockID type")).

Section WithBase58.
Context `{Base58}.

Definition NewBlockIDFromBase58 (s : string) : outcome t :=
  let maxExpectedStringLength := 88 in
  if maxExpectedStringLength <? Z.of_nat (String.length s) then
    Fail ErrInvalidBlockIDDataSize
  else
    obind (base58_Decode s) (fun d =>
    if Z.of_nat (length d) =? SignatureSize then
      Val (NewBlockIDFromSignature (copy Signature_zero d))
    else if Z.of_nat (length d) =? DigestSize then
      Val (NewBlockIDFromDigest (copy Digest_zero d))
    else Fail ErrInvalidBlockIDDataSize).

(** [panic(err)] on any error. *)
Definition MustBlockIDFromBase58 (s : string) : outcome t :=
  match NewBlockIDFromBase58 s with
  | Val block => Val block
  | _ => Panic
  end.

Definition ToString (id : t) : string := base58_Encode (Bytes id).

End WithBase58.

(** [BlockID.Signature] *)
Definition SignatureOf (id : t) : Signature :=
  if idType id =? SignatureID then sig id else Signature_zero.

End BlockID.

(* ------------------------------------------------------------------ *)
(** ** Protobuf messages of the generated package [g] *)

(** [g.Block_Header_ChallengedHeader], the fields [block.go] fills. *)
Module g_Block_Header_ChallengedHeader.

Record t : Type := {
  BaseTarget : Z;
  GenerationSignature : list byte;
  FeatureVotes : list Z;
  Timestamp : Z;
  Generator : list byte;
  RewardVote : Z;
  StateHash : list byte;
  HeaderSignature : list byte
}.

End g_Block_Header_ChallengedHeader.

(** [g.Block_Header], the fields [block.go] fills. *)
Module g_Block_Header.

Record t : Type := {
  ChainId : Z;
  Reference : list byte;
  BaseTarget : Z;
  GenerationSignature : list byte;
  FeatureVotes : list Z;
  Timestamp : Z;
  Version : Z;
  Generator : list byte;
  RewardVote : Z;
  TransactionsRoot : list byte;
  StateHash : list byte;
  ChallengedHeader : option g_Block_Header_ChallengedHeader.t
}.

End g_Block_Header.

(** [MarshalToProtobufDeterministic] at the header message. *)
Class Protobuf : Type := {
  MarshalToProtobufDeterministic : g_Block_Header.t -> outcome (list byte)
}.

Definition int16SliceToUint32 (ins : list Z) : list Z := map uint32 ins.

(* ------------------------------------------------------------------ *)
(** ** [ChallengedHeader] *)

Module ChallengedHeader.

Record t : Type := {
  Timestamp : Z;
  NxtConsensus : NxtConsensus.t;
  Features : list Z;
  GeneratorPublicKey : PublicKey;
  RewardVote : Z;
  StateHash : Digest;
  BlockSignature : Signature
}.

(** The zero value [ChallengedHeader{}]. *)
Definition zero : t :=
  {| Timestamp := 0;
     NxtConsensus := {| NxtConsensus.BaseTarget := 0; NxtConsensus.GenSignature := [] |};
     Features := []; GeneratorPublicKey := PublicKey_zero; RewardVote := 0;
     StateHash := Digest_zero; BlockSignature := Signature_zero |}.

Section WithCrypto.
Context `{Crypto}.

Definition ToProtobuf (ch : t) : outcome g_Block_Header_ChallengedHeader.t :=
  obind (Signature_MarshalBinary (BlockSignature ch)) (fun headerSig =>
  Val {| g_Block_Header_ChallengedHeader.BaseTarget :=
           int64 (NxtConsensus.BaseTarget (NxtConsensus ch));
         g_Block_Header_ChallengedHeader.GenerationSignature :=
           NxtConsensus.GenSignature (NxtConsensus ch);
         g_Block_Header_ChallengedHeader.FeatureVotes :=
           int16SliceToUint32 (Features ch);
         g_Block_Header_ChallengedHeader.Timestamp := int64 (Timestamp ch);
         g_Block_Header_ChallengedHeader.Generator := GeneratorPublicKey ch;
         g_Block_Header_ChallengedHeader.RewardVote := RewardVote ch;
         g_Block_Header_ChallengedHeader.StateHash := StateHash ch;
         g_Block_Header_ChallengedHeader.HeaderSignature := headerSig |}).

End WithCrypto.

End ChallengedHeader.

(* ------------------------------------------------------------------ *)
(** ** [BlockHeader] *)

Definition featuresToBinary (features : list Z) : outcome (list byte) :=
  Val (flat_map (be_encode 2) features).

Fixpoint read_int16s (n : nat) (data : list byte) : list Z :=
  match n with
  | O => []
  | S n' => int16 (be_decode (firstn 2 data)) :: read_int16s n' (skipn 2 data)
  end.

(** [binary.Read] fills [len(data)/2] values from a buffer that holds at
    least that many bytes, so it does not fail. *)
Definition featuresFromBinary (data : list byte) : outcome (list Z) :=
  Val (read_int16s (Nat.div (length data) 2) data).

Module BlockHeader.

Record t : Type := {
  Version : BlockVersion;
  Timestamp : Z;
  Parent : BlockID.t;
  FeaturesCount : Z;
  Features : list Z;
  RewardVote : Z;
  ConsensusBlockLength : Z;
  NxtConsensus : NxtConsensus.t;
  TransactionBlockLength : Z;
  TransactionCount : Z;
  GeneratorPublicKey : PublicKey;
  BlockSignature : Signature;
  TransactionsRoot : list byte;
  StateHash : option Digest;
  ChallengedHeader : option ChallengedHeader.t;
  ID : BlockID.t
}.

(** The zero value [BlockHeader{}]. *)
Definition zero : t :=
  {| Version := 0; Timestamp := 0; Parent := BlockID.zero; FeaturesCount := 0;
     Features := []; RewardVote := 0; ConsensusBlockLength := 0;
     NxtConsensus := {| NxtConsensus.BaseTarget := 0; NxtConsensus.GenSignature := [] |};
     TransactionBlockLength := 0; TransactionCount := 0;
     GeneratorPublicKey := PublicKey_zero; BlockSignature := Signature_zero;
     TransactionsRoot := []; StateHash := None; ChallengedHeader := None;
     ID := BlockID.zero |}.

Definition set_Version (v : BlockVersion) (h : t) : t :=
  {| Version := v;
     Timestamp := Timestamp h;
     Parent := Parent h;
     FeaturesCount := FeaturesCount h;
     Features := Features h;
     RewardVote := RewardVote h;
     ConsensusBlockLength := ConsensusBlockLength h;
     NxtConsensus := NxtConsensus h;
     TransactionBlockLength := TransactionBlockLength h;
     TransactionCount := TransactionCount h;
     GeneratorPublicKey := GeneratorPublicKey h;
     BlockSignature := BlockSignature h;
     TransactionsRoot := TransactionsRoot h;
     StateHash := StateHash h;
     ChallengedHeader := ChallengedHeader h;
     ID := ID h |}.
Definition set_Timestamp (v : Z) (h : t) : t :=
  {| Version := Version h;
     Timestamp := v;
     Parent := Parent h;
     FeaturesCount := FeaturesCount h;
     Features := Features h;
     RewardVote := RewardVote h;
     ConsensusBlockLength := ConsensusBlockLength h;
     NxtConsensus := NxtConsensus h;
     TransactionBlockLength := TransactionBlockLength h;
     TransactionCount := TransactionCount h;
     GeneratorPublicKey := GeneratorPublicKey h;
     BlockSignature := BlockSignature h;
     TransactionsRoot := TransactionsRoot h;
     StateHash := StateHash h;
     ChallengedHeader := ChallengedHeader h;
     ID := ID h |}.
Definition set_Parent (v : BlockID.t) (h : t) : t :=
  {| Version := Version h;
     Timestamp := Timestamp h;
     Parent := v;
     FeaturesCount := FeaturesCount h;
     Features := Features h;
     RewardVote := RewardVote h;
     ConsensusBlockLength := ConsensusBlockLength h;
     NxtConsensus := NxtConsensus h;
     TransactionBlockLength := TransactionBlockLength h;
     TransactionCount := TransactionCount h;
     GeneratorPublicKey := GeneratorPublicKey h;
     BlockSignature := BlockSignature h;
     TransactionsRoot := TransactionsRoot h;
     StateHash := StateHash h;
     ChallengedHeader := ChallengedHeader h;
     ID := ID h |}.
Definition set_FeaturesCount (v : Z) (h : t) : t :=
  {| Version := Version h;
     Timestamp := Timestamp h;
     Parent := Parent h;
     FeaturesCount := v;
     Features := Features h;
     RewardVote := RewardVote h;
     ConsensusBlockLength := ConsensusBlockLength h;
     NxtConsensus := NxtConsensus h;
     TransactionBlockLength := TransactionBlockLength h;
     TransactionCount := TransactionCount h;
     GeneratorPublicKey := GeneratorPublicKey h;
     BlockSignature := BlockSignature h;
     TransactionsRoot := TransactionsRoot h;
     StateHash := StateHash h;
     ChallengedHeader := ChallengedHeader h;
     ID := ID h |}.
Definition set_Features (v : list Z) (h : t) : t :=
  {| Version := Version h;
     Timestamp := Timestamp h;
     Parent := Parent h;
     FeaturesCount := FeaturesCount h;
     Features := v;
     RewardVote := RewardVote h;
     ConsensusBlockLength := ConsensusBlockLength h;
     NxtConsensus := NxtConsensus h;
     TransactionBlockLength := TransactionBlockLength h;
     TransactionCount := TransactionCount h;
     GeneratorPublicKey := GeneratorPublicKey h;
     BlockSignature := BlockSignature h;
     TransactionsRoot := TransactionsRoot h;
     StateHash := StateHash h;
     ChallengedHeader := ChallengedHeader h;
     ID := ID h |}.
Definition set_RewardVote (v : Z) (h : t) : t :=
  {| Version := Version h;
     Timestamp := Timestamp h;
     Parent := Parent h;
     FeaturesCount := FeaturesCount h;
     Features := Features h;
     RewardVote := v;
     ConsensusBlockLength := ConsensusBlockLength h;
     NxtConsensus := NxtConsensus h;
     TransactionBlockLength := TransactionBlockLength h;
     TransactionCount := TransactionCount h;
     GeneratorPublicKey := GeneratorPublicKey h;
     BlockSignature := BlockSignature h;
     TransactionsRoot := TransactionsRoot h;
     StateHash := StateHash h;
     ChallengedHeader := ChallengedHeader h;
     ID := ID h |}.
Definition set_ConsensusBlockLength (v : Z) (h : t) : t :=
  {| Version := Version h;
     Timestamp := Timestamp h;
     Parent := Parent h;
     FeaturesCount := FeaturesCount h;
     Features := Features h;
     RewardVote := RewardVote h;
     ConsensusBlockLength := v;
     NxtConsensus := NxtConsensus h;
     TransactionBlockLength := TransactionBlockLength h;
     TransactionCount := TransactionCount h;
     GeneratorPublicKey := GeneratorPublicKey h;
     BlockSignature := BlockSignature h;
     TransactionsRoot := TransactionsRoot h;
     StateHash := StateHash h;
     ChallengedHeader := ChallengedHeader h;
     ID := ID h |}.
Definition set_NxtConsensus (v : NxtConsensus.t) (h : t) : t :=
  {| Version := Version h;
     Timestamp := Timestamp h;
     Parent := Parent h;
     FeaturesCount := FeaturesCount h;
     Features := Features h;
     RewardVote := RewardVote h;
     ConsensusBlockLength := ConsensusBlockLength h;
     NxtConsensus := v;
     TransactionBlockLength := TransactionBlockLength h;
     TransactionCount := TransactionCount h;
     GeneratorPublicKey := GeneratorPublicKey h;
     BlockSignature := BlockSignature h;
     TransactionsRoot := TransactionsRoot h;
     StateHash := StateHash h;
     ChallengedHeader := ChallengedHeader h;
     ID := ID h |}.
Definition set_TransactionBlockLength (v : Z) (h : t) : t :=
  {| Version := Version h;
     Timestamp := Timestamp h;
     Parent := Parent h;
     FeaturesCount := FeaturesCount h;
     Features := Features h;
     RewardVote := RewardVote h;
     ConsensusBlockLength := ConsensusBlockLength h;
     NxtConsensus := NxtConsensus h;
     TransactionBlockLength := v;
     TransactionCount := TransactionCount h;
     GeneratorPublicKey := GeneratorPublicKey h;
     BlockSignature := BlockSignature h;
     TransactionsRoot := TransactionsRoot h;
     StateHash := StateHash h;
     ChallengedHeader := ChallengedHeader h;
     ID := ID h |}.
Definition set_TransactionCount (v : Z) (h : t) : t :=
  {| Version := Version h;
     Timestamp := Timestamp h;
     Parent := Parent h;
     FeaturesCount := FeaturesCount h;
     Features := Features h;
     RewardVote := RewardVote h;
     ConsensusBlockLength := ConsensusBlockLength h;
     NxtConsensus := NxtConsensus h;
     TransactionBlockLength := TransactionBlockLength h;
     TransactionCount := v;
     GeneratorPublicKey := GeneratorPublicKey h;
     BlockSignature := BlockSignature h;
     TransactionsRoot := TransactionsRoot h;
     StateHash := StateHash h;
     ChallengedHeader := ChallengedHeader h;
     ID := ID h |}.
Definition set_GeneratorPublicKey (v : PublicKey) (h : t) : t :=
  {| Version := Version h;
     Timestamp := Timestamp h;
     Parent := Parent h;
     FeaturesCount := FeaturesCount h;
     Features := Features h;
     RewardVote := RewardVote h;
     ConsensusBlockLength := ConsensusBlockLength h;
     NxtConsensus := NxtConsensus h;
     TransactionBlockLength := TransactionBlockLength h;
     TransactionCount := TransactionCount h;
     GeneratorPublicKey := v;
     BlockSignature := BlockSignature h;
     TransactionsRoot := TransactionsRoot h;
     StateHash := StateHash h;
     ChallengedHeader := ChallengedHeader h;
     ID := ID h |}.
Definition set_BlockSignature (v : Signature) (h : t) : t :=
  {| Version := Version h;
     Timestamp := Timestamp h;
     Parent := Parent h;
     FeaturesCount := FeaturesCount h;
     Features := Features h;
     RewardVote := RewardVote h;
     ConsensusBlockLength := ConsensusBlockLength h;
     NxtConsensus := NxtConsensus h;
     TransactionBlockLength := TransactionBlockLength h;
     TransactionCount := TransactionCount h;
     GeneratorPublicKey := GeneratorPublicKey h;
     BlockSignature := v;
     TransactionsRoot := TransactionsRoot h;
     StateHash := StateHash h;
     ChallengedHeader := ChallengedHeader h;
     ID := ID h |}.
Definition set_TransactionsRoot (v : list byte) (h : t) : t :=
  {| Version := Version h;
     Timestamp := Timestamp h;
     Parent := Parent h;
     FeaturesCount := FeaturesCount h;
     Features := Features h;
     RewardVote := RewardVote h;
     ConsensusBlockLength := ConsensusBlockLength h;
     NxtConsensus := NxtConsensus h;
     TransactionBlockLength := TransactionBlockLength h;
     TransactionCount := TransactionCount h;
     GeneratorPublicKey := GeneratorPublicKey h;
     BlockSignature := BlockSignature h;
     TransactionsRoot := v;
     StateHash := StateHash h;
     ChallengedHeader := ChallengedHeader h;
     ID := ID h |}.
Definition set_StateHash (v : option Digest) (h : t) : t :=
  {| Version := Version h;
     Timestamp := Timestamp h;
     Parent := Parent h;
     FeaturesCount := FeaturesCount h;
     Features := Features h;
     RewardVote := RewardVote h;
     ConsensusBlockLength := ConsensusBlockLength h;
     NxtConsensus := NxtConsensus h;
     TransactionBlockLength := TransactionBlockLength h;
     TransactionCount := TransactionCount h;
     GeneratorPublicKey := GeneratorPublicKey h;
     BlockSignature := BlockSignature h;
     TransactionsRoot := TransactionsRoot h;
     StateHash := v;
     ChallengedHeader := ChallengedHeader h;
     ID := ID h |}.
Definition set_ChallengedHeader (v : option ChallengedHeader.t) (h : t) : t :=
  {| Version := Version h;
     Timestamp := Timestamp h;
     Parent := Parent h;
     FeaturesCount := FeaturesCount h;
     Features := Features h;
     RewardVote := RewardVote h;
     ConsensusBlockLength := ConsensusBlockLength h;
     NxtConsensus := NxtConsensus h;
     TransactionBlockLength := TransactionBlockLength h;
     TransactionCount := TransactionCount h;
     GeneratorPublicKey := GeneratorPublicKey h;
     BlockSignature := BlockSignature h;
     TransactionsRoot := TransactionsRoot h;
     StateHash := StateHash h;
     ChallengedHeader := v;
     ID := ID h |}.
Definition set_ID (v : BlockID.t) (h : t) : t :=
  {| Version := Version h;
     Timestamp := Timestamp h;
     Parent := Parent h;
     FeaturesCount := FeaturesCount h;
     Features := Features h;
     RewardVote := RewardVote h;
     ConsensusBlockLength := ConsensusBlockLength h;
     NxtConsensus := NxtConsensus h;
     TransactionBlockLength := TransactionBlockLength h;
     TransactionCount := TransactionCount h;
     GeneratorPublicKey := GeneratorPublicKey h;
     BlockSignature := BlockSignature h;
     TransactionsRoot := TransactionsRoot h;
     StateHash := StateHash h;
     ChallengedHeader := ChallengedHeader h;
     ID := v |}.

Definition BaseTarget (h : t) : Z := NxtConsensus.BaseTarget (NxtConsensus h).
Definition GenSignature (h : t) : list byte := NxtConsensus.GenSignature (NxtConsensus h).
Definition set_BaseTarget (v : Z) (h : t) : t :=
  set_NxtConsensus {| NxtConsensus.BaseTarget := v;
                      NxtConsensus.GenSignature := GenSignature h |} h.
Definition set_GenSignature (v : list byte) (h : t) : t :=
  set_NxtConsensus {| NxtConsensus.BaseTarget := BaseTarget h;
                      NxtConsensus.GenSignature := v |} h.


Definition GetStateHash (b : t) : Digest * bool :=
  match StateHash b with
  | Some sh => (sh, true)
  | None => (Digest_zero, false)
  end.

Definition GetChallengedHeader (b : t) : ChallengedHeader.t * bool :=
  match ChallengedHeader b with
  | Some ch => (ch, true)
  | None => (ChallengedHeader.zero, false)
  end.

(** [origHeader] has a pointer receiver and returns a pointer: the
    receiver afterwards, then the header pointed to and the flag. *)
Definition origHeader : M t (t * bool) :=
  fun b =>
    let '(ch, present) := GetChallengedHeader b in
    if negb present then (b, Val (b, false))
    else
      let chSH := ChallengedHeader.StateHash ch in
      let orig := b in
      let orig := set_ChallengedHeader None orig in
      let orig := set_Timestamp (ChallengedHeader.Timestamp ch) orig in
      let orig := set_NxtConsensus (ChallengedHeader.NxtConsensus ch) orig in
      let orig := set_Features (ChallengedHeader.Features ch) orig in
      let orig := set_GeneratorPublicKey (ChallengedHeader.GeneratorPublicKey ch) orig in
      let orig := set_RewardVote (ChallengedHeader.RewardVote ch) orig in
      let orig := set_StateHash (Some chSH) orig in
      let orig := set_BlockSignature (ChallengedHeader.BlockSignature ch) orig in
      (b, Val (orig, true)).

Definition BlockID (b : t) : BlockID.t :=
  if Version b <? ProtobufBlockVersion
  then BlockID.NewBlockIDFromSignature (BlockSignature b)
  else ID b.

Section WithCollaborators.
Context `{Crypto} `{Protobuf}.

Definition HeaderToProtobufHeader (b : t) (scheme : Scheme)
  : outcome g_Block_Header.t :=
  obind
    (let '(ch, present) := GetChallengedHeader b in
     if present
     then obind (ChallengedHeader.ToProtobuf ch) (fun m => Val (Some m))
     else Val None)
    (fun challengedHeader =>
  let stateHash :=
    let '(sh, present) := GetStateHash b in
    if present then sh else [] in
  Val {| g_Block_Header.ChainId := scheme;
         g_Block_Header.Reference := BlockID.Bytes (Parent b);
         g_Block_Header.BaseTarget := int64 (BaseTarget b);
         g_Block_Header.GenerationSignature := GenSignature b;
         g_Block_Header.FeatureVotes := int16SliceToUint32 (Features b);
         g_Block_Header.Timestamp := int64 (Timestamp b);
         g_Block_Header.Version := Version b;
         g_Block_Header.Generator := GeneratorPublicKey b;
         g_Block_Header.RewardVote := RewardVote b;
         g_Block_Header.TransactionsRoot := TransactionsRoot b;
         g_Block_Header.StateHash := stateHash;
         g_Block_Header.ChallengedHeader := challengedHeader |}).

Definition MarshalHeaderToProtobufWithoutSignature (b : t) (scheme : Scheme)
  : outcome (list byte) :=
  obind (HeaderToProtobufHeader b scheme) MarshalToProtobufDeterministic.

Definition GenerateBlockID (scheme : Scheme) : M t unit :=
  (b <- get ;;
   if Version b <? ProtobufBlockVersion then
     modify (set_ID (BlockID.NewBlockIDFromSignature (BlockSignature b)))
   else
     headerBytes <- lift (MarshalHeaderToProtobufWithoutSignature b scheme) ;;
     hash <- lift (crypto_FastHash headerBytes) ;;
     modify (set_ID (BlockID.NewBlockIDFromDigest hash)))%go.

Definition UnmarshalHeaderFromBinary_body (data : Slice) (scheme : Scheme)
  : M t unit :=
  (v <- lift (index data 0) ;;
   let version := byte_to_Z v in
   modify (set_Version version) ;;;
   if ProtobufBlockVersion <=? version then
     raise (errors_New "binary format is not defined for Block versions > 4")
   else
   ts <- lift (reslice data 1 9) ;;
   modify (set_Timestamp (be_decode ts)) ;;;
   parentBytes <- lift (reslice data 9 73) ;;
   parent <- lift (BlockID.NewBlockIDFromBytes parentBytes) ;;
   modify (set_Parent parent) ;;;
   cbl <- lift (reslice data 73 77) ;;
   modify (set_ConsensusBlockLength (be_decode cbl)) ;;;
   bt <- lift (reslice data 77 85) ;;
   modify (set_BaseTarget (be_decode bt)) ;;;
   modify (set_GenSignature (zeros 32)) ;;;
   gs <- lift (reslice data 85 117) ;;
   modify (fun b => set_GenSignature (copy (GenSignature b) gs) b) ;;;
   tbl <- lift (reslice data 117 121) ;;
   let transactionBlockLength := be_decode tbl in
   modify (set_TransactionBlockLength transactionBlockLength) ;;;
   modify (set_RewardVote (-1)) ;;;
   (if NgBlockVersion <=? version then
      if transactionBlockLength <? 4 then
        raise (errors_New "TransactionBlockLength is too small")
      else
      tc <- lift (reslice data 121 125) ;;
      modify (set_TransactionCount (be_decode tc)) ;;;
      fc <- lift (reslice data 125 129) ;;
      let featuresCount := be_decode fc in
      modify (set_FeaturesCount featuresCount) ;;;
      modify (set_Features (repeat 0 (Z.to_nat featuresCount))) ;;;
      fbs <- lift (reslice data 129 (129 + 2 * featuresCount)) ;;
      fb <- wrap (lift (featuresFromBinary fbs))
              "failed to convert features from binary representation" ;;
      modify (fun b => set_Features (copy (Features b) fb) b) ;;;
      if RewardBlockVersion <=? version then
        let pos := 129 + 2 * featuresCount in
        rv <- lift (reslice data pos (pos + 8)) ;;
        modify (set_RewardVote (int64 (be_decode rv)))
      else ret tt
    else
      if transactionBlockLength <? 1 then
        raise (errors_New "TransactionBlockLength is too small")
      else
      tcb <- lift (index data 121) ;;
      modify (set_TransactionCount (byte_to_Z tcb)) ;;;
      modify (set_Features [])) ;;;
   pk <- lift (reslice data (len data - 64 - 32) (len data - 64)) ;;
   modify (fun b => set_GeneratorPublicKey (copy (GeneratorPublicKey b) pk) b) ;;;
   sg <- lift (reslice_from data (len data - 64)) ;;
   modify (fun b => set_BlockSignature (copy (BlockSignature b) sg) b) ;;;
   wrap (GenerateBlockID scheme) "failed to generate block ID")%go.

Definition UnmarshalHeaderFromBinary (data : Slice) (scheme : Scheme) (b : t)
  : t * returned :=
  recover_invalid_data_size (UnmarshalHeaderFromBinary_body data scheme) b.

End WithCollaborators.

(** [res] is written at fixed offsets of a 121-byte array and then
    appended to; the array after the writes is the concatenation below,
    the generation signature copied into 32 zero bytes. *)
Definition MarshalHeaderToBinary (b : t) : outcome (list byte) :=
  if ProtobufBlockVersion <=? Version b then
    Fail (errors_New
      "BlockHeader.MarshalHeaderToBinary: binary format is not defined for Block versions > 4")
  else
  let parentBytes := BlockID.Bytes (Parent b) in
  if negb (Z.of_nat (length parentBytes) =? SignatureSize) then
    Fail (errors_New "bad parent length for non-protobuf block")
  else
  let res :=
    [Z_to_byte (Version b)] ++
    be_encode 8 (Timestamp b) ++
    parentBytes ++
    be_encode 4 (ConsensusBlockLength b) ++
    be_encode 8 (BaseTarget b) ++
    copy (zeros 32) (GenSignature b) ++
    be_encode 4 (TransactionBlockLength b) in
  obind
    (if NgBlockVersion <=? Version b then
       let buf :=
         be_encode 4 (uint32 (TransactionCount b)) ++
         be_encode 4 (uint32 (FeaturesCount b)) in
       let res := res ++ buf in
       obind (featuresToBinary (Features b)) (fun fb =>
       let res := res ++ fb in
       if RewardBlockVersion <=? Version b
       then Val (res ++ be_encode 8 (uint64 (RewardVote b)))
       else Val res)
     else Val (res ++ [Z_to_byte (TransactionCount b)]))
    (fun res =>
  Val (res ++ GeneratorPublicKey b ++ BlockSignature b)).

End BlockHeader.

(** The header [origHeader] builds from [h] and its challenged header. *)
Definition recovered (h : BlockHeader.t) (ch : ChallengedHeader.t) : BlockHeader.t :=
  {| BlockHeader.Version := BlockHeader.Version h;
     BlockHeader.Timestamp := ChallengedHeader.Timestamp ch;
     BlockHeader.Parent := BlockHeader.Parent h;
     BlockHeader.FeaturesCount := BlockHeader.FeaturesCount h;
     BlockHeader.Features := ChallengedHeader.Features ch;
     BlockHeader.RewardVote := ChallengedHeader.RewardVote ch;
     BlockHeader.ConsensusBlockLength := BlockHeader.ConsensusBlockLength h;
     BlockHeader.NxtConsensus := ChallengedHeader.NxtConsensus ch;
     BlockHeader.TransactionBlockLength := BlockHeader.TransactionBlockLength h;
     BlockHeader.TransactionCount := BlockHeader.TransactionCount h;
     BlockHeader.GeneratorPublicKey := ChallengedHeader.GeneratorPublicKey ch;
     BlockHeader.BlockSignature := ChallengedHeader.BlockSignature ch;
     BlockHeader.TransactionsRoot := BlockHeader.TransactionsRoot h;
     BlockHeader.StateHash := Some (ChallengedHeader.StateHash ch);
     BlockHeader.ChallengedHeader := None;
     BlockHeader.ID := BlockHeader.ID h |}.

(* ------------------------------------------------------------------ *)
(** ** [Transactions] *)

(** [g.Block]: header, signature and the signed transactions, whose
    message type [PBTx] belongs to the transaction codec. *)
Module g_Block.

Record t (PBTx : Type) : Type := {
  Header : g_Block_Header.t;
  Signature : list byte;
  Transactions : list PBTx
}.

End g_Block.

(** [ToProtobufSigned] of the [Transaction] interface and [MarshalVTStrict]
    of [g.Block]. *)
Class ProtobufBlock (T PBTx : Type) : Type := {
  tx_ToProtobufSigned : T -> Scheme -> outcome PBTx;
  MarshalVTStrict : g_Block.t PBTx -> outcome (list byte)
}.

(** What [Block.UnmarshalFromProtobuf] takes from outside [block.go]:
    [UnmarshalVT] of [g.Block], the converter's step from the message of
    one signed transaction to the transaction, and the values the
    converter gives [ConsensusBlockLength] and [TransactionBlockLength],
    the two length fields of the binary layout, for which the message has
    no field. *)
Class ProtobufDecoding (T PBTx : Type) : Type := {
  UnmarshalVT : list byte -> outcome (g_Block.t PBTx);
  SignedTransaction : PBTx -> outcome T;
  binary_lengths : g_Block.t PBTx -> Z * Z
}.

Module Transactions.

Section WithTransaction.
Context {T : Type} `{Transaction T}.

Definition Count (a : list T) : Z := Z.of_nat (length a).

Fixpoint BinarySize (a : list T) : Z :=
  match a with
  | [] => 0
  | tx :: a' => 4 + tx_BinarySize tx + BinarySize a'
  end.

(** The bytes written to [w]; a byte buffer does not fail. *)
Fixpoint WriteToBinary (a : list T) (scheme : Scheme) : outcome (list byte) :=
  match a with
  | [] => Val []
  | t :: a' =>
      obind (tx_MarshalBinary t scheme) (fun bts =>
      obind (WriteToBinary a' scheme) (fun rest =>
      Val (be_encode 4 (uint32 (Z.of_nat (length bts))) ++ bts ++ rest)))
  end.

(** Modelled from the spec: [BytesToTransactions], the decoder behind
    [NewTransactionsFromBytes], is not in [block.go].  "Binary form:
    sequence of [4-byte BE length][tx bytes] entries, one per
    transaction, in list order; decoding stops when the declared number
    of entries (supplied by the caller, taken from the header's
    transaction count) have been consumed."  An entry that does not fit
    the remaining data is an error. *)
Fixpoint BytesToTransactions (count : nat) (data : list byte) (scheme : Scheme)
  : outcome (list T) :=
  match count with
  | O => Val []
  | S count' =>
      if (length data <? 4)%nat then
        Fail (errors_New "invalid data size")
      else
        let n := Z.to_nat (be_decode (firstn 4 data)) in
        if (length data <? 4 + n)%nat then
          Fail (errors_New "invalid data size")
        else
          obind (BytesToTransaction (firstn n (skipn 4 data)) scheme) (fun tx =>
          obind (BytesToTransactions count' (skipn (4 + n) data) scheme) (fun rest =>
          Val (tx :: rest)))
  end.

Definition NewTransactionsFromBytes (data : list byte) (count : Z) (scheme : Scheme)
  : outcome (list T) :=
  BytesToTransactions (Z.to_nat count) data scheme.

Fixpoint ToProtobuf {PBTx : Type} `{ProtobufBlock T PBTx}
  (a : list T) (scheme : Scheme) : outcome (list PBTx) :=
  match a with
  | [] => Val []
  | tx :: a' =>
      obind (tx_ToProtobufSigned tx scheme) (fun protoTx =>
      obind (ToProtobuf a' scheme) (fun rest => Val (protoTx :: rest)))
  end.

Definition Join (a other : list T) : list T := a ++ other.

End WithTransaction.

Section WithSignedProtobuf.
Context {T : Type} `{Transaction T} `{SignedProtobuf T}.

(** The protobuf branch of [WriteTo]. *)
Fixpoint write_signed_protobuf (a : list T) (scheme : Scheme) : outcome (list byte) :=
  match a with
  | [] => Val []
  | t :: a' =>
      obind (tx_MarshalSignedToProtobuf t scheme) (fun bts =>
      obind (write_signed_protobuf a' scheme) (fun rest =>
      Val (be_encode 4 (uint32 (Z.of_nat (length bts))) ++ bts ++ rest)))
  end.

Definition WriteTo (proto : bool) (scheme : Scheme) (a : list T) : outcome (list byte) :=
  if negb proto then WriteToBinary a scheme
  else write_signed_protobuf a scheme.

(** [data[k:]] as a slice. *)
Definition slice_from (data : Slice) (k : Z) : outcome Slice :=
  if (0 <=? k) && (k <=? len data)
  then Val {| elems := skipn (Z.to_nat k) (elems data); spare := spare data |}
  else Panic.

(** The loop of [UnmarshalFromProtobuf]; every round drops at least four
    bytes of [data], so [length (elems data)] rounds are enough and the
    last branch is not reached from there. *)
Fixpoint unmarshal_loop (rounds : nat) (data : Slice) (transactions : list T)
  : outcome (list T) :=
  if len data <=? 0 then Val transactions
  else
    match rounds with
    | O => Panic
    | S rounds' =>
        obind (reslice data 0 4) (fun sizeBytes =>
        let txSize := be_decode sizeBytes in
        if len data <? txSize + 4 then Fail (errors_New "invalid data size")
        else
          obind (reslice data 4 (txSize + 4)) (fun txBytes =>
          obind (SignedTxFromProtobuf txBytes) (fun tx =>
          obind (slice_from data (txSize + 4)) (fun data' =>
          unmarshal_loop rounds' data' (transactions ++ [tx])))))
    end.

Definition UnmarshalFromProtobuf (data : Slice) : M (list T) unit :=
  fun a =>
    match unmarshal_loop (length (elems data)) data [] with
    | Val transactions => (transactions, Val tt)
    | Fail e => (a, Fail e)
    | Panic => (a, Panic)
    end.

(** [Join] as written: a fresh slice of [other.Count()+a.Count()] nil
    entries, then two copies. *)
Definition JoinCopying (a other : list T) : list (option T) :=
  let newTransactions : list (option T) :=
    repeat None (Z.to_nat (Count other + Count a)) in
  let newTransactions := copy newTransactions (map Some a) in
  firstn (Z.to_nat (Count a)) newTransactions ++
  copy (skipn (Z.to_nat (Count a)) newTransactions) (map Some other).

End WithSignedProtobuf.

End Transactions.

(* ------------------------------------------------------------------ *)
(** ** [Block] *)

Module Block.

Section WithCollaborators.
Context {T PBTx : Type}.
Context `{Transaction T} `{Crypto} `{Protobuf} `{ProtobufBlock T PBTx}.

Record t : Type := {
  BlockHeader : BlockHeader.t;
  Transactions : list T
}.

(** The zero value [Block{}]. *)
Definition zero : t := {| BlockHeader := BlockHeader.zero; Transactions := [] |}.

Definition set_Transactions (txs : list T) (b : t) : t :=
  {| BlockHeader := BlockHeader b; Transactions := txs |}.

(** A write to a promoted field of the embedded header. *)
Definition set_header (f : BlockHeader.t -> BlockHeader.t) (b : t) : t :=
  {| BlockHeader := f (BlockHeader b); Transactions := Transactions b |}.

(** A [BlockHeader] method called on the block. *)
Definition on_header {A : Type} (m : M BlockHeader.t A) : M t A :=
  fun b => let '(h, r) := m (BlockHeader b) in
           ({| BlockHeader := h; Transactions := Transactions b |}, r).

Definition Version (b : t) : BlockVersion := BlockHeader.Version (BlockHeader b).

Fixpoint push_all (tree : MerkleTree) (txs : list T) (scheme : Scheme)
  : outcome MerkleTree :=
  match txs with
  | [] => Val tree
  | tx :: txs' =>
      obind (tx_MerkleBytes tx scheme) (fun bs =>
      push_all (MerkleTree_Push tree bs) txs' scheme)
  end.

Definition transactionsRoot (b : t) (scheme : Scheme) : outcome (list byte) :=
  if Version b <? ProtobufBlockVersion then
    Fail (errors_Errorf
            "no transactions root prior block version %d, current version %d"
            [ProtobufBlockVersion; Version b])
  else
    obind crypto_NewMerkleTree (fun tree =>
    obind (push_all tree (Transactions b) scheme) (fun tree =>
    Val (MerkleTree_Root tree))).

Definition SetTransactionsRoot (scheme : Scheme) : M t unit :=
  (b <- get ;;
   rh <- lift (transactionsRoot b scheme) ;;
   modify (set_header (BlockHeader.set_TransactionsRoot rh)))%go.

Definition SetTransactionsRootIfPossible (scheme : Scheme) : M t unit :=
  (b <- get ;;
   if Version b <? ProtobufBlockVersion then ret tt
   else SetTransactionsRoot scheme)%go.

(** The bytes written to [w]. *)
Definition WriteToWithoutSignature (b : t) (scheme : Scheme) : outcome (list byte) :=
  let h := BlockHeader b in
  if ProtobufBlockVersion <=? Version b then
    Fail (errors_New "binary format is not defined for Block versions > 4")
  else
  let parentBytes := BlockID.Bytes (BlockHeader.Parent h) in
  if negb (Z.of_nat (length parentBytes) =? SignatureSize) then
    Fail (errors_New "bad parent length for non-protobuf block")
  else
  obind (Transactions.WriteToBinary (Transactions b) scheme) (fun txs =>
  obind
    (if NgBlockVersion <=? Version b then
       obind (featuresToBinary (BlockHeader.Features h)) (fun fb =>
       Val (be_encode 4 (uint32 (BlockHeader.FeaturesCount h)) ++ fb ++
            (if RewardBlockVersion <=? Version b
             then be_encode 8 (BlockHeader.RewardVote h) else [])))
     else Val [])
    (fun features =>
  Val ([Z_to_byte (Version b)] ++
       be_encode 8 (BlockHeader.Timestamp h) ++
       parentBytes ++
       be_encode 4 (BlockHeader.ConsensusBlockLength h) ++
       be_encode 8 (BlockHeader.BaseTarget h) ++
       BlockHeader.GenSignature h ++
       be_encode 4 (BlockHeader.TransactionBlockLength h) ++
       (if NgBlockVersion <=? Version b
        then be_encode 4 (uint32 (BlockHeader.TransactionCount h))
        else [Z_to_byte (BlockHeader.TransactionCount h)]) ++
       txs ++
       features ++
       BlockHeader.GeneratorPublicKey h))).

Definition WriteTo (b : t) (scheme : Scheme) : outcome (list byte) :=
  if ProtobufBlockVersion <=? Version b then
    Fail (errors_New "binary format is not defined for Block versions > 4")
  else
    obind (WriteToWithoutSignature b scheme) (fun bs =>
    Val (bs ++ BlockHeader.BlockSignature (BlockHeader b))).

Definition MarshalBinary (b : t) (scheme : Scheme) : outcome (list byte) :=
  if ProtobufBlockVersion <=? Version b then
    Fail (errors_New "binary format is not defined for Block versions > 4")
  else WriteTo b scheme.

(** [BlockHeader.HeaderToProtobuf] *)
Definition HeaderToProtobuf (h : BlockHeader.t) (scheme : Scheme)
  : outcome (g_Block.t PBTx) :=
  obind (Signature_MarshalBinary (BlockHeader.BlockSignature h)) (fun sig =>
  obind (BlockHeader.HeaderToProtobufHeader h scheme) (fun header =>
  Val {| g_Block.Header := header; g_Block.Signature := sig;
         g_Block.Transactions := [] |})).

Definition ToProtobuf (b : t) (scheme : Scheme) : outcome (g_Block.t PBTx) :=
  obind (HeaderToProtobuf (BlockHeader b) scheme) (fun protoBlock =>
  obind (Transactions.ToProtobuf (Transactions b) scheme) (fun protoTransactions =>
  Val {| g_Block.Header := g_Block.Header protoBlock;
         g_Block.Signature := g_Block.Signature protoBlock;
         g_Block.Transactions := protoTransactions |})).

Definition MarshalToProtobuf (b : t) (scheme : Scheme) : outcome (list byte) :=
  obind (ToProtobuf b scheme) MarshalVTStrict.

Definition Marshal (b : t) (scheme : Scheme) : outcome (list byte) :=
  if ProtobufBlockVersion <=? Version b
  then MarshalToProtobuf b scheme
  else MarshalBinary b scheme.

(** [(false, err)] is [Fail err]. *)
Definition VerifySignature (b : t) (scheme : Scheme) : outcome bool :=
  let h := BlockHeader b in
  if Version b <? ProtobufBlockVersion then
    obind (WriteToWithoutSignature b scheme) (fun bs =>
    Val (crypto_Verify (BlockHeader.GeneratorPublicKey h)
                       (BlockHeader.BlockSignature h) bs))
  else
    match BlockHeader.MarshalHeaderToProtobufWithoutSignature h scheme with
    | Fail e => Fail (errors_Wrap e "failed to marshal header to protobuf")
    | Panic => Panic
    | Val headerBytes =>
        let isHeaderValid :=
          crypto_Verify (BlockHeader.GeneratorPublicKey h)
                        (BlockHeader.BlockSignature h) headerBytes in
        if negb isHeaderValid then Val false
        else
          obind (snd (BlockHeader.origHeader h)) (fun '(origHeader, changed) =>
          if negb changed then Val true
          else
            match BlockHeader.MarshalHeaderToProtobufWithoutSignature
                    origHeader scheme with
            | Fail e =>
                Fail (errors_Wrap e "failed to marshal challenged header to protobuf")
            | Panic => Panic
            | Val origHeaderBytes =>
                Val (crypto_Verify (BlockHeader.GeneratorPublicKey origHeader)
                                   (BlockHeader.BlockSignature origHeader)
                                   origHeaderBytes)
            end)
    end.

(** [(false, err)] is [Fail err]. *)
Definition VerifyTransactionsRoot (b : t) (scheme : Scheme) : outcome bool :=
  if Version b <? ProtobufBlockVersion then Val true
  else
    obind (transactionsRoot b scheme) (fun rh =>
    Val (bytes_Equal (BlockHeader.TransactionsRoot (BlockHeader b)) rh)).

(** [b.Transactions, err = NewTransactionsFromBytes(...)] followed by the
    wrapped early return; the collaborator hands back nil with an error. *)
Definition read_transactions (transBytes : list byte) (scheme : Scheme) : M t unit :=
  fun b =>
    match Transactions.NewTransactionsFromBytes
            transBytes (BlockHeader.TransactionCount (BlockHeader b)) scheme with
    | Val txs => (set_Transactions txs b, Val tt)
    | Fail e =>
        (set_Transactions [] b,
         Fail (errors_Wrap e "failed to unmarshal transactions from bytes"))
    | Panic => (b, Panic)
    end.

Definition UnmarshalBinary_body (data : Slice) (scheme : Scheme) : M t unit :=
  (v <- lift (index data 0) ;;
   let version := byte_to_Z v in
   modify (set_header (BlockHeader.set_Version version)) ;;;
   if ProtobufBlockVersion <=? version then
     raise (errors_New "binary format is not defined for Block versions > 4")
   else
   ts <- lift (reslice data 1 9) ;;
   modify (set_header (BlockHeader.set_Timestamp (be_decode ts))) ;;;
   parentBytes <- lift (reslice data 9 73) ;;
   parent <- lift (BlockID.NewBlockIDFromBytes parentBytes) ;;
   modify (set_header (BlockHeader.set_Parent parent)) ;;;
   cbl <- lift (reslice data 73 77) ;;
   modify (set_header (BlockHeader.set_ConsensusBlockLength (be_decode cbl))) ;;;
   bt <- lift (reslice data 77 85) ;;
   modify (set_header (BlockHeader.set_BaseTarget (be_decode bt))) ;;;
   modify (set_header (BlockHeader.set_GenSignature (zeros 32))) ;;;
   gs <- lift (reslice data 85 117) ;;
   modify (set_header (fun h =>
     BlockHeader.set_GenSignature (copy (BlockHeader.GenSignature h) gs) h)) ;;;
   tbl <- lift (reslice data 117 121) ;;
   let transactionBlockLength := be_decode tbl in
   modify (set_header (BlockHeader.set_TransactionBlockLength transactionBlockLength)) ;;;
   modify (set_header (BlockHeader.set_RewardVote (-1))) ;;;
   (if NgBlockVersion <=? version then
      if transactionBlockLength <? 4 then
        raise (errors_New "TransactionBlockLength is too small")
      else
      tc <- lift (reslice data 121 125) ;;
      modify (set_header (BlockHeader.set_TransactionCount (be_decode tc))) ;;;
      let txEnd := uint32 (121 + transactionBlockLength) in
      transBytes <- lift (reslice data 125 txEnd) ;;
      read_transactions transBytes scheme ;;;
      let featuresStart := uint32 (txEnd + 4) in
      fc <- lift (reslice data txEnd featuresStart) ;;
      let featuresCount := be_decode fc in
      modify (set_header (BlockHeader.set_FeaturesCount featuresCount)) ;;;
      modify (set_header (BlockHeader.set_Features (repeat 0 (Z.to_nat featuresCount)))) ;;;
      fbs <- lift (reslice data featuresStart
                     (uint32 (featuresStart + uint32 (2 * featuresCount)))) ;;
      fb <- wrap (lift (featuresFromBinary fbs))
              "failed to convert features from binary representation" ;;
      modify (set_header (fun h =>
        BlockHeader.set_Features (copy (BlockHeader.Features h) fb) h)) ;;;
      if RewardBlockVersion <=? version then
        let pos := uint32 (featuresStart + uint32 (2 * featuresCount)) in
        rv <- lift (reslice data pos (uint32 (pos + 8))) ;;
        modify (set_header (BlockHeader.set_RewardVote (int64 (be_decode rv))))
      else ret tt
    else
      if transactionBlockLength <? 1 then
        raise (errors_New "TransactionBlockLength is too small")
      else
      tcb <- lift (index data 121) ;;
      modify (set_header (BlockHeader.set_TransactionCount (byte_to_Z tcb))) ;;;
      transBytes <- lift (reslice data 122
                            (uint32 (uint32 (122 + transactionBlockLength) - 1))) ;;
      read_transactions transBytes scheme ;;;
      modify (set_header (BlockHeader.set_Features []))) ;;;
   pk <- lift (reslice data (len data - 64 - 32) (len data - 64)) ;;
   modify (set_header (fun h =>
     BlockHeader.set_GeneratorPublicKey (copy (BlockHeader.GeneratorPublicKey h) pk) h)) ;;;
   sg <- lift (reslice_from data (len data - 64)) ;;
   modify (set_header (fun h =>
     BlockHeader.set_BlockSignature (copy (BlockHeader.BlockSignature h) sg) h)) ;;;
   wrap (on_header (BlockHeader.GenerateBlockID scheme))
        "failed to generate block ID")%go.

Definition UnmarshalBinary (data : Slice) (scheme : Scheme) (b : t)
  : t * returned :=
  recover_invalid_data_size (UnmarshalBinary_body data scheme) b.

Definition CreateBlock
  (transactions : list T) (timestamp : Z) (parentID : BlockID.t)
  (publicKey : PublicKey) (nxtConsensus : NxtConsensus.t)
  (version : BlockVersion) (features : list Z) (rewardVote : Z)
  (scheme : Scheme) (stateHash : option Digest) : outcome t :=
  let consensusLength := NxtConsensus.BinarySize nxtConsensus in
  let b :=
    {| BlockHeader :=
         {| BlockHeader.Version := version;
            BlockHeader.Timestamp := timestamp;
            BlockHeader.Parent := parentID;
            BlockHeader.FeaturesCount := Z.of_nat (length features);
            BlockHeader.Features := features;
            BlockHeader.RewardVote := rewardVote;
            BlockHeader.ConsensusBlockLength := uint32 consensusLength;
            BlockHeader.NxtConsensus := nxtConsensus;
            BlockHeader.TransactionBlockLength := 0;
            BlockHeader.TransactionCount := Transactions.Count transactions;
            BlockHeader.GeneratorPublicKey := publicKey;
            BlockHeader.BlockSignature := Signature_zero;
            BlockHeader.TransactionsRoot := [];
            BlockHeader.StateHash := stateHash;
            BlockHeader.ChallengedHeader := None;
            BlockHeader.ID := BlockID.zero |};
       Transactions := transactions |} in
  let sized :=
    if version <? NgBlockVersion then
      (set_header (BlockHeader.set_TransactionBlockLength
                     (uint32 (Transactions.BinarySize transactions + 1))) b,
       Val tt)
    else if version <=? RewardBlockVersion then
      (set_header (BlockHeader.set_TransactionBlockLength
                     (uint32 (Transactions.BinarySize transactions + 4))) b,
       Val tt)
    else if ProtobufBlockVersion <=? version then
      SetTransactionsRoot scheme b
    else (b, Val tt) in
  match sized with
  | (b, Val _) =>
      match wrap (on_header (BlockHeader.GenerateBlockID scheme))
                 "failed to generate block ID" b with
      | (b, Val _) => Val b
      | (_, Fail e) => Fail e
      | (_, Panic) => Panic
      end
  | (_, Fail e) => Fail e
  | (_, Panic) => Panic
  end.

End WithCollaborators.

Arguments t : clear implicits.

Section WithSigning.
Context {T : Type} `{Transaction T} `{Crypto} `{Protobuf} `{Signing}.

Definition Sign (scheme : Scheme) (secret : SecretKey) : M (t T) unit :=
  (b <- get ;;
   bb <- lift (if ProtobufBlockVersion <=? Version b
               then BlockHeader.MarshalHeaderToProtobufWithoutSignature
                      (BlockHeader b) scheme
               else WriteToWithoutSignature b scheme) ;;
   sign <- lift (crypto_Sign secret bb) ;;
   modify (set_header (BlockHeader.set_BlockSignature sign)))%go.

End WithSigning.

Section WithProtobufDecoding.
Context {T PBTx : Type} `{Crypto} `{Protobuf} `{ProtobufDecoding T PBTx}.

(** Modelled from the spec: [ProtobufConverter.Block], which
    [Block.UnmarshalFromProtobuf] calls, is not in [block.go].
    "Protobuf layout (version ≥ Protobuf=5): header fields map 1:1 onto a
    protobuf message including chain-id, reference (parent ID bytes), base
    target, generation signature, feature-vote list (i16→u32 widened),
    timestamp, version, generator key, reward vote, transactions-root,
    optional state-hash, optional challenged-header submessage."  The
    block message is "a header submessage (chain id, reference, base
    target, generation signature, feature votes, timestamp, version,
    generator, reward vote, transactions root, optional state hash,
    optional challenged-header submessage) plus a transactions list and
    top-level signature".  "Invariant: `TransactionCount ==
    len(Transactions)` at all times after successful decode or
    construction."  "the source allows `FeaturesCount` and
    `len(Features)` to diverge only transiently during decode".  Parsing
    "regenerates the block ID from the decoded content".
    So every field is read back from where [ToProtobuf] puts it: an
    unsigned field from the message's signed one, a feature from its
    widened vote, the parent from the reference bytes through
    [NewBlockIDFromBytes], an absent state hash from the empty one; the
    two counts are the lengths of the lists; the ID is generated with the
    message's chain id for the scheme.  [ConsensusBlockLength] and
    [TransactionBlockLength], which the message does not carry, come from
    [binary_lengths].  [converted_transactions], [converted_challenged]
    and [converted_header] are the parts of the conversion. *)
Fixpoint converted_transactions (txs : list PBTx) : outcome (list T) :=
  match txs with
  | [] => Val []
  | protoTx :: txs' =>
      obind (SignedTransaction protoTx) (fun tx =>
      obind (converted_transactions txs') (fun rest => Val (tx :: rest)))
  end.

Definition converted_challenged (m : g_Block_Header_ChallengedHeader.t)
  : ChallengedHeader.t :=
  {| ChallengedHeader.Timestamp :=
       uint64 (g_Block_Header_ChallengedHeader.Timestamp m);
     ChallengedHeader.NxtConsensus :=
       {| NxtConsensus.BaseTarget :=
            uint64 (g_Block_Header_ChallengedHeader.BaseTarget m);
          NxtConsensus.GenSignature :=
            g_Block_Header_ChallengedHeader.GenerationSignature m |};
     ChallengedHeader.Features :=
       map int16 (g_Block_Header_ChallengedHeader.FeatureVotes m);
     ChallengedHeader.GeneratorPublicKey :=
       g_Block_Header_ChallengedHeader.Generator m;
     ChallengedHeader.RewardVote := g_Block_Header_ChallengedHeader.RewardVote m;
     ChallengedHeader.StateHash := g_Block_Header_ChallengedHeader.StateHash m;
     ChallengedHeader.BlockSignature :=
       g_Block_Header_ChallengedHeader.HeaderSignature m |}.

Definition converted_header
  (pbBlock : g_Block.t PBTx) (parent : BlockID.t) (transactionCount : Z)
  : BlockHeader.t :=
  let m := g_Block.Header pbBlock in
  let features := map int16 (g_Block_Header.FeatureVotes m) in
  {| BlockHeader.Version := g_Block_Header.Version m;
     BlockHeader.Timestamp := uint64 (g_Block_Header.Timestamp m);
     BlockHeader.Parent := parent;
     BlockHeader.FeaturesCount := Z.of_nat (length features);
     BlockHeader.Features := features;
     BlockHeader.RewardVote := g_Block_Header.RewardVote m;
     BlockHeader.ConsensusBlockLength := fst (binary_lengths pbBlock);
     BlockHeader.NxtConsensus :=
       {| NxtConsensus.BaseTarget := uint64 (g_Block_Header.BaseTarget m);
          NxtConsensus.GenSignature := g_Block_Header.GenerationSignature m |};
     BlockHeader.TransactionBlockLength := snd (binary_lengths pbBlock);
     BlockHeader.TransactionCount := transactionCount;
     BlockHeader.GeneratorPublicKey := g_Block_Header.Generator m;
     BlockHeader.BlockSignature := g_Block.Signature pbBlock;
     BlockHeader.TransactionsRoot := g_Block_Header.TransactionsRoot m;
     BlockHeader.StateHash :=
       match g_Block_Header.StateHash m with
       | [] => None
       | _ :: _ => Some (g_Block_Header.StateHash m)
       end;
     BlockHeader.ChallengedHeader :=
       option_map converted_challenged (g_Block_Header.ChallengedHeader m);
     BlockHeader.ID := BlockID.zero |}.

Definition ProtobufConverter_Block (pbBlock : g_Block.t PBTx) : outcome (t T) :=
  let m := g_Block.Header pbBlock in
  obind (BlockID.NewBlockIDFromBytes (g_Block_Header.Reference m)) (fun parent =>
  obind (converted_transactions (g_Block.Transactions pbBlock)) (fun txs =>
  let header := converted_header pbBlock parent (Z.of_nat (length txs)) in
  match BlockHeader.GenerateBlockID (g_Block_Header.ChainId m) header with
  | (header', Val _) =>
      Val {| BlockHeader := header'; Transactions := txs |}
  | (_, Fail err) => Fail err
  | (_, Panic) => Panic
  end)).

(** [Block.UnmarshalFromProtobuf]: [*b = res] replaces the whole receiver. *)
Definition UnmarshalFromProtobuf (data : list byte) : M (t T) unit :=
  (pbBlock <- lift (UnmarshalVT data) ;;
   res <- lift (ProtobufConverter_Block pbBlock) ;;
   modify (fun _ => res))%go.

End WithProtobufDecoding.

End Block.

(* ------------------------------------------------------------------ *)
(** ** Free functions on encoded blocks *)

Definition AppendHeaderBytesToTransactions (headerBytes : Slice) (transactions : list byte)
  : outcome (list byte) :=
  let headerLen := len headerBytes in
  if headerLen <? 1 then Fail (errors_New "insufficient header data size")
  else
  obind (index headerBytes 0) (fun v =>
  let version := byte_to_Z v in
  obind
    (if NgBlockVersion <=? version then
       if len headerBytes <? 129 then
         Fail (errors_New "insufficient header data size")
       else
         obind (reslice headerBytes 125 129) (fun fc =>
         let featuresCount := be_decode fc in
         Val (featuresCount * 2 + 4))
     else Val 0)
    (fun featuresSize =>
  if headerLen <? PublicKeySize + SignatureSize + featuresSize then
    Fail (errors_New "insufficient header data size")
  else
  let cut := headerLen - PublicKeySize - SignatureSize - featuresSize in
  obind (reslice headerBytes 0 cut) (fun headerBeforeTx =>
  obind (reslice_from headerBytes cut) (fun headerAfterTx =>
  let res := zeros (Z.to_nat (headerLen + Z.of_nat (length transactions))) in
  let res := copy res headerBeforeTx in
  let filled := length headerBeforeTx in
  let res := firstn filled res ++ copy (skipn filled res) transactions in
  let filled := (filled + length transactions)%nat in
  let res := firstn filled res ++ copy (skipn filled res) headerAfterTx in
  Val res)))).

(** The signature comes back zero together with the error. *)
Definition BlockGetSignature (data : Slice) : outcome Signature :=
  if len data <? SignatureSize then
    Fail (errors_Errorf
            "not enough bytes to decode block signature, want at least %d, found %d"
            [SignatureSize; len data])
  else
    obind (reslice_from data (len data - SignatureSize)) (fun tail =>
    Val (copy Signature_zero tail)).

(* ------------------------------------------------------------------ *)
(** ** Vocabulary of the codec properties *)

Section CodecVocabulary.
Context {T : Type} `{Transaction T}.

(** The transaction codec inverts itself on [tx], and the encoding fits
    the four-byte length prefix. *)
Definition tx_roundtrips (scheme : Scheme) (tx : T) : Prop :=
  exists bs : list byte,
    tx_MarshalBinary tx scheme = Val bs /\
    BytesToTransaction bs scheme = Val tx /\
    Z.of_nat (length bs) < 2 ^ 32.

Definition transactions_bytes (txs : list T) (scheme : Scheme) : list byte :=
  match Transactions.WriteToBinary txs scheme with
  | Val bs => bs
  | _ => []
  end.

(** A block the legacy binary layout can carry: every field within the
    range of its Go type and of its slot on the wire, a 64-byte
    signature parent, a 32-byte generation signature, the counts equal
    to the lengths they count, and [TransactionBlockLength] equal to the
    size of the transaction bytes plus the size of the count. *)
Record legacy_encodable (scheme : Scheme) (b : Block.t T) : Prop := {
  enc_version :
    0 <= Block.Version b < ProtobufBlockVersion;
  enc_timestamp :
    0 <= BlockHeader.Timestamp (Block.BlockHeader b) < 2 ^ 64;
  enc_parent :
    exists ps : Signature,
      BlockHeader.Parent (Block.BlockHeader b) = BlockID.NewBlockIDFromSignature ps /\
      length ps = 64%nat;
  enc_consensus_length :
    0 <= BlockHeader.ConsensusBlockLength (Block.BlockHeader b) < 2 ^ 32;
  enc_base_target :
    0 <= BlockHeader.BaseTarget (Block.BlockHeader b) < 2 ^ 64;
  enc_gen_signature :
    length (BlockHeader.GenSignature (Block.BlockHeader b)) = 32%nat;
  enc_transactions :
    Forall (tx_roundtrips scheme) (Block.Transactions b);
  enc_transaction_count :
    BlockHeader.TransactionCount (Block.BlockHeader b)
    = Z.of_nat (length (Block.Transactions b)) /\
    (Block.Version b < NgBlockVersion ->
     Z.of_nat (length (Block.Transactions b)) < 256);
  enc_transaction_block_length :
    BlockHeader.TransactionBlockLength (Block.BlockHeader b)
    = Z.of_nat (length (transactions_bytes (Block.Transactions b) scheme))
      + (if NgBlockVersion <=? Block.Version b then 4 else 1);
  enc_features :
    NgBlockVersion <= Block.Version b ->
    BlockHeader.FeaturesCount (Block.BlockHeader b)
    = Z.of_nat (length (BlockHeader.Features (Block.BlockHeader b))) /\
    Forall (fun f => - 2 ^ 15 <= f < 2 ^ 15)
           (BlockHeader.Features (Block.BlockHeader b));
  enc_reward_vote :
    RewardBlockVersion <= Block.Version b ->
    - 2 ^ 63 <= BlockHeader.RewardVote (Block.BlockHeader b) < 2 ^ 63;
  enc_generator :
    length (BlockHeader.GeneratorPublicKey (Block.BlockHeader b)) = 32%nat;
  enc_signature :
    length (BlockHeader.BlockSignature (Block.BlockHeader b)) = 64%nat
}.




(** The fields of the binary form in wire order; a field a version does
    not have is empty. *)
Definition layout (scheme : Scheme) (b : Block.t T) : list (list byte) :=
  let h := Block.BlockHeader b in
  let v := Block.Version b in
  [ [Z_to_byte v];
    be_encode 8 (BlockHeader.Timestamp h);
    BlockID.Bytes (BlockHeader.Parent h);
    be_encode 4 (BlockHeader.ConsensusBlockLength h);
    be_encode 8 (BlockHeader.BaseTarget h);
    BlockHeader.GenSignature h;
    be_encode 4 (BlockHeader.TransactionBlockLength h);
    (if NgBlockVersion <=? v
     then be_encode 4 (uint32 (BlockHeader.TransactionCount h))
     else [Z_to_byte (BlockHeader.TransactionCount h)]);
    transactions_bytes (Block.Transactions b) scheme;
    (if NgBlockVersion <=? v
     then be_encode 4 (uint32 (BlockHeader.FeaturesCount h)) else []);
    (if NgBlockVersion <=? v
     then flat_map (be_encode 2) (BlockHeader.Features h) else []);
    (if RewardBlockVersion <=? v
     then be_encode 8 (BlockHeader.RewardVote h) else []);
    BlockHeader.GeneratorPublicKey h;
    BlockHeader.BlockSignature h ].

(** What the binary layout does not carry and the decoder fills in:
    no reward vote before the Reward version, no features before the Ng
    version, never a transactions root, state hash or challenged
    header. *)
Record legacy_defaults (b : Block.t T) : Prop := {
  def_reward_vote :
    Block.Version b < RewardBlockVersion ->
    BlockHeader.RewardVote (Block.BlockHeader b) = -1;
  def_features :
    Block.Version b < NgBlockVersion ->
    BlockHeader.Features (Block.BlockHeader b) = [] /\
    BlockHeader.FeaturesCount (Block.BlockHeader b) = 0;
  def_transactions_root :
    BlockHeader.TransactionsRoot (Block.BlockHeader b) = [];
  def_state_hash :
    BlockHeader.StateHash (Block.BlockHeader b) = None;
  def_challenged_header :
    BlockHeader.ChallengedHeader (Block.BlockHeader b) = None
}.

(** The receiver [b0] after decoding the binary form of [b] into it. *)
Definition decoded_view (b0 b : Block.t T) : Block.t T :=
  let h := Block.BlockHeader b in
  let h0 := Block.BlockHeader b0 in
  let v := BlockHeader.Version h in
  {| Block.BlockHeader :=
       {| BlockHeader.Version := v;
          BlockHeader.Timestamp := BlockHeader.Timestamp h;
          BlockHeader.Parent := BlockHeader.Parent h;
          BlockHeader.FeaturesCount :=
            if NgBlockVersion <=? v then BlockHeader.FeaturesCount h
            else BlockHeader.FeaturesCount h0;
          BlockHeader.Features :=
            if NgBlockVersion <=? v then BlockHeader.Features h else [];
          BlockHeader.RewardVote :=
            if RewardBlockVersion <=? v then BlockHeader.RewardVote h else -1;
          BlockHeader.ConsensusBlockLength := BlockHeader.ConsensusBlockLength h;
          BlockHeader.NxtConsensus := BlockHeader.NxtConsensus h;
          BlockHeader.TransactionBlockLength := BlockHeader.TransactionBlockLength h;
          BlockHeader.TransactionCount := BlockHeader.TransactionCount h;
          BlockHeader.GeneratorPublicKey := BlockHeader.GeneratorPublicKey h;
          BlockHeader.BlockSignature := BlockHeader.BlockSignature h;
          BlockHeader.TransactionsRoot := BlockHeader.TransactionsRoot h0;
          BlockHeader.StateHash := BlockHeader.StateHash h0;
          BlockHeader.ChallengedHeader := BlockHeader.ChallengedHeader h0;
          BlockHeader.ID :=
            BlockID.NewBlockIDFromSignature (BlockHeader.BlockSignature h) |};
     Block.Transactions := Block.Transactions b |}.

(** What [CreateBlock] returns below the Protobuf version. *)
Definition created_legacy
  (transactions : list T) (timestamp : Z) (parentID : BlockID.t)
  (publicKey : PublicKey) (nxtConsensus : NxtConsensus.t)
  (version : BlockVersion) (features : list Z) (rewardVote : Z)
  (stateHash : option Digest) : Block.t T :=
  {| Block.BlockHeader :=
       {| BlockHeader.Version := version;
          BlockHeader.Timestamp := timestamp;
          BlockHeader.Parent := parentID;
          BlockHeader.FeaturesCount := Z.of_nat (length features);
          BlockHeader.Features := features;
          BlockHeader.RewardVote := rewardVote;
          BlockHeader.ConsensusBlockLength :=
            uint32 (NxtConsensus.BinarySize nxtConsensus);
          BlockHeader.NxtConsensus := nxtConsensus;
          BlockHeader.TransactionBlockLength :=
            uint32 (Transactions.BinarySize transactions
                    + (if version <? NgBlockVersion then 1 else 4));
          BlockHeader.TransactionCount := Transactions.Count transactions;
          BlockHeader.GeneratorPublicKey := publicKey;
          BlockHeader.BlockSignature := Signature_zero;
          BlockHeader.TransactionsRoot := [];
          BlockHeader.StateHash := stateHash;
          BlockHeader.ChallengedHeader := None;
          BlockHeader.ID := BlockID.NewBlockIDFromSignature Signature_zero |};
     Block.Transactions := transactions |}.

End CodecVocabulary.

(* ------------------------------------------------------------------ *)
(** ** Vocabulary of the header codec properties *)

(** The fields of the binary header in wire order. *)
Definition header_layout (h : BlockHeader.t) : list (list byte) :=
  let v := BlockHeader.Version h in
  [ [Z_to_byte v];
    be_encode 8 (BlockHeader.Timestamp h);
    BlockID.Bytes (BlockHeader.Parent h);
    be_encode 4 (BlockHeader.ConsensusBlockLength h);
    be_encode 8 (BlockHeader.BaseTarget h);
    BlockHeader.GenSignature h;
    be_encode 4 (BlockHeader.TransactionBlockLength h);
    (if NgBlockVersion <=? v
     then be_encode 4 (uint32 (BlockHeader.TransactionCount h))
     else [Z_to_byte (BlockHeader.TransactionCount h)]);
    (if NgBlockVersion <=? v
     then be_encode 4 (uint32 (BlockHeader.FeaturesCount h)) else []);
    (if NgBlockVersion <=? v
     then flat_map (be_encode 2) (BlockHeader.Features h) else []);
    (if RewardBlockVersion <=? v
     then be_encode 8 (BlockHeader.RewardVote h) else []);
    BlockHeader.GeneratorPublicKey h;
    BlockHeader.BlockSignature h ].

(** A header the binary header layout can carry. *)
Record header_encodable (h : BlockHeader.t) : Prop := {
  henc_version : 0 <= BlockHeader.Version h < ProtobufBlockVersion;
  henc_timestamp : 0 <= BlockHeader.Timestamp h < 2 ^ 64;
  henc_parent :
    exists ps : Signature,
      BlockHeader.Parent h = BlockID.NewBlockIDFromSignature ps /\
      length ps = 64%nat;
  henc_consensus_length : 0 <= BlockHeader.ConsensusBlockLength h < 2 ^ 32;
  henc_base_target : 0 <= BlockHeader.BaseTarget h < 2 ^ 64;
  henc_gen_signature : length (BlockHeader.GenSignature h) = 32%nat;
  henc_transaction_block_length :
    (if NgBlockVersion <=? BlockHeader.Version h then 4 else 1)
    <= BlockHeader.TransactionBlockLength h < 2 ^ 32;
  henc_transaction_count :
    0 <= BlockHeader.TransactionCount h
    < (if NgBlockVersion <=? BlockHeader.Version h then 2 ^ 32 else 256);
  henc_features :
    NgBlockVersion <= BlockHeader.Version h ->
    BlockHeader.FeaturesCount h = Z.of_nat (length (BlockHeader.Features h)) /\
    BlockHeader.FeaturesCount h < 2 ^ 32 /\
    Forall (fun f => - 2 ^ 15 <= f < 2 ^ 15) (BlockHeader.Features h);
  henc_reward_vote :
    RewardBlockVersion <= BlockHeader.Version h ->
    - 2 ^ 63 <= BlockHeader.RewardVote h < 2 ^ 63;
  henc_generator : length (BlockHeader.GeneratorPublicKey h) = 32%nat;
  henc_signature : length (BlockHeader.BlockSignature h) = 64%nat
}.

(** The receiver [h0] after decoding the binary form of [h] into it. *)
Definition decoded_header (h0 h : BlockHeader.t) : BlockHeader.t :=
  let v := BlockHeader.Version h in
  {| BlockHeader.Version := v;
     BlockHeader.Timestamp := BlockHeader.Timestamp h;
     BlockHeader.Parent := BlockHeader.Parent h;
     BlockHeader.FeaturesCount :=
       if NgBlockVersion <=? v then BlockHeader.FeaturesCount h
       else BlockHeader.FeaturesCount h0;
     BlockHeader.Features :=
       if NgBlockVersion <=? v then BlockHeader.Features h else [];
     BlockHeader.RewardVote :=
       if RewardBlockVersion <=? v then BlockHeader.RewardVote h else -1;
     BlockHeader.ConsensusBlockLength := BlockHeader.ConsensusBlockLength h;
     BlockHeader.NxtConsensus := BlockHeader.NxtConsensus h;
     BlockHeader.TransactionBlockLength := BlockHeader.TransactionBlockLength h;
     BlockHeader.TransactionCount := BlockHeader.TransactionCount h;
     BlockHeader.GeneratorPublicKey := BlockHeader.GeneratorPublicKey h;
     BlockHeader.BlockSignature := BlockHeader.BlockSignature h;
     BlockHeader.TransactionsRoot := BlockHeader.TransactionsRoot h0;
     BlockHeader.StateHash := BlockHeader.StateHash h0;
     BlockHeader.ChallengedHeader := BlockHeader.ChallengedHeader h0;
     BlockHeader.ID :=
       BlockID.NewBlockIDFromSignature (BlockHeader.BlockSignature h) |}.

(* ------------------------------------------------------------------ *)
(** ** Vocabulary of the identifier and transaction list properties *)

(** An identifier one of the two constructors builds from data of the
    constructor's width. *)
Definition constructed (id : BlockID.t) : Prop :=
  (exists s : Signature,
      length s = 64%nat /\ id = BlockID.NewBlockIDFromSignature s) \/
  (exists d : Digest,
      length d = 32%nat /\ id = BlockID.NewBlockIDFromDigest d).

Section SignedCodecVocabulary.
Context {T : Type} `{SignedProtobuf T}.

(** The signed protobuf codec inverts itself on [tx], and the encoding
    fits the four-byte length prefix. *)
Definition signed_roundtrips (scheme : Scheme) (tx : T) : Prop :=
  exists bs : list byte,
    tx_MarshalSignedToProtobuf tx scheme = Val bs /\
    SignedTxFromProtobuf bs = Val tx /\
    Z.of_nat (length bs) < 2 ^ 32.

End SignedCodecVocabulary.

(* ------------------------------------------------------------------ *)
(** ** Reference collaborators

    Small executable stand-ins for the crypto package, the protobuf
    encoder and the transaction codec, used to run the definitions above
    on concrete blocks. *)

Section ProtobufCodecVocabulary.
Context {T PBTx : Type}.
Context `{Transaction T} `{Crypto} `{Protobuf} `{ProtobufBlock T PBTx}.
Context `{ProtobufDecoding T PBTx}.

(** What the protobuf form can carry: fields within the range of their Go
    type, a parent that is a signature or a digest, and counts that are
    the lengths of the lists. *)
Record protobuf_encodable (b : Block.t T) : Prop := {
  penc_version : ProtobufBlockVersion <= Block.Version b;
  penc_timestamp : 0 <= BlockHeader.Timestamp (Block.BlockHeader b) < 2 ^ 64;
  penc_base_target : 0 <= BlockHeader.BaseTarget (Block.BlockHeader b) < 2 ^ 64;
  penc_parent : constructed (BlockHeader.Parent (Block.BlockHeader b));
  penc_features :
    BlockHeader.FeaturesCount (Block.BlockHeader b)
    = Z.of_nat (length (BlockHeader.Features (Block.BlockHeader b))) /\
    Forall (fun f => - 2 ^ 15 <= f < 2 ^ 15)
           (BlockHeader.Features (Block.BlockHeader b));
  penc_transaction_count :
    BlockHeader.TransactionCount (Block.BlockHeader b)
    = Z.of_nat (length (Block.Transactions b));
  penc_state_hash :
    forall sh : Digest,
      BlockHeader.StateHash (Block.BlockHeader b) = Some sh ->
      length sh = 32%nat;
  penc_challenged :
    forall ch : ChallengedHeader.t,
      BlockHeader.ChallengedHeader (Block.BlockHeader b) = Some ch ->
      0 <= ChallengedHeader.Timestamp ch < 2 ^ 64 /\
      0 <= NxtConsensus.BaseTarget (ChallengedHeader.NxtConsensus ch) < 2 ^ 64 /\
      Forall (fun f => - 2 ^ 15 <= f < 2 ^ 15) (ChallengedHeader.Features ch)
}.

(** What the protobuf message does not carry and the decoder fills in:
    the two length fields of the binary layout. *)
Definition protobuf_defaults (scheme : Scheme) (b : Block.t T) : Prop :=
  forall m : g_Block.t PBTx,
    Block.ToProtobuf b scheme = Val m ->
    binary_lengths m
    = (BlockHeader.ConsensusBlockLength (Block.BlockHeader b),
       BlockHeader.TransactionBlockLength (Block.BlockHeader b)).

(** The collaborators of the protobuf form invert each other on [b]:
    a signature marshals to its own bytes, [UnmarshalVT] parses what
    [MarshalVTStrict] writes for the message of [b], the converter
    returns each transaction from its message, and the header message of
    [b] can be marshalled and hashed for the ID. *)
Record protobuf_codec_inverts (scheme : Scheme) (b : Block.t T) : Prop := {
  pc_signature :
    Signature_MarshalBinary (BlockHeader.BlockSignature (Block.BlockHeader b))
    = Val (BlockHeader.BlockSignature (Block.BlockHeader b));
  pc_challenged_signature :
    forall ch : ChallengedHeader.t,
      BlockHeader.ChallengedHeader (Block.BlockHeader b) = Some ch ->
      Signature_MarshalBinary (ChallengedHeader.BlockSignature ch)
      = Val (ChallengedHeader.BlockSignature ch);
  pc_wire :
    forall (m : g_Block.t PBTx) (bytes : list byte),
      Block.ToProtobuf b scheme = Val m ->
      MarshalVTStrict m = Val bytes ->
      UnmarshalVT bytes = Val m;
  pc_transactions :
    Forall (fun tx => exists m : PBTx,
                        tx_ToProtobufSigned tx scheme = Val m /\
                        SignedTransaction m = Val tx)
           (Block.Transactions b);
  pc_block_id :
    exists (headerBytes : list byte) (hash : Digest),
      BlockHeader.MarshalHeaderToProtobufWithoutSignature
        (Block.BlockHeader b) scheme = Val headerBytes /\
      crypto_FastHash headerBytes = Val hash
}.

End ProtobufCodecVocabulary.

Module Sample.

(** A signature is valid when it repeats the first 64 bytes of key and
    message. *)
Definition sign (pk : PublicKey) (msg : list byte) : Signature :=
  firstn 64 (pk ++ msg ++ zeros 64).

#[export] Instance crypto : Crypto := {|
  crypto_Verify := fun pk sg msg => bytes_Equal sg (sign pk msg);
  crypto_FastHash := fun msg => Val (firstn 32 (msg ++ zeros 32));
  MerkleTree := list byte;
  crypto_NewMerkleTree := Val [];
  MerkleTree_Push := fun tree leaf => tree ++ leaf;
  MerkleTree_Root := fun tree => firstn 32 (tree ++ zeros 32);
  Signature_MarshalBinary := fun s => Val s
|}.




Definition encode_challenged (m : option g_Block_Header_ChallengedHeader.t)
  : list byte :=
  match m with
  | None => [x00]
  | Some c =>
      [x01] ++
      be_encode 8 (g_Block_Header_ChallengedHeader.Timestamp c) ++
      g_Block_Header_ChallengedHeader.Generator c ++
      g_Block_Header_ChallengedHeader.HeaderSignature c
  end.

#[export] Instance protobuf : Protobuf := {|
  MarshalToProtobufDeterministic := fun h =>
    Val ([Z_to_byte (g_Block_Header.Version h);
          Z_to_byte (g_Block_Header.ChainId h)] ++
         be_encode 8 (g_Block_Header.Timestamp h) ++
         g_Block_Header.Reference h ++
         g_Block_Header.TransactionsRoot h ++
         encode_challenged (g_Block_Header.ChallengedHeader h))
|}.

(** A transaction that is its own binary form. *)
Definition tx : Type := list byte.

#[export] Instance transaction : Transaction tx := {|
  tx_MarshalBinary := fun t _ => Val t;
  tx_BinarySize := fun t => Z.of_nat (length t);
  tx_MerkleBytes := fun t _ => Val t;
  BytesToTransaction := fun bs _ => Val bs
|}.

#[export] Instance protobuf_block : ProtobufBlock tx (list byte) := {|
  tx_ToProtobufSigned := fun t _ => Val t;
  MarshalVTStrict := fun m =>
    obind (MarshalToProtobufDeterministic (g_Block.Header m)) (fun hb =>
    Val (hb ++ g_Block.Signature m ++ concat (g_Block.Transactions m)))
|}.

Definition scheme : Scheme := 87.

Definition key : PublicKey := repeat x07 32.

(** A Protobuf-version header with a digest parent and no challenge. *)
Definition header5 : BlockHeader.t :=
  {| BlockHeader.Version := 5;
     BlockHeader.Timestamp := 1700000000000;
     BlockHeader.Parent := BlockID.NewBlockIDFromDigest (repeat x11 32);
     BlockHeader.FeaturesCount := 0;
     BlockHeader.Features := [];
     BlockHeader.RewardVote := -1;
     BlockHeader.ConsensusBlockLength := 40;
     BlockHeader.NxtConsensus :=
       {| NxtConsensus.BaseTarget := 100; NxtConsensus.GenSignature := zeros 32 |};
     BlockHeader.TransactionBlockLength := 0;
     BlockHeader.TransactionCount := 0;
     BlockHeader.GeneratorPublicKey := key;
     BlockHeader.BlockSignature := Signature_zero;
     BlockHeader.TransactionsRoot := [];
     BlockHeader.StateHash := None;
     BlockHeader.ChallengedHeader := None;
     BlockHeader.ID := BlockID.zero |}.

(** A Plain-version header with a signature parent. *)
Definition header2 : BlockHeader.t :=
  BlockHeader.set_Version 2
    (BlockHeader.set_Parent (BlockID.NewBlockIDFromSignature (repeat x22 64))
       (BlockHeader.set_TransactionBlockLength 1 header5)).

Definition challenged : ChallengedHeader.t :=
  {| ChallengedHeader.Timestamp := 1699999999000;
     ChallengedHeader.NxtConsensus :=
       {| NxtConsensus.BaseTarget := 90; NxtConsensus.GenSignature := zeros 32 |};
     ChallengedHeader.Features := [];
     ChallengedHeader.GeneratorPublicKey := repeat x09 32;
     ChallengedHeader.RewardVote := -1;
     ChallengedHeader.StateHash := repeat x33 32;
     ChallengedHeader.BlockSignature := repeat x44 64 |}.

Definition header_bytes (h : BlockHeader.t) : list byte :=
  match BlockHeader.MarshalHeaderToProtobufWithoutSignature h scheme with
  | Val bs => bs
  | _ => []
  end.

(** [challenged], signed by its own generator over the recovered header. *)
Definition challenged_signed : ChallengedHeader.t :=
  {| ChallengedHeader.Timestamp := ChallengedHeader.Timestamp challenged;
     ChallengedHeader.NxtConsensus := ChallengedHeader.NxtConsensus challenged;
     ChallengedHeader.Features := ChallengedHeader.Features challenged;
     ChallengedHeader.GeneratorPublicKey := ChallengedHeader.GeneratorPublicKey challenged;
     ChallengedHeader.RewardVote := ChallengedHeader.RewardVote challenged;
     ChallengedHeader.StateHash := ChallengedHeader.StateHash challenged;
     ChallengedHeader.BlockSignature :=
       sign (ChallengedHeader.GeneratorPublicKey challenged)
            (header_bytes (recovered header5 challenged)) |}.

(** A challenged Protobuf-version header; both signatures are valid. *)
Definition header5_challenged : BlockHeader.t :=
  let h := BlockHeader.set_ChallengedHeader (Some challenged_signed) header5 in
  BlockHeader.set_BlockSignature (sign key (header_bytes h)) h.

Definition block_of (h : BlockHeader.t) (txs : list tx) : Block.t tx :=
  {| Block.BlockHeader := h; Block.Transactions := txs |}.

Definition created (r : outcome (Block.t tx)) : Block.t tx :=
  match r with
  | Val b => b
  | _ => Block.zero
  end.

Definition marshalled (b : Block.t tx) : list byte :=
  match Block.Marshal b scheme with
  | Val bs => bs
  | _ => []
  end.

(** The Plain-version block of the concrete scenario: no transactions,
    base target 100, an all-zero generation signature; built by
    [CreateBlock] with the given reward vote. *)
Definition plain_block (rewardVote : Z) : Block.t tx :=
  created
    (Block.CreateBlock
       [] 1700000000000 (BlockID.NewBlockIDFromSignature (repeat x22 64)) key
       {| NxtConsensus.BaseTarget := 100; NxtConsensus.GenSignature := zeros 32 |}
       PlainBlockVersion [] rewardVote scheme None).

(** A Reward-version block with two transactions and two feature votes. *)
Definition reward_block : Block.t tx :=
  created
    (Block.CreateBlock
       [[x0a; x0b]; [x0c]] 1700000000000
       (BlockID.NewBlockIDFromSignature (repeat x22 64)) key
       {| NxtConsensus.BaseTarget := 100; NxtConsensus.GenSignature := zeros 32 |}
       RewardBlockVersion [14; -2] 600000000 scheme None).

(** One character per byte: a stand-in for the base58 alphabet. *)
#[export] Instance base58 : Base58 := {|
  base58_Decode := fun s => Val (list_byte_of_string s);
  base58_Encode := fun bs => string_of_list_byte bs
|}.

(** A secret key is its own public key. *)
#[export] Instance signing : Signing := {|
  SecretKey := PublicKey;
  crypto_Sign := fun sk msg => Val (sign sk msg)
|}.

#[export] Instance signed_protobuf : SignedProtobuf tx := {|
  tx_MarshalSignedToProtobuf := fun t _ => Val (x70 :: t);
  SignedTxFromProtobuf := fun bs =>
    match bs with
    | x70 :: t => Val t
    | _ => Fail (External 1)
    end
|}.

(** The secret key of [key]. *)
Definition secret : @SecretKey signing := key.

(** A Protobuf-version block with two transactions, two feature votes and
    a state hash. *)
Definition protobuf_sample_block : Block.t tx :=
  created
    (Block.CreateBlock
       [[x0a; x0b]; [x0c]] 1700000000000
       (BlockID.NewBlockIDFromDigest (repeat x11 32)) key
       {| NxtConsensus.BaseTarget := 100; NxtConsensus.GenSignature := zeros 32 |}
       ProtobufBlockVersion [14; -2] 600000000 scheme (Some (repeat x33 32))).

(** The message [ToProtobuf] builds for a block. *)
Definition message_of (b : Block.t tx) : list (g_Block.t (list byte)) :=
  match Block.ToProtobuf b scheme with
  | Val m => [m]
  | _ => []
  end.

(** The wire form of [protobuf_block] leaves fields out, so its parser
    works from a table: it returns the message among [known] that
    marshals to the data. *)
Definition parse_known (known : list (g_Block.t (list byte))) (data : list byte)
  : outcome (g_Block.t (list byte)) :=
  match
    find (fun m => match MarshalVTStrict m with
                   | Val bs => bytes_Equal bs data
                   | _ => false
                   end) known
  with
  | Some m => Val m
  | None => Fail (External 2)
  end.

(** The lengths are those [CreateBlock] stores in a Protobuf-version
    block: the size of the consensus fields, and 0 for the transactions. *)
#[export] Instance protobuf_decoding : ProtobufDecoding tx (list byte) := {|
  UnmarshalVT := parse_known (message_of protobuf_sample_block);
  SignedTransaction := fun m => Val m;
  binary_lengths := fun m =>
    (8 + Z.of_nat (length (g_Block_Header.GenerationSignature (g_Block.Header m))),
     0)
|}.

(** The header of [reward_block] with a signature in place. *)
Definition reward_header : BlockHeader.t :=
  BlockHeader.set_BlockSignature (repeat x5a 64) (Block.BlockHeader reward_block).

End Sample.

(* ================================================================== *)
(** * Properties *)

(* ------------------------------------------------------------------ *)
(** ** [BlockID] validity and the [BlockID] accessor *)

Lemma IsValid_zero (v : BlockVersion) : BlockID.IsValid BlockID.zero v = false.
Proof.
  unfold BlockID.IsValid. destruct (ProtobufBlockVersion <=? v); reflexivity.
Qed.

(** C6: [IsValid] holds exactly when the version is at least Protobuf and
    the identifier is the Digest variant, or the version is below Protobuf
    and the identifier is the Signature variant; the uninitialized
    identifier is valid for no version. *)
Theorem IsValid_variant_matches_version :
  forall (id : BlockID.t) (v : BlockVersion),
    (BlockID.IsValid id v = true <->
       (ProtobufBlockVersion <= v /\ BlockID.idType id = DigestID) \/
       (v < ProtobufBlockVersion /\ BlockID.idType id = SignatureID)) /\
    BlockID.IsValid BlockID.zero v = false.
Proof.
  intros id v. unfold BlockID.IsValid. split.
  - destruct (Z.leb_spec ProtobufBlockVersion v) as [Hge | Hlt].
    + rewrite Z.eqb_eq. split.
      * intro Hd. left. split; assumption.
      * intros [[_ Hd] | [Hlt _]]; [assumption | lia].
    + rewrite Z.eqb_eq. split.
      * intro Hs. right. split; assumption.
      * intros [[Hge _] | [_ Hs]]; [lia | assumption].
  - apply IsValid_zero.
Qed.

(** C10: below the Protobuf version the accessor rebuilds the
    Signature-variant identifier from [BlockSignature], whatever the cached
    [ID] holds; from the Protobuf version on it hands back the cached [ID]
    unchanged, so a header whose [ID] was never generated yields the
    uninitialized identifier, which [IsValid] rejects for every version. *)
Theorem BlockID_accessor_by_version :
  forall (h : BlockHeader.t) (cached : BlockID.t),
    (BlockHeader.Version h < ProtobufBlockVersion ->
       BlockHeader.BlockID (BlockHeader.set_ID cached h)
       = BlockID.NewBlockIDFromSignature (BlockHeader.BlockSignature h)) /\
    (ProtobufBlockVersion <= BlockHeader.Version h ->
       BlockHeader.BlockID (BlockHeader.set_ID cached h) = cached /\
       BlockHeader.BlockID (BlockHeader.set_ID BlockID.zero h) = BlockID.zero /\
       forall v : BlockVersion,
         BlockID.IsValid (BlockHeader.BlockID (BlockHeader.set_ID BlockID.zero h)) v
         = false).
Proof.
  intros h cached. unfold BlockHeader.BlockID. cbn [BlockHeader.set_ID
    BlockHeader.Version BlockHeader.BlockSignature BlockHeader.ID]. split.
  - intro Hlt. apply Z.ltb_lt in Hlt. rewrite Hlt. reflexivity.
  - intro Hge. apply Z.ltb_ge in Hge. rewrite Hge.
    repeat split. intro v. apply IsValid_zero.
Qed.

Lemma BlockID_accessor_by_version_witness :
  BlockHeader.BlockID (BlockHeader.set_ID (BlockID.NewBlockIDFromDigest (repeat x55 32))
                         Sample.header2)
  = BlockID.NewBlockIDFromSignature Signature_zero /\
  BlockHeader.BlockID (BlockHeader.set_ID BlockID.zero Sample.header5) = BlockID.zero.
Proof.
  split.
  - apply (BlockID_accessor_by_version Sample.header2). vm_compute. reflexivity.
  - apply (BlockID_accessor_by_version Sample.header5 BlockID.zero).
    vm_compute. discriminate.
Defined.

(* ------------------------------------------------------------------ *)
(** ** Challenged-header recovery *)

Lemma origHeader_without_challenge (h : BlockHeader.t) :
  BlockHeader.ChallengedHeader h = None ->
  BlockHeader.origHeader h = (h, Val (h, false)).
Proof.
  intro Hnone. unfold BlockHeader.origHeader, BlockHeader.GetChallengedHeader.
  rewrite Hnone. reflexivity.
Qed.

Lemma origHeader_with_challenge (h : BlockHeader.t) (ch : ChallengedHeader.t) :
  BlockHeader.ChallengedHeader h = Some ch ->
  BlockHeader.origHeader h = (h, Val (recovered h ch, true)).
Proof.
  intro Hsome. unfold BlockHeader.origHeader, BlockHeader.GetChallengedHeader.
  rewrite Hsome. reflexivity.
Qed.

(** C5: for a header [h] carrying the challenged header [ch], [origHeader]
    leaves the receiver as it was and reports a changed header whose
    Timestamp, NxtConsensus (BaseTarget and GenSignature), Features,
    GeneratorPublicKey, RewardVote, StateHash and BlockSignature are those
    of [ch], whose ChallengedHeader is cleared, and whose Version, Parent,
    FeaturesCount, ConsensusBlockLength, TransactionBlockLength,
    TransactionCount, TransactionsRoot and ID are those of [h]. *)
Theorem origHeader_frame :
  forall (h : BlockHeader.t) (ch : ChallengedHeader.t),
    BlockHeader.ChallengedHeader h = Some ch ->
    exists orig : BlockHeader.t,
      BlockHeader.origHeader h = (h, Val (orig, true)) /\
      (* replaced by the challenged header's values *)
      BlockHeader.Timestamp orig = ChallengedHeader.Timestamp ch /\
      BlockHeader.NxtConsensus orig = ChallengedHeader.NxtConsensus ch /\
      BlockHeader.BaseTarget orig
        = NxtConsensus.BaseTarget (ChallengedHeader.NxtConsensus ch) /\
      BlockHeader.GenSignature orig
        = NxtConsensus.GenSignature (ChallengedHeader.NxtConsensus ch) /\
      BlockHeader.Features orig = ChallengedHeader.Features ch /\
      BlockHeader.GeneratorPublicKey orig = ChallengedHeader.GeneratorPublicKey ch /\
      BlockHeader.RewardVote orig = ChallengedHeader.RewardVote ch /\
      BlockHeader.StateHash orig = Some (ChallengedHeader.StateHash ch) /\
      BlockHeader.BlockSignature orig = ChallengedHeader.BlockSignature ch /\
      (* cleared *)
      BlockHeader.ChallengedHeader orig = None /\
      (* untouched *)
      BlockHeader.Version orig = BlockHeader.Version h /\
      BlockHeader.Parent orig = BlockHeader.Parent h /\
      BlockHeader.FeaturesCount orig = BlockHeader.FeaturesCount h /\
      BlockHeader.ConsensusBlockLength orig = BlockHeader.ConsensusBlockLength h /\
      BlockHeader.TransactionBlockLength orig = BlockHeader.TransactionBlockLength h /\
      BlockHeader.TransactionCount orig = BlockHeader.TransactionCount h /\
      BlockHeader.TransactionsRoot orig = BlockHeader.TransactionsRoot h /\
      BlockHeader.ID orig = BlockHeader.ID h.
Proof.
  intros h ch Hsome. exists (recovered h ch). split.
  - apply origHeader_with_challenge. exact Hsome.
  - repeat split.
Qed.

Lemma origHeader_frame_witness :
  exists orig : BlockHeader.t,
    BlockHeader.origHeader
      (BlockHeader.set_ChallengedHeader (Some Sample.challenged) Sample.header5)
    = (BlockHeader.set_ChallengedHeader (Some Sample.challenged) Sample.header5,
       Val (orig, true)) /\
    BlockHeader.Timestamp orig = 1699999999000 /\
    BlockHeader.Version orig = 5.
Proof.
  destruct (@origHeader_frame
              (BlockHeader.set_ChallengedHeader (Some Sample.challenged) Sample.header5)
              Sample.challenged eq_refl)
    as [orig [Hrun [Hts [_ [_ [_ [_ [_ [_ [_ [_ [_ [Hver _]]]]]]]]]]]]].
  exists orig. split; [exact Hrun | split; [exact Hts | exact Hver]].
Defined.

(* ------------------------------------------------------------------ *)
(** ** Block-ID derivation *)

Section BlockIDDerivation.
Context `{Crypto} `{Protobuf}.

Lemma HeaderToProtobufHeader_ignores_signature
      (h : BlockHeader.t) (s : Signature) (scheme : Scheme) :
  BlockHeader.HeaderToProtobufHeader (BlockHeader.set_BlockSignature s h) scheme
  = BlockHeader.HeaderToProtobufHeader h scheme.
Proof. reflexivity. Qed.

Lemma HeaderToProtobufHeader_ignores_ID
      (h : BlockHeader.t) (id : BlockID.t) (scheme : Scheme) :
  BlockHeader.HeaderToProtobufHeader (BlockHeader.set_ID id h) scheme
  = BlockHeader.HeaderToProtobufHeader h scheme.
Proof. reflexivity. Qed.

Lemma GenerateBlockID_legacy (h : BlockHeader.t) (scheme : Scheme) :
  BlockHeader.Version h < ProtobufBlockVersion ->
  BlockHeader.GenerateBlockID scheme h
  = (BlockHeader.set_ID
       (BlockID.NewBlockIDFromSignature (BlockHeader.BlockSignature h)) h,
     Val tt).
Proof.
  intro Hlt. apply Z.ltb_lt in Hlt.
  unfold BlockHeader.GenerateBlockID, bind, get, modify.
  rewrite Hlt. reflexivity.
Qed.

Lemma GenerateBlockID_protobuf
      (h : BlockHeader.t) (scheme : Scheme) (headerBytes : list byte) (hash : Digest) :
  ProtobufBlockVersion <= BlockHeader.Version h ->
  BlockHeader.MarshalHeaderToProtobufWithoutSignature h scheme = Val headerBytes ->
  crypto_FastHash headerBytes = Val hash ->
  BlockHeader.GenerateBlockID scheme h
  = (BlockHeader.set_ID (BlockID.NewBlockIDFromDigest hash) h, Val tt).
Proof.
  intros Hge Hm Hh. apply Z.ltb_ge in Hge.
  unfold BlockHeader.GenerateBlockID, bind, get, modify, lift.
  rewrite Hge, Hm, Hh. reflexivity.
Qed.

(** C3: [GenerateBlockID] stores the Signature variant wrapping
    [BlockSignature], unhashed, below the Protobuf version; from the
    Protobuf version on it stores the Digest variant wrapping the fast
    hash of the deterministic protobuf encoding of the header message,
    a message that does not contain the signature; and what it stores
    for a block does not depend on the block's transaction list. *)
Theorem GenerateBlockID_derivation :
  forall (T : Type) (b : Block.t T) (scheme : Scheme),
    let h := Block.BlockHeader b in
    (BlockHeader.Version h < ProtobufBlockVersion ->
       BlockHeader.GenerateBlockID scheme h
       = (BlockHeader.set_ID
            (BlockID.NewBlockIDFromSignature (BlockHeader.BlockSignature h)) h,
          Val tt)) /\
    (ProtobufBlockVersion <= BlockHeader.Version h ->
       forall (message : g_Block_Header.t) (headerBytes : list byte) (hash : Digest),
         BlockHeader.HeaderToProtobufHeader h scheme = Val message ->
         MarshalToProtobufDeterministic message = Val headerBytes ->
         crypto_FastHash headerBytes = Val hash ->
         BlockHeader.MarshalHeaderToProtobufWithoutSignature h scheme = Val headerBytes /\
         BlockHeader.GenerateBlockID scheme h
         = (BlockHeader.set_ID (BlockID.NewBlockIDFromDigest hash) h, Val tt) /\
         forall s : Signature,
           BlockHeader.HeaderToProtobufHeader (BlockHeader.set_BlockSignature s h) scheme
           = Val message) /\
    (forall txs : list T,
       Block.on_header (BlockHeader.GenerateBlockID scheme) (Block.set_Transactions txs b)
       = (Block.set_Transactions txs
            (fst (Block.on_header (BlockHeader.GenerateBlockID scheme) b)),
          snd (Block.on_header (BlockHeader.GenerateBlockID scheme) b))).
Proof.
  intros T b scheme h. split; [| split].
  - apply GenerateBlockID_legacy.
  - intros Hge message headerBytes hash Hmsg Hbytes Hhash.
    assert (Hm : BlockHeader.MarshalHeaderToProtobufWithoutSignature h scheme
                 = Val headerBytes).
    { unfold BlockHeader.MarshalHeaderToProtobufWithoutSignature.
      rewrite Hmsg. exact Hbytes. }
    split; [exact Hm | split].
    + apply GenerateBlockID_protobuf with (headerBytes := headerBytes); assumption.
    + intro s. rewrite HeaderToProtobufHeader_ignores_signature. exact Hmsg.
  - intro txs. unfold Block.on_header, Block.set_Transactions.
    cbn [Block.BlockHeader Block.Transactions]. fold h.
    destruct (BlockHeader.GenerateBlockID scheme h) as [h' r]. reflexivity.
Qed.

End BlockIDDerivation.

Section BlockIDDerivationOnSamples.
Import Sample.

Lemma GenerateBlockID_derivation_witness :
BlockHeader.GenerateBlockID Sample.scheme Sample.header2
= (BlockHeader.set_ID (BlockID.NewBlockIDFromSignature Signature_zero) Sample.header2,
   Val tt) /\
exists hash : Digest,
  BlockHeader.GenerateBlockID Sample.scheme Sample.header5
  = (BlockHeader.set_ID (BlockID.NewBlockIDFromDigest hash) Sample.header5, Val tt).
Proof.
split.
- apply (@GenerateBlockID_derivation Sample.crypto Sample.protobuf Sample.tx
           {| Block.BlockHeader := Sample.header2; Block.Transactions := [] |}
           Sample.scheme).
  vm_compute. reflexivity.
- destruct (@GenerateBlockID_derivation Sample.crypto Sample.protobuf Sample.tx
              {| Block.BlockHeader := Sample.header5; Block.Transactions := [] |}
              Sample.scheme) as [_ [Hpb _]].
  edestruct Hpb as [_ [Hgen _]];
    [ vm_compute; discriminate | reflexivity | reflexivity | reflexivity | ].
  eexists. exact Hgen.
Defined.

End BlockIDDerivationOnSamples.

(* ------------------------------------------------------------------ *)
(** ** Signature verification *)

Section SignatureVerification.
Context {T : Type} `{Transaction T} `{Crypto} `{Protobuf}.

(** C1: for a block of version at least Protobuf whose header message
    encodes to [headerBytes], [VerifySignature] answers false, without
    looking at the challenge, when [BlockSignature] does not verify on
    [headerBytes] under [GeneratorPublicKey]; answers true when it does
    and there is no challenged header; and with a challenged header
    whose recovered original header encodes to [origBytes], answers the
    conjunction of that check and the check of the original header's
    signature on [origBytes] under the original header's key.  When the
    recovered header cannot be encoded the answer is false with the
    wrapped error. *)
Theorem VerifySignature_protobuf :
  forall (b : Block.t T) (scheme : Scheme) (headerBytes : list byte),
    let h := Block.BlockHeader b in
    let outer :=
      crypto_Verify (BlockHeader.GeneratorPublicKey h)
                    (BlockHeader.BlockSignature h) headerBytes in
    ProtobufBlockVersion <= BlockHeader.Version h ->
    BlockHeader.MarshalHeaderToProtobufWithoutSignature h scheme = Val headerBytes ->
    (outer = false -> Block.VerifySignature b scheme = Val false) /\
    (outer = true -> BlockHeader.ChallengedHeader h = None ->
       Block.VerifySignature b scheme = Val true) /\
    (forall ch : ChallengedHeader.t,
       BlockHeader.ChallengedHeader h = Some ch ->
       BlockHeader.origHeader h = (h, Val (recovered h ch, true)) /\
       (forall origBytes : list byte,
          BlockHeader.MarshalHeaderToProtobufWithoutSignature (recovered h ch) scheme
          = Val origBytes ->
          Block.VerifySignature b scheme
          = Val (outer &&
                 crypto_Verify (BlockHeader.GeneratorPublicKey (recovered h ch))
                               (BlockHeader.BlockSignature (recovered h ch))
                               origBytes)) /\
       (forall e : error,
          outer = true ->
          BlockHeader.MarshalHeaderToProtobufWithoutSignature (recovered h ch) scheme
          = Fail e ->
          Block.VerifySignature b scheme
          = Fail (errors_Wrap e "failed to marshal challenged header to protobuf"))).
Proof.
  intros b scheme headerBytes h outer Hge Hm.
  apply Z.ltb_ge in Hge.
  assert (Hunfold :
    Block.VerifySignature b scheme
    = if negb outer then Val false
      else obind (snd (BlockHeader.origHeader h)) (fun '(origHeader, changed) =>
           if negb changed then Val true
           else
             match BlockHeader.MarshalHeaderToProtobufWithoutSignature
                     origHeader scheme with
             | Fail e =>
                 Fail (errors_Wrap e "failed to marshal challenged header to protobuf")
             | Panic => Panic
             | Val origHeaderBytes =>
                 Val (crypto_Verify (BlockHeader.GeneratorPublicKey origHeader)
                                    (BlockHeader.BlockSignature origHeader)
                                    origHeaderBytes)
             end)).
  { unfold Block.VerifySignature, Block.Version. fold h.
    rewrite Hge, Hm. reflexivity. }
  rewrite Hunfold. split; [| split].
  - intro Hout. rewrite Hout. reflexivity.
  - intros Hout Hnone. rewrite Hout.
    rewrite (origHeader_without_challenge h Hnone). reflexivity.
  - intros ch Hsome.
    pose proof (origHeader_with_challenge h Hsome) as Horig.
    split; [exact Horig | split].
    + intros origBytes Hom. rewrite Horig. cbn [snd obind negb].
      rewrite Hom. destruct outer; reflexivity.
    + intros e Hout Hom. rewrite Hout, Horig. cbn [snd obind negb].
      rewrite Hom. reflexivity.
Qed.

End SignatureVerification.


Section SignatureVerificationOnSamples.
Import Sample.

Example VerifySignature_challenged_valid :
  Block.VerifySignature (block_of header5_challenged []) scheme = Val true.
Proof. vm_compute. reflexivity. Qed.

Example VerifySignature_challenged_forged_original :
  Block.VerifySignature
    (block_of (BlockHeader.set_BlockSignature
                 (sign key (header_bytes
                              (BlockHeader.set_ChallengedHeader (Some challenged) header5)))
                 (BlockHeader.set_ChallengedHeader (Some challenged) header5)) [])
    scheme = Val false.
Proof. vm_compute. reflexivity. Qed.

Lemma VerifySignature_protobuf_witness :
  Block.VerifySignature (block_of header5 []) scheme = Val false /\
  Block.VerifySignature (block_of header5_challenged []) scheme = Val true.
Proof.
  split.
  - edestruct (@VerifySignature_protobuf tx transaction crypto protobuf
                 (block_of header5 []) scheme) as [Hfalse _];
      [ vm_compute; discriminate | reflexivity | ].
    apply Hfalse. vm_compute. reflexivity.
  - edestruct (@VerifySignature_protobuf tx transaction crypto protobuf
                 (block_of header5_challenged []) scheme) as [_ [_ Hch]];
      [ vm_compute; discriminate | reflexivity | ].
    edestruct (Hch challenged_signed eq_refl) as [_ [Hboth _]].
    rewrite (Hboth _ eq_refl). vm_compute. reflexivity.
Defined.

End SignatureVerificationOnSamples.

(* ------------------------------------------------------------------ *)
(** ** Streaming read of a [BlockID] *)

Section ReadFull.
Variables (p : list byte) (e : error).

Lemma ReadFull_enough (n : nat) :
  (n <= length p)%nat ->
  io_ReadFull {| pending := p; at_end := e |} n
  = (firstn n p, None, {| pending := skipn n p; at_end := e |}).
Proof.
  intro Hle. unfold io_ReadFull. cbn [pending at_end].
  apply Nat.leb_le in Hle. rewrite Hle. reflexivity.
Qed.

Lemma ReadFull_nothing (n : nat) :
  p = [] -> (0 < n)%nat ->
  io_ReadFull {| pending := p; at_end := e |} n
  = ([], Some e, {| pending := []; at_end := e |}).
Proof.
  intros -> Hpos. unfold io_ReadFull. cbn [pending at_end length].
  destruct n; [lia | reflexivity].
Qed.

Lemma ReadFull_short (n : nat) :
  p <> [] -> (length p < n)%nat ->
  io_ReadFull {| pending := p; at_end := e |} n
  = (p, Some (if error_eqb e io_EOF then io_ErrUnexpectedEOF else e),
     {| pending := []; at_end := e |}).
Proof.
  intros Hne Hlt. unfold io_ReadFull. cbn [pending at_end].
  apply Nat.leb_gt in Hlt. rewrite Hlt.
  destruct p; [congruence | reflexivity].
Qed.

End ReadFull.

Lemma firstn_app_exact {A : Type} (a b : list A) (n : nat) :
  length a = n -> firstn n (a ++ b) = a.
Proof.
  intros <-. rewrite firstn_app, firstn_all, Nat.sub_diag. apply app_nil_r.
Qed.

Lemma skipn_app_exact {A : Type} (a b : list A) (n : nat) :
  length a = n -> skipn n (a ++ b) = b.
Proof.
  intros <-. rewrite skipn_app, skipn_all, Nat.sub_diag. reflexivity.
Qed.

Lemma copy_full {A : Type} (dst src : list A) :
  length src = length dst -> copy dst src = src.
Proof.
  intro Hlen. unfold copy. rewrite <- Hlen, firstn_all, Hlen, skipn_all.
  apply app_nil_r.
Qed.

Lemma copy_prefix {A : Type} (dst src : list A) :
  (length src <= length dst)%nat -> copy dst src = src ++ skipn (length src) dst.
Proof.
  intro Hle. unfold copy. rewrite firstn_all2 by exact Hle. reflexivity.
Qed.

Lemma copy_nil {A : Type} (dst : list A) : copy dst [] = dst.
Proof. unfold copy. rewrite firstn_nil. reflexivity. Qed.

Lemma length_copy {A : Type} (dst src : list A) : length (copy dst src) = length dst.
Proof.
  unfold copy. rewrite length_app, length_firstn, length_skipn. lia.
Qed.

Section ReadFromOnSamples.
Import Sample.

Example ReadFrom_untyped_64 :
BlockID.ReadFrom BlockID.zero {| pending := repeat x01 70; at_end := io_EOF |}
= (BlockID.NewBlockIDFromSignature (repeat x01 64),
   {| pending := repeat x01 6; at_end := io_EOF |}, 64, None).
Proof. vm_compute. reflexivity. Qed.

Example ReadFrom_untyped_32 :
BlockID.ReadFrom BlockID.zero {| pending := repeat x01 32; at_end := io_EOF |}
= (BlockID.NewBlockIDFromDigest (repeat x01 32),
   {| pending := []; at_end := io_EOF |}, 32, None).
Proof. vm_compute. reflexivity. Qed.

Example ReadFrom_untyped_40 :
BlockID.ReadFrom BlockID.zero {| pending := repeat x01 40; at_end := io_EOF |}
= ({| BlockID.sig := zeros 32 ++ repeat x01 8 ++ zeros 24;
      BlockID.dig := repeat x01 32; BlockID.idType := DigestID |},
   {| pending := []; at_end := io_EOF |}, 40, None).
Proof. vm_compute. reflexivity. Qed.

Example ReadFrom_untyped_5 :
BlockID.ReadFrom BlockID.zero {| pending := repeat x01 5; at_end := io_EOF |}
= ({| BlockID.sig := zeros 64;
      BlockID.dig := repeat x01 5 ++ zeros 27; BlockID.idType := 0 |},
   {| pending := []; at_end := io_EOF |}, 5,
   Some (stderrs_Join ErrInvalidBlockIDDataSize io_ErrUnexpectedEOF)).
Proof. vm_compute. reflexivity. Qed.

Example ReadFrom_untyped_0 :
BlockID.ReadFrom BlockID.zero {| pending := []; at_end := io_EOF |}
= (BlockID.zero, {| pending := []; at_end := io_EOF |}, 0,
   Some (stderrs_Join ErrInvalidBlockIDDataSize io_EOF)).
Proof. vm_compute. reflexivity. Qed.

End ReadFromOnSamples.

Lemma LimitReader_stream (data : list byte) :
  io_LimitReader (stream data) SignatureSize = stream (firstn 64 data).
Proof.
  unfold io_LimitReader, stream. cbn [pending at_end].
  destruct (SignatureSize <=? Z.of_nat (length data)); reflexivity.
Qed.

Lemma ReadFull_stream_short (data : list byte) (n : nat) :
  (length data < n)%nat ->
  io_ReadFull (stream data) n = (data, Some (short_read_error data), stream []).
Proof.
  intro Hlt. destruct data as [| x data'].
  - unfold stream. rewrite ReadFull_nothing by (reflexivity || lia). reflexivity.
  - unfold stream. rewrite ReadFull_short by (discriminate || exact Hlt). reflexivity.
Qed.

Lemma eof_like_short_read_error (data : list byte) :
  BlockID.eof_like (short_read_error data) = true.
Proof. destruct data; reflexivity. Qed.

Section ReadFromStream.
Variables (id : BlockID.t) (data : list byte).
Hypothesis sig_width : length (BlockID.sig id) = 64%nat.
Hypothesis dig_width : length (BlockID.dig id) = 32%nat.

Lemma readSignatureFrom_stream_full :
  (64 <= length data)%nat ->
  BlockID.readSignatureFrom id (stream data)
  = ({| BlockID.sig := firstn 64 data; BlockID.dig := BlockID.dig id;
        BlockID.idType := BlockID.idType id |},
     stream (skipn 64 data), 64, None).
Proof.
  intro Hlen. unfold BlockID.readSignatureFrom, stream.
  rewrite ReadFull_enough by exact Hlen. cbv beta iota zeta.
  rewrite copy_full by (rewrite length_firstn; lia).
  rewrite length_firstn, Nat.min_l by exact Hlen. reflexivity.
Qed.

Lemma readSignatureFrom_stream_short :
  (length data < 64)%nat ->
  BlockID.readSignatureFrom id (stream data)
  = ({| BlockID.sig := copy (BlockID.sig id) data; BlockID.dig := BlockID.dig id;
        BlockID.idType := BlockID.idType id |},
     stream [], Z.of_nat (length data),
     Some (stderrs_Join ErrInvalidBlockIDDataSize (short_read_error data))).
Proof.
  intro Hlen. unfold BlockID.readSignatureFrom.
  rewrite ReadFull_stream_short by exact Hlen. cbv beta iota zeta.
  rewrite eof_like_short_read_error. reflexivity.
Qed.

Lemma readDigestFrom_stream_full :
  (32 <= length data)%nat ->
  BlockID.readDigestFrom id (stream data)
  = ({| BlockID.sig := BlockID.sig id; BlockID.dig := firstn 32 data;
        BlockID.idType := BlockID.idType id |},
     stream (skipn 32 data), 32, None).
Proof.
  intro Hlen. unfold BlockID.readDigestFrom, stream.
  rewrite ReadFull_enough by exact Hlen. cbv beta iota zeta.
  rewrite copy_full by (rewrite length_firstn; lia).
  rewrite length_firstn, Nat.min_l by exact Hlen. reflexivity.
Qed.

Lemma readDigestFrom_stream_short :
  (length data < 32)%nat ->
  BlockID.readDigestFrom id (stream data)
  = ({| BlockID.sig := BlockID.sig id; BlockID.dig := copy (BlockID.dig id) data;
        BlockID.idType := BlockID.idType id |},
     stream [], Z.of_nat (length data),
     Some (stderrs_Join ErrInvalidBlockIDDataSize (short_read_error data))).
Proof.
  intro Hlen. unfold BlockID.readDigestFrom.
  rewrite ReadFull_stream_short by exact Hlen. cbv beta iota zeta.
  rewrite eof_like_short_read_error. reflexivity.
Qed.

Lemma readUndefinedFrom_stream_short :
  (length data < 32)%nat ->
  BlockID.readUndefinedFrom id (stream data)
  = ({| BlockID.sig := BlockID.sig id; BlockID.dig := copy (BlockID.dig id) data;
        BlockID.idType := BlockID.idType id |},
     stream [], Z.of_nat (length data),
     Some (stderrs_Join ErrInvalidBlockIDDataSize (short_read_error data))).
Proof.
  intro Hlen. unfold BlockID.readUndefinedFrom.
  rewrite LimitReader_stream.
  rewrite (firstn_all2 (n := 64) data) by lia.
  rewrite ReadFull_stream_short by exact Hlen. cbv beta iota zeta.
  rewrite eof_like_short_read_error.
  unfold advance, stream. cbn [pending at_end].
  rewrite skipn_all. reflexivity.
Qed.

(** Between 32 and 63 bytes: the first 32 become the digest, the rest is
    consumed into the tail of [sig], and no error is reported. *)
Lemma readUndefinedFrom_stream_digest :
  (32 <= length data < 64)%nat ->
  BlockID.readUndefinedFrom id (stream data)
  = ({| BlockID.sig :=
          firstn 32 (BlockID.sig id)
          ++ copy (skipn 32 (BlockID.sig id)) (skipn 32 data);
        BlockID.dig := firstn 32 data; BlockID.idType := DigestID |},
     stream [], Z.of_nat (length data), None).
Proof.
  intros [Hlo Hhi]. unfold BlockID.readUndefinedFrom.
  rewrite LimitReader_stream.
  rewrite (firstn_all2 (n := 64) data) by lia.
  unfold stream at 1. rewrite ReadFull_enough by exact Hlo.
  fold (stream (skipn 32 data)).
  rewrite ReadFull_stream_short by (rewrite length_skipn; lia).
  cbv beta iota zeta. rewrite eof_like_short_read_error.
  cbn [BlockID.sig BlockID.dig BlockID.idType].
  rewrite (copy_full (BlockID.dig id)) by (rewrite length_firstn; lia).
  unfold advance, stream. cbn [pending at_end].
  rewrite length_firstn, length_skipn, Nat.min_l by exact Hlo.
  replace (32 + (length data - 32))%nat with (length data) by lia.
  rewrite skipn_all.
  replace (Z.of_nat 32 + Z.of_nat (length data - 32)) with (Z.of_nat (length data))
    by lia.
  reflexivity.
Qed.

Lemma readUndefinedFrom_stream_signature :
  (64 <= length data)%nat ->
  BlockID.readUndefinedFrom id (stream data)
  = (BlockID.NewBlockIDFromSignature (firstn 64 data),
     stream (skipn 64 data), 64, None).
Proof.
  intro Hlen. unfold BlockID.readUndefinedFrom.
  rewrite LimitReader_stream.
  unfold stream at 1. rewrite ReadFull_enough by (rewrite length_firstn; lia).
  rewrite ReadFull_enough by (rewrite length_skipn, length_firstn; lia).
  cbv beta iota zeta. cbn [BlockID.sig BlockID.dig BlockID.idType].
  rewrite firstn_firstn. change (Nat.min 32 64) with 32%nat.
  rewrite skipn_firstn_comm. change (64 - 32)%nat with 32%nat.
  set (d1 := firstn 32 data). set (d2 := firstn 32 (skipn 32 data)).
  assert (Hd1 : length d1 = 32%nat) by (subst d1; rewrite length_firstn; lia).
  assert (Hd2 : length d2 = 32%nat)
    by (subst d2; rewrite length_firstn, length_skipn; lia).
  rewrite (firstn_all2 (n := 32) d2) by lia.
  rewrite (copy_full (BlockID.dig id) d1) by lia.
  rewrite (copy_full (skipn 32 (BlockID.sig id)) d2)
    by (rewrite length_skipn; lia).
  assert (Hs1 : length (firstn 32 (BlockID.sig id)) = 32%nat)
    by (rewrite length_firstn; lia).
  rewrite (firstn_app_exact _ _ Hs1), (skipn_app_exact _ _ Hs1).
  rewrite (copy_full (firstn 32 (BlockID.sig id)) d1) by lia.
  unfold BlockID.NewBlockIDFromSignature, advance, stream. cbn [pending at_end].
  rewrite Hd1, Hd2. change (32 + 32)%nat with 64%nat.
  change (Z.of_nat 32 + Z.of_nat 32) with 64.
  replace (d1 ++ d2) with (firstn 64 data); [reflexivity |].
  subst d1 d2. rewrite firstn_skipn_comm. change (32 + 32)%nat with 64%nat.
  rewrite <- (firstn_skipn 32 (firstn 64 data)) at 1.
  rewrite firstn_firstn. reflexivity.
Qed.

End ReadFromStream.





Section ReadFromReader.
Variables (id : BlockID.t) (r : Reader).
Hypothesis sig_width : length (BlockID.sig id) = 64%nat.
Hypothesis dig_width : length (BlockID.dig id) = 32%nat.








End ReadFromReader.




(* ------------------------------------------------------------------ *)
(** ** Fixed-width integers on the wire *)

Lemma byte_to_Z_range (b : byte) : 0 <= byte_to_Z b < 256.
Proof.
  unfold byte_to_Z. pose proof (Byte.to_N_bounded b) as Hb. lia.
Qed.

Lemma byte_to_Z_to_byte (z : Z) : byte_to_Z (Z_to_byte z) = z mod 256.
Proof.
  unfold byte_to_Z, Z_to_byte.
  pose proof (Z.mod_pos_bound z 256 ltac:(lia)) as Hr.
  destruct (Byte.of_N (Z.to_N (z mod 256))) as [b |] eqn:Hof.
  - apply Byte.to_of_N in Hof. rewrite Hof. lia.
  - apply Byte.of_N_None_iff in Hof. lia.
Qed.

Lemma Z_to_byte_to_Z (b : byte) : Z_to_byte (byte_to_Z b) = b.
Proof.
  unfold Z_to_byte. rewrite Z.mod_small by apply byte_to_Z_range.
  unfold byte_to_Z. rewrite N2Z.id, Byte.of_to_N. reflexivity.
Qed.

Lemma length_be_encode (n : nat) (z : Z) : length (be_encode n z) = n.
Proof.
  revert z. induction n as [| n IH]; intro z; cbn [be_encode].
  - reflexivity.
  - rewrite length_app, IH. cbn. lia.
Qed.

Lemma be_decode_snoc (l : list byte) (b : byte) :
  be_decode (l ++ [b]) = be_decode l * 256 + byte_to_Z b.
Proof. unfold be_decode. rewrite fold_left_app. reflexivity. Qed.

Lemma be_decode_encode (n : nat) (z : Z) :
  be_decode (be_encode n z) = z mod 256 ^ Z.of_nat n.
Proof.
  revert z. induction n as [| n IH]; intro z.
  - cbn. rewrite Z.mod_1_r. reflexivity.
  - cbn [be_encode]. rewrite be_decode_snoc, IH, byte_to_Z_to_byte.
    rewrite Nat2Z.inj_succ, Z.pow_succ_r by lia.
    rewrite (Z.rem_mul_r z 256 (256 ^ Z.of_nat n)) by lia. lia.
Qed.

Lemma be_decode_encode_small (n : nat) (z : Z) :
  0 <= z < 256 ^ Z.of_nat n -> be_decode (be_encode n z) = z.
Proof.
  intro Hr. rewrite be_decode_encode. apply Z.mod_small. exact Hr.
Qed.

Lemma signed_mod (w z : Z) :
  0 < w -> - 2 ^ (w - 1) <= z < 2 ^ (w - 1) -> signed w (z mod 2 ^ w) = z.
Proof.
  intros Hw Hr. unfold signed.
  assert (Hp : 2 ^ w = 2 * 2 ^ (w - 1)).
  { replace w with (Z.succ (w - 1)) at 1 by lia. apply Z.pow_succ_r. lia. }
  assert (Hpos1 : 0 < 2 ^ (w - 1)) by (apply Z.pow_pos_nonneg; lia).
  rewrite Z.mod_mod by lia.
  destruct (Z_lt_le_dec z 0) as [Hneg | Hpos].
  - replace (z mod 2 ^ w) with (z + 2 ^ w).
    + destruct (Z.ltb_spec (z + 2 ^ w) (2 ^ (w - 1))); lia.
    + apply Z.mod_unique with (q := -1); lia.
  - rewrite Z.mod_small by lia.
    destruct (Z.ltb_spec z (2 ^ (w - 1))); lia.
Qed.

Lemma int64_be_roundtrip (z : Z) :
  - 2 ^ 63 <= z < 2 ^ 63 -> int64 (be_decode (be_encode 8 z)) = z.
Proof.
  intro Hr. rewrite be_decode_encode. unfold int64.
  change (256 ^ Z.of_nat 8) with (2 ^ 64).
  apply signed_mod; [lia | exact Hr].
Qed.

Lemma int16_be_roundtrip (z : Z) :
  - 2 ^ 15 <= z < 2 ^ 15 -> int16 (be_decode (be_encode 2 z)) = z.
Proof.
  intro Hr. rewrite be_decode_encode. unfold int16.
  change (256 ^ Z.of_nat 2) with (2 ^ 16).
  apply signed_mod; [lia | exact Hr].
Qed.

Lemma length_features_binary (fs : list Z) :
  length (flat_map (be_encode 2) fs) = (2 * length fs)%nat.
Proof.
  induction fs as [| f fs IH]; cbn [flat_map length].
  - reflexivity.
  - rewrite length_app, length_be_encode, IH. lia.
Qed.

Lemma read_int16s_features (fs : list Z) (rest : list byte) :
  Forall (fun f => - 2 ^ 15 <= f < 2 ^ 15) fs ->
  read_int16s (length fs) (flat_map (be_encode 2) fs ++ rest) = fs.
Proof.
  induction 1 as [| f fs Hf _ IH]; cbn [flat_map length read_int16s].
  - reflexivity.
  - rewrite <- app_assoc.
    rewrite (firstn_app_exact _ _ (length_be_encode 2 f)).
    rewrite (skipn_app_exact _ _ (length_be_encode 2 f)).
    rewrite int16_be_roundtrip by exact Hf. rewrite IH. reflexivity.
Qed.

Lemma featuresFromBinary_featuresToBinary (fs : list Z) :
  Forall (fun f => - 2 ^ 15 <= f < 2 ^ 15) fs ->
  featuresFromBinary (flat_map (be_encode 2) fs) = Val fs.
Proof.
  intro Hfs. unfold featuresFromBinary. rewrite length_features_binary.
  rewrite Nat.mul_comm, Nat.div_mul by lia.
  rewrite <- (app_nil_r (flat_map (be_encode 2) fs)).
  rewrite read_int16s_features by exact Hfs. reflexivity.
Qed.

(* ------------------------------------------------------------------ *)
(** ** The transaction list on the wire *)

Section TransactionsCodec.
Context {T : Type} `{Transaction T}.
Variable scheme : Scheme.

Lemma WriteToBinary_roundtrips (txs : list T) :
  Forall (tx_roundtrips scheme) txs ->
  exists txb : list byte,
    Transactions.WriteToBinary txs scheme = Val txb /\
    forall rest : list byte,
      Transactions.BytesToTransactions (length txs) (txb ++ rest) scheme = Val txs.
Proof.
  induction 1 as [| tx txs [bs [Hm [Hu Hlen]]] _ [txb [Hw Hr]]].
  - exists []. split; [reflexivity | intro rest; reflexivity].
  - exists (be_encode 4 (uint32 (Z.of_nat (length bs))) ++ bs ++ txb). split.
    + cbn [Transactions.WriteToBinary]. rewrite Hm. cbn [obind].
      rewrite Hw. reflexivity.
    + intro rest. cbn [Transactions.BytesToTransactions length].
      rewrite <- !app_assoc.
      set (prefix := be_encode 4 (uint32 (Z.of_nat (length bs)))).
      assert (Hp : length prefix = 4%nat) by apply length_be_encode.
      assert (Hn : Z.to_nat (be_decode prefix) = length bs).
      { subst prefix. rewrite be_decode_encode_small.
        - unfold uint32. rewrite Z.mod_small by lia. lia.
        - unfold uint32. change (256 ^ Z.of_nat 4) with (2 ^ 32).
          apply Z.mod_pos_bound. lia. }
      clearbody prefix.
      replace ((length (prefix ++ bs ++ txb ++ rest) <? 4)%nat) with false
        by (symmetry; apply Nat.ltb_ge; rewrite length_app; lia).
      rewrite (firstn_app_exact _ _ Hp), Hn.
      replace ((length (prefix ++ bs ++ txb ++ rest) <? 4 + length bs)%nat)
        with false
        by (symmetry; apply Nat.ltb_ge; rewrite !length_app; lia).
      rewrite (skipn_app_exact _ _ Hp).
      rewrite (firstn_app_exact bs (txb ++ rest) eq_refl), Hu. cbn [obind].
      replace (skipn (4 + length bs) (prefix ++ bs ++ txb ++ rest))
        with (txb ++ rest).
      * rewrite Hr. reflexivity.
      * rewrite app_assoc. symmetry. apply skipn_app_exact.
        rewrite length_app. lia.
Qed.

End TransactionsCodec.

(* ------------------------------------------------------------------ *)
(** ** Running a decoder on a known layout *)

Lemma bind_lift_Val {S A B : Type} (x : outcome A) (a : A) (k : A -> M S B) (s : S) :
  x = Val a -> bind (lift x) k s = k a s.
Proof. intros ->. reflexivity. Qed.

Lemma bind_lift_Panic {S A B : Type} (x : outcome A) (k : A -> M S B) (s : S) :
  x = Panic -> bind (lift x) k s = (s, Panic).
Proof. intros ->. reflexivity. Qed.

Lemma bind_modify {S B : Type} (f : S -> S) (k : unit -> M S B) (s : S) :
  bind (modify f) k s = k tt (f s).
Proof. reflexivity. Qed.

Lemma bind_Val {S A B : Type} (m : M S A) (k : A -> M S B) (s s' : S) (a : A) :
  m s = (s', Val a) -> bind m k s = k a s'.
Proof. intro Hm. unfold bind. rewrite Hm. reflexivity. Qed.

Lemma bind_wrap_lift_Val {S A B : Type}
      (x : outcome A) (a : A) (msg : string) (k : A -> M S B) (s : S) :
  x = Val a -> bind (wrap (lift x) msg) k s = k a s.
Proof. intros ->. reflexivity. Qed.

Lemma length_concat_firstn_le {A : Type} (fs : list (list A)) (k : nat) :
  (length (concat (firstn k fs)) <= length (concat fs))%nat.
Proof.
  rewrite <- (firstn_skipn k fs) at 2. rewrite concat_app, length_app. lia.
Qed.

Lemma concat_split_at {A : Type} (fs : list (list A)) (k : nat) :
  (k < length fs)%nat ->
  concat fs = concat (firstn k fs) ++ nth k fs [] ++ concat (skipn (S k) fs).
Proof.
  revert k. induction fs as [| f fs IH]; intros k Hk; cbn [length] in Hk.
  - lia.
  - destruct k as [| k].
    + reflexivity.
    + cbn [firstn nth skipn concat]. rewrite (IH k) at 1 by lia.
      rewrite <- app_assoc. reflexivity.
Qed.

Lemma reslice_concat (fs : list (list byte)) (k : nat) (lo hi : Z) :
  (k < length fs)%nat ->
  lo = Z.of_nat (length (concat (firstn k fs))) ->
  hi = lo + Z.of_nat (length (nth k fs [])) ->
  reslice (slice_of (concat fs)) lo hi = Val (nth k fs []).
Proof.
  intros Hk Hlo Hhi. unfold reslice, slice_of, cap. cbn [elems spare].
  rewrite app_nil_r.
  assert (Hsplit := concat_split_at fs Hk).
  assert (Hcap : hi <= Z.of_nat (length (concat fs) + length (@nil byte))).
  { rewrite Hsplit at 1. rewrite !length_app. cbn [length]. lia. }
  replace ((0 <=? lo) && (lo <=? hi) &&
           (hi <=? Z.of_nat (length (concat fs) + length (@nil byte))))
    with true
    by (symmetry; rewrite !andb_true_iff, !Z.leb_le; lia).
  f_equal. rewrite Hsplit.
  rewrite skipn_app_exact by lia.
  apply firstn_app_exact. lia.
Qed.

Lemma index_concat (fs : list (list byte)) (k : nat) (i : Z) (x : byte) :
  (k < length fs)%nat ->
  nth k fs [] = [x] ->
  i = Z.of_nat (length (concat (firstn k fs))) ->
  index (slice_of (concat fs)) i = Val x.
Proof.
  intros Hk Hx Hi. unfold index, slice_of, len. cbn [elems].
  assert (Hsplit := concat_split_at fs Hk). rewrite Hx in Hsplit.
  replace ((0 <=? i) && (i <? Z.of_nat (length (concat fs)))) with true.
  - f_equal. rewrite Hsplit, Hi, Nat2Z.id.
    rewrite app_nth2 by lia. rewrite Nat.sub_diag. reflexivity.
  - symmetry. rewrite andb_true_iff, Z.leb_le, Z.ltb_lt.
    rewrite Hsplit at 1. rewrite !length_app. cbn [length]. lia.
Qed.

Lemma len_slice_of (l : list byte) : len (slice_of l) = Z.of_nat (length l).
Proof. reflexivity. Qed.

Lemma length_zeros (n : nat) : length (zeros n) = n.
Proof. apply repeat_length. Qed.

(* ------------------------------------------------------------------ *)
(** ** The legacy binary form and its decoding *)

Unset Implicit Arguments.

Section LegacyLayout.
Context {T : Type} `{Transaction T} `{Crypto} `{Protobuf}.
Variable scheme : Scheme.

Lemma WriteToBinary_transactions_bytes (txs : list T) :
  Forall (tx_roundtrips scheme) txs ->
  Transactions.WriteToBinary txs scheme = Val (transactions_bytes txs scheme) /\
  forall rest : list byte,
    Transactions.BytesToTransactions
      (length txs) (transactions_bytes txs scheme ++ rest) scheme = Val txs.
Proof.
  intro Htxs.
  destruct (WriteToBinary_roundtrips Htxs) as [txb [Hw Hr]].
  unfold transactions_bytes. rewrite Hw. split; [reflexivity | exact Hr].
Qed.

Lemma MarshalBinary_layout (b : Block.t T) :
  legacy_encodable scheme b ->
  Block.MarshalBinary b scheme = Val (concat (layout scheme b)).
Proof.
  intros [Hv _ [ps [Hparent Hps]] _ _ _ Htxs _ _ _ _ _ _].
  destruct (WriteToBinary_transactions_bytes _ Htxs) as [Hw _].
  unfold Block.MarshalBinary, Block.WriteTo, Block.WriteToWithoutSignature, layout.
  replace (ProtobufBlockVersion <=? Block.Version b) with false
    by (symmetry; apply Z.leb_gt; lia).
  rewrite Hparent.
  change (BlockID.Bytes (BlockID.NewBlockIDFromSignature ps)) with ps.
  rewrite Hps. change (negb (Z.of_nat 64 =? SignatureSize)) with false.
  cbv beta iota. rewrite Hw. unfold featuresToBinary. cbn [obind].
  destruct (Z.leb_spec NgBlockVersion (Block.Version b));
    destruct (Z.leb_spec RewardBlockVersion (Block.Version b));
    try (unfold NgBlockVersion, RewardBlockVersion in *; lia);
    cbn [obind concat]; rewrite ?app_nil_r, <- ?app_assoc; reflexivity.
Qed.

End LegacyLayout.

Lemma bind_modify_to {S B : Type} (f : S -> S) (k : unit -> M S B) (s s' : S) :
  f s = s' -> bind (modify f) k s = k tt s'.
Proof. intros <-. reflexivity. Qed.

Lemma NewBlockIDFromBytes_signature (ps : list byte) :
  length ps = 64%nat ->
  BlockID.NewBlockIDFromBytes ps = Val (BlockID.NewBlockIDFromSignature ps).
Proof.
  intro Hps. unfold BlockID.NewBlockIDFromBytes. rewrite Hps. reflexivity.
Qed.

Lemma be64_roundtrip (z : Z) : 0 <= z < 2 ^ 64 -> be_decode (be_encode 8 z) = z.
Proof. apply (be_decode_encode_small 8). Qed.

Lemma be32_roundtrip (z : Z) : 0 <= z < 2 ^ 32 -> be_decode (be_encode 4 z) = z.
Proof. apply (be_decode_encode_small 4). Qed.

Lemma uint32_small (z : Z) : 0 <= z < 2 ^ 32 -> uint32 z = z.
Proof. intro Hz. apply Z.mod_small. exact Hz. Qed.

Lemma bind_assoc {S A B C : Type} (m : M S A) (f : A -> M S B) (k : B -> M S C) (s : S) :
  bind (bind m f) k s = bind m (fun a => bind (f a) k) s.
Proof.
  unfold bind. destruct (m s) as [s' [a | e |]]; try reflexivity.
Qed.

Lemma bind_ret {S A B : Type} (a : A) (k : A -> M S B) (s : S) :
  bind (ret a) k s = k a s.
Proof. reflexivity. Qed.

Ltac u32 :=
  repeat match goal with
         | |- context [uint32 ?z] => rewrite (uint32_small z) by lia
         end.

Ltac field_lengths :=
  cbn [firstn concat nth length];
  rewrite ?length_app, ?length_be_encode, ?length_features_binary;
  cbn [length]; lia.

Ltac take_field n :=
  erewrite bind_lift_Val
    by (apply reslice_concat with (k := n);
        [ cbn [length]; lia | field_lengths | field_lengths ]);
  cbn [nth].

Ltac take_byte n :=
  erewrite bind_lift_Val
    by (apply index_concat with (k := n);
        [ cbn [length]; lia | reflexivity | field_lengths ]);
  cbv beta zeta.

Ltac norm_block :=
  cbv [BlockHeader.set_Version BlockHeader.set_Timestamp BlockHeader.set_Parent BlockHeader.set_FeaturesCount BlockHeader.set_Features BlockHeader.set_RewardVote BlockHeader.set_ConsensusBlockLength BlockHeader.set_NxtConsensus BlockHeader.set_TransactionBlockLength BlockHeader.set_TransactionCount BlockHeader.set_GeneratorPublicKey BlockHeader.set_BlockSignature BlockHeader.set_TransactionsRoot BlockHeader.set_StateHash BlockHeader.set_ChallengedHeader BlockHeader.set_ID BlockHeader.set_BaseTarget BlockHeader.set_GenSignature Block.set_header Block.set_Transactions BlockHeader.Version BlockHeader.Timestamp BlockHeader.Parent BlockHeader.FeaturesCount BlockHeader.Features BlockHeader.RewardVote BlockHeader.ConsensusBlockLength BlockHeader.NxtConsensus BlockHeader.TransactionBlockLength BlockHeader.TransactionCount BlockHeader.GeneratorPublicKey BlockHeader.BlockSignature BlockHeader.TransactionsRoot BlockHeader.StateHash BlockHeader.ChallengedHeader BlockHeader.ID BlockHeader.BaseTarget BlockHeader.GenSignature NxtConsensus.BaseTarget NxtConsensus.GenSignature Block.BlockHeader Block.Transactions Block.Version].

Ltac store :=
  erewrite bind_modify_to
    by (cbv [BlockHeader.set_Version BlockHeader.set_Timestamp BlockHeader.set_Parent BlockHeader.set_FeaturesCount BlockHeader.set_Features BlockHeader.set_RewardVote BlockHeader.set_ConsensusBlockLength BlockHeader.set_NxtConsensus BlockHeader.set_TransactionBlockLength BlockHeader.set_TransactionCount BlockHeader.set_GeneratorPublicKey BlockHeader.set_BlockSignature BlockHeader.set_TransactionsRoot BlockHeader.set_StateHash BlockHeader.set_ChallengedHeader BlockHeader.set_ID BlockHeader.set_BaseTarget BlockHeader.set_GenSignature Block.set_header Block.set_Transactions BlockHeader.Version BlockHeader.Timestamp BlockHeader.Parent BlockHeader.FeaturesCount BlockHeader.Features BlockHeader.RewardVote BlockHeader.ConsensusBlockLength BlockHeader.NxtConsensus BlockHeader.TransactionBlockLength BlockHeader.TransactionCount BlockHeader.GeneratorPublicKey BlockHeader.BlockSignature BlockHeader.TransactionsRoot BlockHeader.StateHash BlockHeader.ChallengedHeader BlockHeader.ID BlockHeader.BaseTarget BlockHeader.GenSignature NxtConsensus.BaseTarget NxtConsensus.GenSignature Block.BlockHeader Block.Transactions Block.Version];
        reflexivity);
  cbv beta.

Section LegacyDecode.
Context {T : Type} `{Transaction T} `{Crypto} `{Protobuf}.
Variable scheme : Scheme.

Lemma length_transactions_bytes (txs : list T) :
  Forall (tx_roundtrips scheme) txs ->
  (4 * length txs <= length (transactions_bytes txs scheme))%nat.
Proof.
  unfold transactions_bytes.
  induction 1 as [| tx txs [bs [Hm _]] Htxs IH]; cbn [Transactions.WriteToBinary].
  - cbn. lia.
  - rewrite Hm. cbn [obind].
    destruct (WriteToBinary_roundtrips Htxs) as [txb [Hw _]].
    rewrite Hw in IH |- *. cbn [obind].
    rewrite !length_app, length_be_encode. cbn [length]. lia.
Qed.

Lemma read_transactions_ok (s : Block.t T) (txs : list T) (txb : list byte) :
  BlockHeader.TransactionCount (Block.BlockHeader s) = Z.of_nat (length txs) ->
  Transactions.BytesToTransactions (length txs) txb scheme = Val txs ->
  Block.read_transactions txb scheme s = (Block.set_Transactions txs s, Val tt).
Proof.
  intros Hcount Hread. unfold Block.read_transactions,
    Transactions.NewTransactionsFromBytes.
  rewrite Hcount, Nat2Z.id, Hread. reflexivity.
Qed.

Lemma UnmarshalBinary_layout (b b0 : Block.t T) :
  legacy_encodable scheme b ->
  Z.of_nat (length (concat (layout scheme b))) < 2 ^ 32 ->
  length (BlockHeader.GeneratorPublicKey (Block.BlockHeader b0)) = 32%nat ->
  length (BlockHeader.BlockSignature (Block.BlockHeader b0)) = 64%nat ->
  Block.UnmarshalBinary (slice_of (concat (layout scheme b))) scheme b0
  = (decoded_view b0 b, Returns None).
Proof.
  destruct b as [[v ts p fc fs rv cbl [bt gs] tbl tc pk sg tr sh ch id] txs].
  destruct b0 as [[v0 ts0 p0 fc0 fs0 rv0 cbl0 [bt0 gs0] tbl0 tc0 pk0 sg0 tr0 sh0 ch0 id0] txs0].
  intros [Hv Hts [ps [Hparent Hps]] Hcbl Hbt Hgs Htxs [Htc Htc8] Htbl Hfs Hrv Hpk Hsg].
  unfold Block.Version in *. cbn [BlockHeader.Version BlockHeader.Timestamp BlockHeader.Parent BlockHeader.FeaturesCount BlockHeader.Features BlockHeader.RewardVote BlockHeader.ConsensusBlockLength BlockHeader.NxtConsensus BlockHeader.TransactionBlockLength BlockHeader.TransactionCount BlockHeader.GeneratorPublicKey BlockHeader.BlockSignature BlockHeader.TransactionsRoot BlockHeader.StateHash BlockHeader.ChallengedHeader BlockHeader.ID BlockHeader.BaseTarget BlockHeader.GenSignature NxtConsensus.BaseTarget NxtConsensus.GenSignature Block.BlockHeader Block.Transactions Block.Version] in *.
  subst p. intros Hsize Hpk0 Hsg0.
  destruct (WriteToBinary_transactions_bytes scheme txs Htxs) as [_ Hread].
  unfold Block.UnmarshalBinary, recover_invalid_data_size, Block.UnmarshalBinary_body.
  unfold layout, decoded_view, Block.Version. cbn [BlockHeader.Version BlockHeader.Timestamp BlockHeader.Parent BlockHeader.FeaturesCount BlockHeader.Features BlockHeader.RewardVote BlockHeader.ConsensusBlockLength BlockHeader.NxtConsensus BlockHeader.TransactionBlockLength BlockHeader.TransactionCount BlockHeader.GeneratorPublicKey BlockHeader.BlockSignature BlockHeader.TransactionsRoot BlockHeader.StateHash BlockHeader.ChallengedHeader BlockHeader.ID BlockHeader.BaseTarget BlockHeader.GenSignature NxtConsensus.BaseTarget NxtConsensus.GenSignature Block.BlockHeader Block.Transactions Block.Version].
  change (BlockID.Bytes (BlockID.NewBlockIDFromSignature ps)) with ps.
  unfold layout, Block.Version in Hsize. cbn [BlockHeader.Version BlockHeader.Timestamp BlockHeader.Parent BlockHeader.FeaturesCount BlockHeader.Features BlockHeader.RewardVote BlockHeader.ConsensusBlockLength BlockHeader.NxtConsensus BlockHeader.TransactionBlockLength BlockHeader.TransactionCount BlockHeader.GeneratorPublicKey BlockHeader.BlockSignature BlockHeader.TransactionsRoot BlockHeader.StateHash BlockHeader.ChallengedHeader BlockHeader.ID BlockHeader.BaseTarget BlockHeader.GenSignature NxtConsensus.BaseTarget NxtConsensus.GenSignature Block.BlockHeader Block.Transactions Block.Version] in Hsize.
  change (BlockID.Bytes (BlockID.NewBlockIDFromSignature ps)) with ps in Hsize.
  set (txb := transactions_bytes txs scheme) in *.
  assert (Hcases : v = 0 \/ v = 1 \/ v = 2 \/ v = 3 \/ v = 4)
    by (unfold ProtobufBlockVersion in Hv; lia).
  assert (Hlinear :
    Z.of_nat (length (concat
      [[Z_to_byte v]; be_encode 8 ts; ps; be_encode 4 cbl;
       be_encode 8 bt; gs; be_encode 4 tbl])) = 121).
  { field_lengths. }
  destruct Hcases as [-> | [-> | [-> | [-> | ->]]]];
    cbn [Z.leb Z.compare Pos.compare Pos.compare_cont
         NgBlockVersion RewardBlockVersion ProtobufBlockVersion] in *;
    cbn [concat] in Hsize;
    rewrite ?length_app, ?length_be_encode, ?length_features_binary, ?Hps, ?Hgs,
      ?Hpk, ?Hsg in Hsize;
    cbn [length] in Hsize.
  all: take_byte 0%nat.
  all: rewrite byte_to_Z_to_byte, Z.mod_small by lia.
  all: store.
  all: cbn [Z.leb Z.compare Pos.compare Pos.compare_cont
            NgBlockVersion RewardBlockVersion ProtobufBlockVersion].
  all: take_field 1%nat; store.
  all: take_field 2%nat.
  all: rewrite (bind_lift_Val _ _ (NewBlockIDFromBytes_signature ps Hps)); store.
  all: take_field 3%nat; store.
  all: take_field 4%nat; store; store.
  all: take_field 5%nat; store.
  all: take_field 6%nat; cbv zeta; store; store.
  all: rewrite ?be64_roundtrip, ?be32_roundtrip by lia.
  all: rewrite copy_full by (rewrite length_zeros; lia).
  all: pose proof (length_transactions_bytes txs Htxs) as Hcount; fold txb in Hcount.
  all: unfold NgBlockVersion, RewardBlockVersion, ProtobufBlockVersion in *.
  all: subst tbl tc.
  (* versions below Ng *)
  1-3: rewrite (proj2 (Z.ltb_ge _ _)) by lia.
  1-3: rewrite bind_assoc; take_byte 7%nat.
  1-3: rewrite bind_assoc; store.
  1-3: rewrite bind_assoc; u32.
  1-3: take_field 8%nat.
  1-3: rewrite bind_assoc.
  1-3: erewrite bind_Val
         by (apply read_transactions_ok with (txs := txs);
             [ cbn [Block.BlockHeader BlockHeader.TransactionCount];
               rewrite byte_to_Z_to_byte; apply Z.mod_small; lia
             | rewrite <- (app_nil_r txb); apply Hread ]).
  1-3: store.
  (* versions from Ng on *)
  4-5: destruct (Hfs ltac:(lia)) as [-> Hrange]; clear Hfs.
  4-5: rewrite (proj2 (Z.ltb_ge _ _)) by lia.
  4-5: rewrite bind_assoc; take_field 7%nat.
  4-5: rewrite bind_assoc; store.
  4-5: cbv zeta; u32; rewrite ?be32_roundtrip by lia.
  4-5: rewrite bind_assoc; take_field 8%nat.
  4-5: rewrite bind_assoc.
  4-5: erewrite bind_Val
         by (apply read_transactions_ok with (txs := txs);
             [ reflexivity | rewrite <- (app_nil_r txb); apply Hread ]).
  4-5: rewrite bind_assoc; take_field 9%nat.
  4-5: u32; rewrite ?be32_roundtrip by lia; u32.
  4-5: rewrite bind_assoc; store.
  4-5: rewrite bind_assoc; store.
  4-5: rewrite bind_assoc; take_field 10%nat.
  4-5: rewrite bind_assoc.
  4-5: erewrite bind_wrap_lift_Val
         by (apply featuresFromBinary_featuresToBinary; exact Hrange).
  4-5: rewrite ?bind_assoc; store.
  4-5: rewrite copy_full by (rewrite repeat_length; lia).
  4: rewrite bind_ret.
  5: rewrite bind_assoc; take_field 11%nat; store.
  5: rewrite int64_be_roundtrip by lia.
  (* generator key, signature and identifier *)
  all: rewrite len_slice_of.
  all: take_field 12%nat; store.
  all: unfold reslice_from; rewrite len_slice_of.
  all: take_field 13%nat; store.
  all: rewrite !copy_full by lia.
  all: unfold wrap, Block.on_header.
  all: cbn [Block.BlockHeader Block.Transactions].
  all: rewrite GenerateBlockID_legacy
         by (cbn [BlockHeader.Version]; unfold ProtobufBlockVersion; lia).
  all: norm_block.
  all: rewrite ?byte_to_Z_to_byte, ?Z.mod_small by lia.
  all: reflexivity.
Qed.

End LegacyDecode.

(* ------------------------------------------------------------------ *)
(** ** Round trip through the binary form *)

Section RoundTrip.
Context {T PBTx : Type}.
Context `{Transaction T} `{Crypto} `{Protobuf} `{ProtobufBlock T PBTx}.
Variable scheme : Scheme.

Lemma Marshal_legacy (b : Block.t T) :
  Block.Version b < ProtobufBlockVersion ->
  Block.Marshal b scheme = Block.MarshalBinary b scheme.
Proof.
  intro Hv. unfold Block.Marshal.
  rewrite (proj2 (Z.leb_gt _ _)) by exact Hv. reflexivity.
Qed.

Lemma decoded_view_defaults (b : Block.t T) :
  legacy_defaults b ->
  Block.set_header (BlockHeader.set_ID (BlockHeader.ID (Block.BlockHeader b)))
                   (decoded_view Block.zero b)
  = b.
Proof.
  destruct b as [[v ts p fc fs rv cbl nc tbl tc pk sg tr sh ch id] txs].
  intros [Hrv Hfs Htr Hsh Hch].
  unfold Block.Version in *.
  cbn [Block.BlockHeader BlockHeader.Version BlockHeader.RewardVote
       BlockHeader.Features BlockHeader.FeaturesCount BlockHeader.TransactionsRoot
       BlockHeader.StateHash BlockHeader.ChallengedHeader] in *.
  subst tr sh ch. unfold decoded_view, Block.zero, BlockHeader.zero. norm_block.
  assert (Hfc : (if NgBlockVersion <=? v then fc else 0) = fc).
  { destruct (Z.leb_spec NgBlockVersion v) as [_ | Hlt];
      [reflexivity | symmetry; apply (Hfs Hlt)]. }
  assert (Hfeat : (if NgBlockVersion <=? v then fs else []) = fs).
  { destruct (Z.leb_spec NgBlockVersion v) as [_ | Hlt];
      [reflexivity | symmetry; apply (Hfs Hlt)]. }
  assert (Hvote : (if RewardBlockVersion <=? v then rv else -1) = rv).
  { destruct (Z.leb_spec RewardBlockVersion v) as [_ | Hlt];
      [reflexivity | symmetry; apply (Hrv Hlt)]. }
  rewrite Hfc, Hfeat, Hvote. reflexivity.
Qed.

(** Below the Protobuf version: a block that the binary layout can carry
    and whose fields outside the layout hold what the decoder fills in
    comes back from [Marshal] followed by [UnmarshalBinary] into a fresh
    block. *)
Lemma legacy_binary_roundtrip :
  forall (b : Block.t T) (bytes : list byte),
    legacy_encodable scheme b ->
    legacy_defaults b ->
    Block.Marshal b scheme = Val bytes ->
    Z.of_nat (length bytes) < 2 ^ 32 ->
    exists b' : Block.t T,
      Block.UnmarshalBinary (slice_of bytes) scheme Block.zero = (b', Returns None) /\
      Block.set_header (BlockHeader.set_ID (BlockHeader.ID (Block.BlockHeader b))) b'
      = b /\
      BlockHeader.ID (Block.BlockHeader b')
      = BlockID.NewBlockIDFromSignature
          (BlockHeader.BlockSignature (Block.BlockHeader b')) /\
      Block.on_header (BlockHeader.GenerateBlockID scheme) b' = (b', Val tt).
Proof.
  intros b bytes Henc Hdef Hmarshal Hsize.
  pose proof (enc_version Henc) as Hv.
  rewrite Marshal_legacy in Hmarshal by lia.
  rewrite (MarshalBinary_layout scheme b Henc) in Hmarshal.
  injection Hmarshal as <-.
  exists (decoded_view Block.zero b). split; [| split; [| split]].
  - apply UnmarshalBinary_layout; [exact Henc | exact Hsize | reflexivity | reflexivity].
  - apply decoded_view_defaults. exact Hdef.
  - reflexivity.
  - unfold Block.on_header.
    rewrite GenerateBlockID_legacy
      by (unfold Block.Version in Hv; cbn [decoded_view Block.BlockHeader
            BlockHeader.Version]; lia).
    reflexivity.
Qed.

End RoundTrip.

(** From the Protobuf version on: what [ToProtobuf] widens or
    reinterprets, the converter reads back. *)
Lemma uint64_int64 (z : Z) : 0 <= z < 2 ^ 64 -> uint64 (int64 z) = z.
Proof.
  intro Hr. unfold uint64, int64, signed.
  rewrite (Z.mod_small z) by lia.
  destruct (z <? 2 ^ (64 - 1)).
  - apply Z.mod_small. exact Hr.
  - replace (z - 2 ^ 64) with (z + (-1) * 2 ^ 64) by lia.
    rewrite Z.mod_add by lia. apply Z.mod_small. exact Hr.
Qed.

Lemma int16_uint32 (z : Z) : - 2 ^ 15 <= z < 2 ^ 15 -> int16 (uint32 z) = z.
Proof.
  intro Hr. unfold int16, uint32.
  transitivity (signed 16 (z mod 2 ^ 16)).
  - unfold signed.
    rewrite (Z.mod_mod_divide z (2 ^ 32) (2 ^ 16))
      by (exists (2 ^ 16); reflexivity).
    rewrite Z.mod_mod by lia. reflexivity.
  - apply (@signed_mod 16 z); [lia | exact Hr].
Qed.

Lemma features_from_votes (fs : list Z) :
  Forall (fun f => - 2 ^ 15 <= f < 2 ^ 15) fs ->
  map int16 (int16SliceToUint32 fs) = fs.
Proof.
  unfold int16SliceToUint32. induction 1 as [| f fs Hf _ IH]; cbn [map].
  - reflexivity.
  - rewrite int16_uint32 by exact Hf. rewrite IH. reflexivity.
Qed.

Lemma NewBlockIDFromBytes_of_constructed (id : BlockID.t) :
  constructed id -> BlockID.NewBlockIDFromBytes (BlockID.Bytes id) = Val id.
Proof.
  intros [[s [Hs ->]] | [d [Hd ->]]].
  - change (BlockID.Bytes (BlockID.NewBlockIDFromSignature s)) with s.
    unfold BlockID.NewBlockIDFromBytes. rewrite Hs. reflexivity.
  - change (BlockID.Bytes (BlockID.NewBlockIDFromDigest d)) with d.
    unfold BlockID.NewBlockIDFromBytes. rewrite Hd. reflexivity.
Qed.

Section ProtobufRoundTrip.
Context {T PBTx : Type}.
Context `{Transaction T} `{Crypto} `{Protobuf} `{ProtobufBlock T PBTx}.
Context `{ProtobufDecoding T PBTx}.
Variable scheme : Scheme.

Lemma converted_transactions_ToProtobuf (txs : list T) (pts : list PBTx) :
  Forall (fun tx => exists m : PBTx,
                      tx_ToProtobufSigned tx scheme = Val m /\
                      SignedTransaction m = Val tx) txs ->
  Transactions.ToProtobuf txs scheme = Val pts ->
  Block.converted_transactions pts = Val txs.
Proof.
  intro Hall. revert pts.
  induction Hall as [| tx txs [m [Hto Hfrom]] _ IH]; intro pts;
    cbn [Transactions.ToProtobuf].
  - intro Hp. injection Hp as <-. reflexivity.
  - rewrite Hto. cbn [obind].
    destruct (Transactions.ToProtobuf txs scheme) as [rest | e |];
      cbn [obind]; try discriminate.
    intro Hp. injection Hp as <-. cbn [Block.converted_transactions].
    rewrite Hfrom. cbn [obind]. rewrite (IH rest eq_refl). reflexivity.
Qed.

Lemma converted_challenged_ToProtobuf
      (ch : ChallengedHeader.t) (m : g_Block_Header_ChallengedHeader.t) :
  Signature_MarshalBinary (ChallengedHeader.BlockSignature ch)
  = Val (ChallengedHeader.BlockSignature ch) ->
  0 <= ChallengedHeader.Timestamp ch < 2 ^ 64 ->
  0 <= NxtConsensus.BaseTarget (ChallengedHeader.NxtConsensus ch) < 2 ^ 64 ->
  Forall (fun f => - 2 ^ 15 <= f < 2 ^ 15) (ChallengedHeader.Features ch) ->
  ChallengedHeader.ToProtobuf ch = Val m ->
  Block.converted_challenged m = ch.
Proof.
  intros Hsig Hts Hbt Hfs. unfold ChallengedHeader.ToProtobuf.
  rewrite Hsig. cbn [obind]. intro Hm. injection Hm as <-.
  destruct ch as [ts [bt gs] fs pk rv sh sg].
  cbn [ChallengedHeader.Timestamp ChallengedHeader.NxtConsensus
       ChallengedHeader.Features NxtConsensus.BaseTarget] in *.
  unfold Block.converted_challenged.
  cbn [g_Block_Header_ChallengedHeader.Timestamp
       g_Block_Header_ChallengedHeader.BaseTarget
       g_Block_Header_ChallengedHeader.GenerationSignature
       g_Block_Header_ChallengedHeader.FeatureVotes
       g_Block_Header_ChallengedHeader.Generator
       g_Block_Header_ChallengedHeader.RewardVote
       g_Block_Header_ChallengedHeader.StateHash
       g_Block_Header_ChallengedHeader.HeaderSignature
       ChallengedHeader.Timestamp ChallengedHeader.NxtConsensus
       ChallengedHeader.Features ChallengedHeader.GeneratorPublicKey
       ChallengedHeader.RewardVote ChallengedHeader.StateHash
       ChallengedHeader.BlockSignature
       NxtConsensus.BaseTarget NxtConsensus.GenSignature].
  rewrite (uint64_int64 ts Hts), (uint64_int64 bt Hbt), (features_from_votes fs Hfs).
  reflexivity.
Qed.


Lemma converted_header_ToProtobuf
      (h : BlockHeader.t) (hm : g_Block_Header.t) (pts : list PBTx) :
  0 <= BlockHeader.Timestamp h < 2 ^ 64 ->
  0 <= BlockHeader.BaseTarget h < 2 ^ 64 ->
  BlockHeader.FeaturesCount h = Z.of_nat (length (BlockHeader.Features h)) ->
  Forall (fun f => - 2 ^ 15 <= f < 2 ^ 15) (BlockHeader.Features h) ->
  (forall sh : Digest, BlockHeader.StateHash h = Some sh -> length sh = 32%nat) ->
  (forall ch : ChallengedHeader.t,
     BlockHeader.ChallengedHeader h = Some ch ->
     (0 <= ChallengedHeader.Timestamp ch < 2 ^ 64 /\
      0 <= NxtConsensus.BaseTarget (ChallengedHeader.NxtConsensus ch) < 2 ^ 64 /\
      Forall (fun f => - 2 ^ 15 <= f < 2 ^ 15) (ChallengedHeader.Features ch)) /\
     Signature_MarshalBinary (ChallengedHeader.BlockSignature ch)
     = Val (ChallengedHeader.BlockSignature ch)) ->
  BlockHeader.HeaderToProtobufHeader h scheme = Val hm ->
  let pbBlock :=
    {| g_Block.Header := hm; g_Block.Signature := BlockHeader.BlockSignature h;
       g_Block.Transactions := pts |} in
  binary_lengths pbBlock
  = (BlockHeader.ConsensusBlockLength h, BlockHeader.TransactionBlockLength h) ->
  g_Block_Header.ChainId hm = scheme /\
  g_Block_Header.Reference hm = BlockID.Bytes (BlockHeader.Parent h) /\
  Block.converted_header pbBlock (BlockHeader.Parent h)
                         (BlockHeader.TransactionCount h)
  = BlockHeader.set_ID BlockID.zero h.
Proof.
  intros Hts Hbt Hfc Hfs Hsh Hch Hhm pbBlock Hlen.
  unfold Block.converted_header. rewrite Hlen. subst pbBlock.
  destruct h as [v ts p fc fs rv cbl [bt gs] tbl tc pk sg tr sh ch id].
  unfold BlockHeader.BaseTarget in Hbt.
  cbn [BlockHeader.Timestamp BlockHeader.NxtConsensus NxtConsensus.BaseTarget
       BlockHeader.FeaturesCount BlockHeader.Features BlockHeader.StateHash
       BlockHeader.ChallengedHeader BlockHeader.Parent
       BlockHeader.TransactionCount BlockHeader.BlockSignature
       BlockHeader.ConsensusBlockLength BlockHeader.TransactionBlockLength
       g_Block.Header g_Block.Signature g_Block.Transactions fst snd] in *.
  unfold BlockHeader.HeaderToProtobufHeader, BlockHeader.GetChallengedHeader,
    BlockHeader.GetStateHash, BlockHeader.BaseTarget, BlockHeader.GenSignature
    in Hhm.
  cbn [BlockHeader.Timestamp BlockHeader.NxtConsensus NxtConsensus.BaseTarget
       NxtConsensus.GenSignature BlockHeader.Version
       BlockHeader.FeaturesCount BlockHeader.Features BlockHeader.StateHash
       BlockHeader.ChallengedHeader BlockHeader.Parent BlockHeader.RewardVote
       BlockHeader.GeneratorPublicKey BlockHeader.TransactionsRoot] in Hhm.
  destruct ch as [c |]; cbn [negb obind] in Hhm.
  - destruct (Hch c eq_refl) as [[Hcts [Hcbt Hcfs]] Hcsig].
    destruct (ChallengedHeader.ToProtobuf c) as [cm | e |] eqn:Hcm;
      cbn [obind] in Hhm; try discriminate.
    pose proof (converted_challenged_ToProtobuf c cm Hcsig Hcts Hcbt Hcfs Hcm)
      as Hback.
    destruct sh as [s |]; injection Hhm as <-;
      cbn [g_Block_Header.ChainId g_Block_Header.Reference
           g_Block_Header.BaseTarget g_Block_Header.GenerationSignature
           g_Block_Header.FeatureVotes g_Block_Header.Timestamp
           g_Block_Header.Version g_Block_Header.Generator
           g_Block_Header.RewardVote g_Block_Header.TransactionsRoot
           g_Block_Header.StateHash g_Block_Header.ChallengedHeader
           option_map];
      rewrite Hback, (uint64_int64 ts Hts), (uint64_int64 bt Hbt),
        (features_from_votes fs Hfs), <- Hfc;
      (split; [reflexivity | split; [reflexivity |]]);
      [ specialize (Hsh s eq_refl); destruct s; [discriminate | reflexivity]
      | reflexivity ].
  - destruct sh as [s |]; injection Hhm as <-;
      cbn [g_Block_Header.ChainId g_Block_Header.Reference
           g_Block_Header.BaseTarget g_Block_Header.GenerationSignature
           g_Block_Header.FeatureVotes g_Block_Header.Timestamp
           g_Block_Header.Version g_Block_Header.Generator
           g_Block_Header.RewardVote g_Block_Header.TransactionsRoot
           g_Block_Header.StateHash g_Block_Header.ChallengedHeader
           option_map];
      rewrite (uint64_int64 ts Hts), (uint64_int64 bt Hbt),
        (features_from_votes fs Hfs), <- Hfc;
      (split; [reflexivity | split; [reflexivity |]]);
      [ specialize (Hsh s eq_refl); destruct s; [discriminate | reflexivity]
      | reflexivity ].
Qed.


Lemma Marshal_protobuf (b : Block.t T) :
  ProtobufBlockVersion <= Block.Version b ->
  Block.Marshal b scheme = Block.MarshalToProtobuf b scheme.
Proof.
  intro Hv. unfold Block.Marshal.
  rewrite (proj2 (Z.leb_le _ _)) by exact Hv. reflexivity.
Qed.

Lemma protobuf_roundtrip (b receiver : Block.t T) (bytes : list byte) :
  protobuf_encodable b ->
  protobuf_defaults scheme b ->
  protobuf_codec_inverts scheme b ->
  Block.Marshal b scheme = Val bytes ->
  exists b' : Block.t T,
    Block.UnmarshalFromProtobuf bytes receiver = (b', Val tt) /\
    Block.set_header (BlockHeader.set_ID (BlockHeader.ID (Block.BlockHeader b))) b'
    = b /\
    Block.on_header (BlockHeader.GenerateBlockID scheme) b' = (b', Val tt).
Proof.
  intros [Hv Hts Hbt Hparent [Hfc Hfs] Htc Hsh Hch] Hdef
         [Hsig Hchsig Hwire Htxs [headerBytes [hash [Hhb Hhash]]]] Hmarshal.
  rewrite (Marshal_protobuf b Hv) in Hmarshal.
  unfold Block.MarshalToProtobuf in Hmarshal.
  destruct (Block.ToProtobuf b scheme) as [m | e |] eqn:Hm;
    cbn [obind] in Hmarshal; try discriminate.
  pose proof (Hwire m bytes eq_refl Hmarshal) as Hparse.
  specialize (Hdef m Hm).
  unfold Block.ToProtobuf, Block.HeaderToProtobuf in Hm.
  rewrite Hsig in Hm. cbn [obind] in Hm.
  destruct (BlockHeader.HeaderToProtobufHeader (Block.BlockHeader b) scheme)
    as [hm | e |] eqn:Hhm; cbn [obind] in Hm; try discriminate.
  destruct (Transactions.ToProtobuf (Block.Transactions b) scheme)
    as [pts | e |] eqn:Hpts; cbn [obind g_Block.Header g_Block.Signature] in Hm;
    try discriminate.
  injection Hm as <-.
  assert (Hch' : forall ch : ChallengedHeader.t,
             BlockHeader.ChallengedHeader (Block.BlockHeader b) = Some ch ->
             (0 <= ChallengedHeader.Timestamp ch < 2 ^ 64 /\
              0 <= NxtConsensus.BaseTarget (ChallengedHeader.NxtConsensus ch)
              < 2 ^ 64 /\
              Forall (fun f => - 2 ^ 15 <= f < 2 ^ 15)
                     (ChallengedHeader.Features ch)) /\
             Signature_MarshalBinary (ChallengedHeader.BlockSignature ch)
             = Val (ChallengedHeader.BlockSignature ch)).
  { intros ch Hsome. split; [apply Hch | apply Hchsig]; exact Hsome. }
  destruct (converted_header_ToProtobuf (Block.BlockHeader b) hm pts
              Hts Hbt Hfc Hfs Hsh Hch' Hhm Hdef)
    as [Hchain [Href Hheader]].
  set (h' := BlockHeader.set_ID (BlockID.NewBlockIDFromDigest hash)
               (Block.BlockHeader b)).
  assert (Hgen : forall id : BlockID.t,
             BlockHeader.GenerateBlockID scheme
               (BlockHeader.set_ID id (Block.BlockHeader b))
             = (h', Val tt)).
  { intro id.
    rewrite (@GenerateBlockID_protobuf _ _
               (BlockHeader.set_ID id (Block.BlockHeader b)) scheme
               headerBytes hash Hv Hhb Hhash).
    reflexivity. }
  exists {| Block.BlockHeader := h'; Block.Transactions := Block.Transactions b |}.
  split; [| split].
  - unfold Block.UnmarshalFromProtobuf, bind, lift, modify.
    rewrite Hparse.
    unfold Block.ProtobufConverter_Block.
    cbn [g_Block.Header g_Block.Transactions].
    rewrite Href, (NewBlockIDFromBytes_of_constructed _ Hparent).
    cbn [obind].
    rewrite (converted_transactions_ToProtobuf _ _ Htxs Hpts).
    cbn [obind]. rewrite <- Htc, Hheader, Hchain, Hgen. reflexivity.
  - subst h'. destruct b as [[v ts p fc fs rv cbl nc tbl tc pk sg tr sh ch id] txs].
    reflexivity.
  - unfold Block.on_header. cbn [Block.BlockHeader Block.Transactions].
    subst h'. rewrite Hgen. reflexivity.
Qed.

End ProtobufRoundTrip.

Section VersionDispatchedRoundTrip.
Context {T PBTx : Type}.
Context `{Transaction T} `{Crypto} `{Protobuf} `{ProtobufBlock T PBTx}.
Context `{ProtobufDecoding T PBTx}.
Variable scheme : Scheme.

(** C2, as amended: a block of any version that the wire form of its
    version can carry ([legacy_encodable] below the Protobuf version,
    [protobuf_encodable] from it on) and whose fields outside that wire
    form hold what the decoder fills in ([legacy_defaults],
    [protobuf_defaults]) comes back from the version-dispatched
    [Marshal] followed by the decoder of its version, [UnmarshalBinary]
    into a fresh block below the Protobuf version and
    [UnmarshalFromProtobuf] into any block from it on, equal to the
    original in every field but [ID]; and the decoded [ID] is what
    [GenerateBlockID] derives from the decoded content.  From the
    Protobuf version on the generated codecs are taken to invert each
    other on the block ([protobuf_codec_inverts]). *)
Theorem Marshal_Unmarshal_roundtrip :
  forall (b : Block.t T) (bytes : list byte),
    Block.Marshal b scheme = Val bytes ->
    (Block.Version b < ProtobufBlockVersion ->
     legacy_encodable scheme b ->
     legacy_defaults b ->
     Z.of_nat (length bytes) < 2 ^ 32 ->
     exists b' : Block.t T,
       Block.UnmarshalBinary (slice_of bytes) scheme Block.zero
       = (b', Returns None) /\
       Block.set_header
         (BlockHeader.set_ID (BlockHeader.ID (Block.BlockHeader b))) b'
       = b /\
       BlockHeader.ID (Block.BlockHeader b')
       = BlockID.NewBlockIDFromSignature
           (BlockHeader.BlockSignature (Block.BlockHeader b')) /\
       Block.on_header (BlockHeader.GenerateBlockID scheme) b' = (b', Val tt)) /\
    (ProtobufBlockVersion <= Block.Version b ->
     protobuf_encodable b ->
     protobuf_defaults scheme b ->
     protobuf_codec_inverts scheme b ->
     forall receiver : Block.t T,
     exists b' : Block.t T,
       Block.UnmarshalFromProtobuf bytes receiver = (b', Val tt) /\
       Block.set_header
         (BlockHeader.set_ID (BlockHeader.ID (Block.BlockHeader b))) b'
       = b /\
       Block.on_header (BlockHeader.GenerateBlockID scheme) b' = (b', Val tt)).
Proof.
  intros b bytes Hmarshal. split.
  - intros _ Henc Hdef Hsize.
    exact (legacy_binary_roundtrip scheme b bytes Henc Hdef Hmarshal Hsize).
  - intros _ Henc Hdef Hcodec receiver.
    exact (protobuf_roundtrip scheme b receiver bytes Henc Hdef Hcodec Hmarshal).
Qed.

End VersionDispatchedRoundTrip.


Section RoundTripOnSamples.
Import Sample.

Ltac sample_encodable :=
  constructor; unfold Block.Version;
  cbn [Block.BlockHeader Block.Transactions BlockHeader.Version
       BlockHeader.Timestamp BlockHeader.Parent BlockHeader.FeaturesCount
       BlockHeader.Features BlockHeader.RewardVote
       BlockHeader.ConsensusBlockLength BlockHeader.NxtConsensus
       BlockHeader.TransactionBlockLength BlockHeader.TransactionCount
       BlockHeader.GeneratorPublicKey BlockHeader.BlockSignature
       BlockHeader.BaseTarget BlockHeader.GenSignature
       NxtConsensus.BaseTarget NxtConsensus.GenSignature];
  unfold NgBlockVersion, RewardBlockVersion, ProtobufBlockVersion;
  try lia; try reflexivity;
  try (eexists; split; reflexivity);
  try (repeat constructor; lia);
  try (repeat (constructor;
               [ eexists; split; [reflexivity | split; [reflexivity | cbn; lia]] | ]);
       constructor).

Lemma reward_block_encodable : legacy_encodable scheme reward_block.
Proof.
  let x := eval vm_compute in reward_block in change reward_block with x.
  sample_encodable.
Qed.

Lemma reward_block_defaults : legacy_defaults reward_block.
Proof.
  let x := eval vm_compute in reward_block in change reward_block with x.
  constructor; unfold Block.Version;
    cbn [Block.BlockHeader BlockHeader.Version BlockHeader.RewardVote
         BlockHeader.Features BlockHeader.FeaturesCount
         BlockHeader.TransactionsRoot BlockHeader.StateHash
         BlockHeader.ChallengedHeader];
    unfold NgBlockVersion, RewardBlockVersion; try lia; reflexivity.
Qed.

Lemma protobuf_sample_block_encodable : protobuf_encodable protobuf_sample_block.
Proof.
  let x := eval vm_compute in protobuf_sample_block in
  change protobuf_sample_block with x.
  constructor; unfold Block.Version, BlockHeader.BaseTarget;
    cbn [Block.BlockHeader Block.Transactions BlockHeader.Version
         BlockHeader.Timestamp BlockHeader.Parent BlockHeader.FeaturesCount
         BlockHeader.Features BlockHeader.NxtConsensus
         BlockHeader.TransactionCount BlockHeader.StateHash
         BlockHeader.ChallengedHeader NxtConsensus.BaseTarget];
    unfold ProtobufBlockVersion; try lia.
  - right. exists (repeat x11 32). split; reflexivity.
  - split; [reflexivity | repeat constructor; lia].
  - reflexivity.
  - intros sh Hsh. injection Hsh as <-. reflexivity.
  - intros ch Hch. discriminate Hch.
Qed.

Lemma protobuf_sample_block_defaults :
  protobuf_defaults scheme protobuf_sample_block.
Proof.
  intros m Hm. vm_compute in Hm. injection Hm as <-. vm_compute. reflexivity.
Qed.

Lemma protobuf_sample_block_codec :
  protobuf_codec_inverts scheme protobuf_sample_block.
Proof.
  constructor.
  - reflexivity.
  - intros ch Hch. vm_compute in Hch. discriminate Hch.
  - intros m bytes Hm Hbytes. vm_compute in Hm. injection Hm as <-.
    vm_compute in Hbytes. injection Hbytes as <-. vm_compute. reflexivity.
  - let x := eval vm_compute in (Block.Transactions protobuf_sample_block) in
    change (Block.Transactions protobuf_sample_block) with x.
    repeat (constructor; [eexists; split; reflexivity |]). constructor.
  - eexists. eexists. split; vm_compute; reflexivity.
Qed.

Lemma Marshal_Unmarshal_roundtrip_witness :
  (exists b' : Block.t tx,
     Block.UnmarshalBinary (slice_of (marshalled reward_block)) scheme Block.zero
     = (b', Returns None) /\
     Block.set_header
       (BlockHeader.set_ID (BlockHeader.ID (Block.BlockHeader reward_block))) b'
     = reward_block) /\
  (exists b' : Block.t tx,
     Block.UnmarshalFromProtobuf (marshalled protobuf_sample_block) Block.zero
     = (b', Val tt) /\
     Block.set_header
       (BlockHeader.set_ID
          (BlockHeader.ID (Block.BlockHeader protobuf_sample_block))) b'
     = protobuf_sample_block).
Proof.
  split.
  - destruct (@Marshal_Unmarshal_roundtrip tx (list byte) transaction crypto
                protobuf protobuf_block protobuf_decoding scheme
                reward_block (marshalled reward_block))
      as [Hlegacy _]; [vm_compute; reflexivity |].
    destruct Hlegacy as [b' [Hdecode [Hsame _]]].
    + vm_compute. reflexivity.
    + exact reward_block_encodable.
    + exact reward_block_defaults.
    + vm_compute. reflexivity.
    + exists b'. split; [exact Hdecode | exact Hsame].
  - destruct (@Marshal_Unmarshal_roundtrip tx (list byte) transaction crypto
                protobuf protobuf_block protobuf_decoding scheme
                protobuf_sample_block (marshalled protobuf_sample_block))
      as [_ Hprotobuf]; [vm_compute; reflexivity |].
    destruct (Hprotobuf ltac:(vm_compute; discriminate)
                        protobuf_sample_block_encodable
                        protobuf_sample_block_defaults
                        protobuf_sample_block_codec Block.zero)
      as [b' [Hdecode [Hsame _]]].
    exists b'. split; [exact Hdecode | exact Hsame].
Defined.

Lemma plain_block_encodable (rewardVote : Z) :
  legacy_encodable scheme (plain_block rewardVote).
Proof.
  let x := eval vm_compute in (plain_block rewardVote) in
  change (plain_block rewardVote) with x.
  sample_encodable.
Qed.

Example plain_block_decodes_with_default_vote :
  Block.UnmarshalBinary (slice_of (marshalled (plain_block 0))) scheme Block.zero
  = (Block.set_header (BlockHeader.set_RewardVote (-1)) (plain_block 0),
     Returns None).
Proof. vm_compute. reflexivity. Qed.

(** C2 as first stated fails: a Plain-version block built by
    [CreateBlock] with reward vote 0 satisfies every condition the claim
    lists, yet decoding its binary form yields reward vote -1, so the
    decoded block differs from the original outside [ID]. *)
Lemma roundtrip_resets_reward_vote :
  legacy_encodable scheme (plain_block 0) /\
  exists (bytes : list byte) (b' : Block.t tx),
    Block.Marshal (plain_block 0) scheme = Val bytes /\
    Block.UnmarshalBinary (slice_of bytes) scheme Block.zero = (b', Returns None) /\
    BlockHeader.RewardVote (Block.BlockHeader (plain_block 0)) = 0 /\
    BlockHeader.RewardVote (Block.BlockHeader b') = -1 /\
    Block.set_header
      (BlockHeader.set_ID (BlockHeader.ID (Block.BlockHeader (plain_block 0)))) b'
    <> plain_block 0.
Proof.
  split; [apply plain_block_encodable |].
  exists (marshalled (plain_block 0)).
  exists (Block.set_header (BlockHeader.set_RewardVote (-1)) (plain_block 0)).
  split; [vm_compute; reflexivity |].
  split; [exact plain_block_decodes_with_default_vote |].
  split; [reflexivity |]. split; [reflexivity |].
  intro Heq.
  apply (f_equal (fun b => BlockHeader.RewardVote (Block.BlockHeader b))) in Heq.
  vm_compute in Heq. discriminate Heq.
Qed.

End RoundTripOnSamples.

(* ------------------------------------------------------------------ *)
(** ** Block construction *)

Section Construction.
Context {T : Type} `{Transaction T} `{Crypto} `{Protobuf}.

Lemma CreateBlock_legacy
      (txs : list T) (ts : Z) (parentID : BlockID.t) (pk : PublicKey)
      (nc : NxtConsensus.t) (version : BlockVersion) (features : list Z)
      (rewardVote : Z) (scheme : Scheme) (stateHash : option Digest) :
  version < ProtobufBlockVersion ->
  Block.CreateBlock txs ts parentID pk nc version features rewardVote scheme stateHash
  = Val (created_legacy txs ts parentID pk nc version features rewardVote stateHash).
Proof.
  intro Hv. unfold Block.CreateBlock, created_legacy.
  unfold ProtobufBlockVersion, NgBlockVersion, RewardBlockVersion in *.
  destruct (Z.ltb_spec version 3) as [Hlt | Hge].
  - unfold wrap, Block.on_header. cbv zeta.
    cbn [Block.BlockHeader Block.Transactions Block.set_header].
    rewrite GenerateBlockID_legacy
      by (cbn [BlockHeader.set_TransactionBlockLength BlockHeader.Version];
          unfold ProtobufBlockVersion; lia).
    reflexivity.
  - rewrite (proj2 (Z.leb_le version 4)) by lia.
    unfold wrap, Block.on_header. cbv zeta.
    cbn [Block.BlockHeader Block.Transactions Block.set_header].
    rewrite GenerateBlockID_legacy
      by (cbn [BlockHeader.set_TransactionBlockLength BlockHeader.Version];
          unfold ProtobufBlockVersion; lia).
    reflexivity.
Qed.

Lemma CreateBlock_protobuf
      (txs : list T) (ts : Z) (parentID : BlockID.t) (pk : PublicKey)
      (nc : NxtConsensus.t) (version : BlockVersion) (features : list Z)
      (rewardVote : Z) (scheme : Scheme) (stateHash : option Digest)
      (b : Block.t T) :
  ProtobufBlockVersion <= version ->
  Block.CreateBlock txs ts parentID pk nc version features rewardVote scheme stateHash
  = Val b ->
  BlockHeader.TransactionBlockLength (Block.BlockHeader b) = 0 /\
  Block.transactionsRoot b scheme
  = Val (BlockHeader.TransactionsRoot (Block.BlockHeader b)).
Proof.
  intros Hv. unfold Block.CreateBlock.
  unfold ProtobufBlockVersion, NgBlockVersion, RewardBlockVersion in *.
  rewrite (proj2 (Z.ltb_ge version 3)) by lia.
  rewrite (proj2 (Z.leb_gt version 4)) by lia.
  rewrite (proj2 (Z.leb_le 5 version)) by lia.
  cbv zeta. unfold Block.SetTransactionsRoot, bind, get, lift, modify.
  match goal with
  | |- context [Block.transactionsRoot ?b0 scheme] =>
      set (initial := b0);
      destruct (Block.transactionsRoot initial scheme) as [rh | e |] eqn:Hroot
  end; try discriminate.
  unfold wrap, Block.on_header. subst initial.
  cbn [Block.BlockHeader Block.Transactions Block.set_header].
  match goal with
  | |- context [BlockHeader.GenerateBlockID scheme ?h0] =>
      destruct (BlockHeader.GenerateBlockID scheme h0) as [h' [u | e |]] eqn:Hgen
  end; try discriminate.
  intro Hb. injection Hb as <-.
  unfold BlockHeader.GenerateBlockID, bind, get, lift, modify in Hgen.
  cbn [BlockHeader.set_TransactionsRoot BlockHeader.Version] in Hgen.
  rewrite (proj2 (Z.ltb_ge version ProtobufBlockVersion)) in Hgen
    by (unfold ProtobufBlockVersion; lia).
  destruct (BlockHeader.MarshalHeaderToProtobufWithoutSignature _ scheme)
    as [headerBytes | e |]; try discriminate.
  destruct (crypto_FastHash headerBytes) as [hash | e |]; try discriminate.
  injection Hgen as <- _.
  split; [reflexivity |].
  unfold Block.transactionsRoot, Block.Version in *.
  cbn [Block.BlockHeader Block.Transactions BlockHeader.Version
       BlockHeader.set_ID BlockHeader.set_TransactionsRoot
       BlockHeader.TransactionsRoot] in *.
  exact Hroot.
Qed.

End Construction.

Section ConstructionLength.
Context {T : Type} `{Transaction T} `{Crypto} `{Protobuf}.

Lemma created_plain_empty_encodable
      (ts : Z) (ps : Signature) (pk : PublicKey) (nc : NxtConsensus.t)
      (features : list Z) (rewardVote : Z) (scheme : Scheme)
      (stateHash : option Digest) (sg : Signature) :
  0 <= ts < 2 ^ 64 ->
  length ps = 64%nat ->
  length pk = 32%nat ->
  0 <= NxtConsensus.BaseTarget nc < 2 ^ 64 ->
  length (NxtConsensus.GenSignature nc) = 32%nat ->
  length sg = 64%nat ->
  legacy_encodable scheme
    (Block.set_header (BlockHeader.set_BlockSignature sg)
       (created_legacy (T := T) [] ts (BlockID.NewBlockIDFromSignature ps) pk nc
          PlainBlockVersion features rewardVote stateHash)).
Proof.
  intros Hts Hps Hpk Hbt Hgs Hsg.
  constructor; unfold Block.Version, created_legacy; norm_block;
    unfold PlainBlockVersion, NgBlockVersion, RewardBlockVersion,
      ProtobufBlockVersion, NxtConsensus.BinarySize, Transactions.Count;
    cbn [Transactions.BinarySize length Z.ltb Z.leb Z.compare Pos.compare
         Pos.compare_cont];
    try assumption; try lia.
  - exists ps. split; [reflexivity | exact Hps].
  - rewrite Hgs. unfold uint32. rewrite Z.mod_small by lia. lia.
  - constructor.
  - reflexivity.
Qed.

(** C9: [CreateBlock] stores [uint32 (BinarySize txs + 1)] in
    [TransactionBlockLength] below the Ng version and
    [uint32 (BinarySize txs + 4)] from Ng to Reward, which is the size
    plus 1 (plus 4) whenever that fits the 32-bit field; from the
    Protobuf version on it stores no length and sets the transactions
    root instead.  A Plain-version block built with no transactions,
    once signed and written in binary form, decodes with
    [TransactionBlockLength] 1 and [TransactionCount] 0, the count
    being the single zero byte of the layout's eighth field. *)
Theorem CreateBlock_transaction_block_length :
  forall (txs : list T) (ts : Z) (parentID : BlockID.t) (pk : PublicKey)
         (nc : NxtConsensus.t) (version : BlockVersion) (features : list Z)
         (rewardVote : Z) (scheme : Scheme) (stateHash : option Digest)
         (b : Block.t T),
    Block.CreateBlock txs ts parentID pk nc version features rewardVote scheme stateHash
    = Val b ->
    let size := Transactions.BinarySize txs in
    let stored := BlockHeader.TransactionBlockLength (Block.BlockHeader b) in
    (version < NgBlockVersion ->
       stored = uint32 (size + 1) /\
       (0 <= size + 1 < 2 ^ 32 -> stored = size + 1)) /\
    (NgBlockVersion <= version <= RewardBlockVersion ->
       stored = uint32 (size + 4) /\
       (0 <= size + 4 < 2 ^ 32 -> stored = size + 4)) /\
    (ProtobufBlockVersion <= version ->
       stored = 0 /\
       Block.transactionsRoot b scheme
       = Val (BlockHeader.TransactionsRoot (Block.BlockHeader b))) /\
    (version = PlainBlockVersion -> txs = [] ->
     0 <= ts < 2 ^ 64 ->
     (exists ps : Signature,
        parentID = BlockID.NewBlockIDFromSignature ps /\ length ps = 64%nat) ->
     length pk = 32%nat ->
     0 <= NxtConsensus.BaseTarget nc < 2 ^ 64 ->
     length (NxtConsensus.GenSignature nc) = 32%nat ->
     forall sg : Signature,
       length sg = 64%nat ->
       let signed := Block.set_header (BlockHeader.set_BlockSignature sg) b in
       exists b' : Block.t T,
         Block.MarshalBinary signed scheme = Val (concat (layout scheme signed)) /\
         Block.UnmarshalBinary (slice_of (concat (layout scheme signed)))
                               scheme Block.zero
         = (b', Returns None) /\
         BlockHeader.TransactionBlockLength (Block.BlockHeader b') = 1 /\
         BlockHeader.TransactionCount (Block.BlockHeader b') = 0 /\
         nth 7 (layout scheme signed) [] = [x00]).
Proof.
  intros txs ts parentID pk nc version features rewardVote scheme stateHash b
         Hcreate size stored.
  split; [| split; [| split]].
  - intro Hv. unfold NgBlockVersion in Hv.
    rewrite CreateBlock_legacy in Hcreate by (unfold ProtobufBlockVersion; lia).
    injection Hcreate as <-. subst stored size.
    unfold created_legacy. cbn [Block.BlockHeader BlockHeader.TransactionBlockLength].
    unfold NgBlockVersion. rewrite (proj2 (Z.ltb_lt version 3)) by lia.
    split; [reflexivity | apply uint32_small].
  - intro Hv. unfold NgBlockVersion, RewardBlockVersion in Hv.
    rewrite CreateBlock_legacy in Hcreate by (unfold ProtobufBlockVersion; lia).
    injection Hcreate as <-. subst stored size.
    unfold created_legacy. cbn [Block.BlockHeader BlockHeader.TransactionBlockLength].
    unfold NgBlockVersion. rewrite (proj2 (Z.ltb_ge version 3)) by lia.
    split; [reflexivity | apply uint32_small].
  - intro Hv. subst stored.
    apply (CreateBlock_protobuf txs ts parentID pk nc version features rewardVote
             scheme stateHash b Hv Hcreate).
  - intros -> -> Hts [ps [-> Hps]] Hpk Hbt Hgs sg Hsg signed.
    destruct nc as [bt gs].
    cbn [NxtConsensus.BaseTarget NxtConsensus.GenSignature] in Hbt, Hgs.
    rewrite CreateBlock_legacy in Hcreate
      by (unfold PlainBlockVersion, ProtobufBlockVersion; lia).
    injection Hcreate as <-.
    pose proof (created_plain_empty_encodable ts ps pk
                  {| NxtConsensus.BaseTarget := bt; NxtConsensus.GenSignature := gs |}
                  features rewardVote scheme stateHash sg Hts Hps Hpk Hbt Hgs Hsg)
      as Henc.
    fold signed in Henc.
    exists (decoded_view Block.zero signed).
    split; [apply MarshalBinary_layout; exact Henc |].
    split.
    + apply UnmarshalBinary_layout; [exact Henc | | reflexivity | reflexivity].
      subst signed. unfold layout, created_legacy, Block.Version. norm_block.
      unfold PlainBlockVersion, NgBlockVersion, RewardBlockVersion,
        transactions_bytes.
      cbn [Transactions.WriteToBinary Z.leb Z.compare Pos.compare
           Pos.compare_cont BlockID.Bytes BlockID.NewBlockIDFromSignature
           BlockID.idType BlockID.sig Z.eqb SignatureID Pos.eqb concat].
      rewrite !length_app, !length_be_encode, Hps, Hpk, Hgs, Hsg.
      cbn [length]. lia.
    + subst signed. unfold decoded_view, created_legacy, layout, Block.Version.
      norm_block. repeat split.
Qed.

End ConstructionLength.

Section ConstructionOnSamples.
Import Sample.

Lemma CreateBlock_transaction_block_length_witness :
  BlockHeader.TransactionBlockLength (Block.BlockHeader reward_block) = 15 /\
  BlockHeader.TransactionBlockLength (Block.BlockHeader (plain_block (-1))) = 1.
Proof.
  split.
  - destruct (@CreateBlock_transaction_block_length tx transaction crypto protobuf
                [[x0a; x0b]; [x0c]] 1700000000000
                (BlockID.NewBlockIDFromSignature (repeat x22 64)) key
                {| NxtConsensus.BaseTarget := 100;
                   NxtConsensus.GenSignature := zeros 32 |}
                RewardBlockVersion [14; -2] 600000000 scheme None
                reward_block eq_refl) as [_ [Hng _]].
    destruct Hng as [_ Hfits]; [vm_compute; split; discriminate |].
    apply Hfits. vm_compute. split; [discriminate | reflexivity].
  - destruct (@CreateBlock_transaction_block_length tx transaction crypto protobuf
                [] 1700000000000
                (BlockID.NewBlockIDFromSignature (repeat x22 64)) key
                {| NxtConsensus.BaseTarget := 100;
                   NxtConsensus.GenSignature := zeros 32 |}
                PlainBlockVersion [] (-1) scheme None
                (plain_block (-1)) eq_refl) as [Hplain _].
    destruct Hplain as [_ Hfits]; [vm_compute; reflexivity |].
    apply Hfits. vm_compute. split; [discriminate | reflexivity].
Defined.

Example plain_block_decodes :
  exists b' : Block.t tx,
    Block.UnmarshalBinary (slice_of (marshalled (plain_block (-1)))) scheme Block.zero
    = (b', Returns None) /\
    BlockHeader.TransactionBlockLength (Block.BlockHeader b') = 1 /\
    BlockHeader.TransactionCount (Block.BlockHeader b') = 0 /\
    nth 121 (marshalled (plain_block (-1))) xff = x00.
Proof. eexists. vm_compute. repeat split. Qed.

End ConstructionOnSamples.

(* ------------------------------------------------------------------ *)
(** ** Decoders never let a fault escape *)

Lemma recover_never_panics {S : Type} (body : M S unit) (s : S) :
  exists (s' : S) (err : option error),
    recover_invalid_data_size body s = (s', Returns err).
Proof.
  unfold recover_invalid_data_size.
  destruct (body s) as [s' [u | e |]]; eauto.
Qed.

Lemma recover_converts_panic {S : Type} (body : M S unit) (s : S) :
  snd (body s) = Panic ->
  recover_invalid_data_size body s
  = (fst (body s), Returns (Some (errors_New "invalid data size"))).
Proof.
  unfold recover_invalid_data_size.
  destruct (body s) as [s' [u | e |]]; cbn [fst snd]; intro Hp;
    [discriminate | discriminate | reflexivity].
Qed.

Lemma index_out_of_range (d : Slice) (i : Z) :
  i < 0 \/ len d <= i -> index d i = Panic.
Proof.
  intro Hi. unfold index.
  destruct (Z.leb_spec 0 i); destruct (Z.ltb_spec i (len d));
    cbn [andb]; try reflexivity; lia.
Qed.

Lemma reslice_out_of_range (d : Slice) (lo hi : Z) :
  lo < 0 \/ hi < lo \/ cap d < hi -> reslice d lo hi = Panic.
Proof.
  intro Hb. unfold reslice.
  destruct (Z.leb_spec 0 lo); destruct (Z.leb_spec lo hi);
    destruct (Z.leb_spec hi (cap d)); cbn [andb]; try reflexivity; lia.
Qed.

Lemma reslice_cases (d : Slice) (lo hi : Z) :
  (exists l : list byte,
     reslice d lo hi = Val l /\ Z.of_nat (length l) = hi - lo /\ hi <= cap d) \/
  reslice d lo hi = Panic.
Proof.
  unfold reslice, cap.
  destruct (Z.leb_spec 0 lo); destruct (Z.leb_spec lo hi);
    destruct (Z.leb_spec hi (Z.of_nat (length (elems d) + length (spare d))));
    cbn [andb]; try (right; reflexivity).
  left. eexists. split; [reflexivity | split; [| lia]].
  rewrite length_firstn, length_skipn, length_app. lia.
Qed.

Lemma index_cases (d : Slice) (i : Z) :
  (exists x : byte, index d i = Val x) \/ index d i = Panic.
Proof.
  unfold index. destruct ((0 <=? i) && (i <? len d)); eauto.
Qed.

Ltac fault_or_continue :=
  match goal with
  | |- context [bind (lift (reslice ?d ?lo ?hi)) ?k ?s] =>
      let l := fresh "l" in
      let Hl := fresh "Hl" in
      let Hlen := fresh "Hlen" in
      let Hhi := fresh "Hhi" in
      let Hp := fresh "Hp" in
      destruct (reslice_cases d lo hi) as [[l [Hl [Hlen Hhi]]] | Hp];
      [ try (exfalso; lia); rewrite (bind_lift_Val k s Hl); cbv beta
      | rewrite (bind_lift_Panic k s Hp); eauto ]
  | |- context [bind (modify ?f) ?k ?s] =>
      rewrite (bind_modify f k s); cbv beta
  end.

Section TruncatedInput.
Context {T : Type} `{Transaction T} `{Crypto} `{Protobuf}.

Lemma truncated_block_is_rejected (data : Slice) (scheme : Scheme) (b : Block.t T) :
  cap data < 121 ->
  exists b' : Block.t T,
    Block.UnmarshalBinary data scheme b
    = (b', Returns (Some (errors_New "invalid data size"))) \/
    Block.UnmarshalBinary data scheme b
    = (b', Returns (Some (errors_New
                            "binary format is not defined for Block versions > 4"))).
Proof.
  intro Hcap.
  unfold Block.UnmarshalBinary, recover_invalid_data_size, Block.UnmarshalBinary_body.
  destruct (index_cases data 0) as [[v Hv] | Hp];
    [| rewrite (bind_lift_Panic _ _ Hp); eauto].
  rewrite (bind_lift_Val _ _ Hv). cbv beta zeta.
  rewrite bind_modify.
  destruct (ProtobufBlockVersion <=? byte_to_Z v); [unfold raise; eauto |].
  fault_or_continue. fault_or_continue.
  fault_or_continue.
  rewrite (bind_lift_Val _ _ (NewBlockIDFromBytes_signature l0 ltac:(lia))).
  repeat fault_or_continue.
Qed.

Lemma truncated_header_is_rejected
      (data : Slice) (scheme : Scheme) (h : BlockHeader.t) :
  cap data < 121 ->
  exists h' : BlockHeader.t,
    BlockHeader.UnmarshalHeaderFromBinary data scheme h
    = (h', Returns (Some (errors_New "invalid data size"))) \/
    BlockHeader.UnmarshalHeaderFromBinary data scheme h
    = (h', Returns (Some (errors_New
                            "binary format is not defined for Block versions > 4"))).
Proof.
  intro Hcap.
  unfold BlockHeader.UnmarshalHeaderFromBinary, recover_invalid_data_size,
    BlockHeader.UnmarshalHeaderFromBinary_body.
  destruct (index_cases data 0) as [[v Hv] | Hp];
    [| rewrite (bind_lift_Panic _ _ Hp); eauto].
  rewrite (bind_lift_Val _ _ Hv). cbv beta zeta.
  rewrite bind_modify.
  destruct (ProtobufBlockVersion <=? byte_to_Z v); [unfold raise; eauto |].
  fault_or_continue. fault_or_continue.
  fault_or_continue.
  rewrite (bind_lift_Val _ _ (NewBlockIDFromBytes_signature l0 ltac:(lia))).
  repeat fault_or_continue.
Qed.
End TruncatedInput.

Section DecoderSafety.
Context {T : Type} `{Transaction T} `{Crypto} `{Protobuf}.

(** C8: on every input slice, [Block.UnmarshalBinary] and
    [BlockHeader.UnmarshalHeaderFromBinary] return to the caller with a
    nil or non-nil error and never panic; whenever the decoding body
    faults, as every out-of-range index or slice expression does, the
    returned error is the generic "invalid data size"; in particular
    that is the result on empty input. *)
Theorem decoders_recover_from_faults :
  forall (data : Slice) (scheme : Scheme) (b : Block.t T) (h : BlockHeader.t),
    (exists (b' : Block.t T) (err : option error),
       Block.UnmarshalBinary data scheme b = (b', Returns err)) /\
    (exists (h' : BlockHeader.t) (err : option error),
       BlockHeader.UnmarshalHeaderFromBinary data scheme h = (h', Returns err)) /\
    (snd (Block.UnmarshalBinary_body data scheme b) = Panic ->
       snd (Block.UnmarshalBinary data scheme b)
       = Returns (Some (errors_New "invalid data size"))) /\
    (snd (BlockHeader.UnmarshalHeaderFromBinary_body data scheme h) = Panic ->
       snd (BlockHeader.UnmarshalHeaderFromBinary data scheme h)
       = Returns (Some (errors_New "invalid data size"))) /\
    (forall (i lo hi : Z),
       (i < 0 \/ len data <= i -> index data i = Panic) /\
       (lo < 0 \/ hi < lo \/ cap data < hi -> reslice data lo hi = Panic)) /\
    (elems data = [] ->
       Block.UnmarshalBinary data scheme b
       = (b, Returns (Some (errors_New "invalid data size"))) /\
       BlockHeader.UnmarshalHeaderFromBinary data scheme h
       = (h, Returns (Some (errors_New "invalid data size")))).
Proof.
  intros data scheme b h.
  split; [apply recover_never_panics |].
  split; [apply recover_never_panics |].
  split.
  { intro Hp. unfold Block.UnmarshalBinary.
    rewrite recover_converts_panic by exact Hp. reflexivity. }
  split.
  { intro Hp. unfold BlockHeader.UnmarshalHeaderFromBinary.
    rewrite recover_converts_panic by exact Hp. reflexivity. }
  split.
  { intros i lo hi. split;
      [apply index_out_of_range | apply reslice_out_of_range]. }
  intro Hempty.
  assert (Hfault : index data 0 = Panic).
  { apply index_out_of_range. right. unfold len. rewrite Hempty. cbn. lia. }
  split.
  - unfold Block.UnmarshalBinary, recover_invalid_data_size,
      Block.UnmarshalBinary_body.
    rewrite bind_lift_Panic by exact Hfault. reflexivity.
  - unfold BlockHeader.UnmarshalHeaderFromBinary, recover_invalid_data_size,
      BlockHeader.UnmarshalHeaderFromBinary_body.
    rewrite bind_lift_Panic by exact Hfault. reflexivity.
Qed.

End DecoderSafety.

Section DecoderSafetyOnSamples.
Import Sample.

Lemma decoders_recover_from_faults_witness :
  Block.UnmarshalBinary (slice_of []) scheme (Block.zero (T := tx))
  = (Block.zero, Returns (Some (errors_New "invalid data size"))).
Proof.
  destruct (@decoders_recover_from_faults tx transaction crypto protobuf
              (slice_of []) scheme Block.zero BlockHeader.zero)
    as [_ [_ [_ [_ [_ Hempty]]]]].
  apply Hempty. reflexivity.
Defined.

(** A header cut after its timestamp: the version and the timestamp are
    stored, then the parent slice faults. *)
Example truncated_header_is_invalid_data_size :
  BlockHeader.UnmarshalHeaderFromBinary
    (slice_of (x02 :: be_encode 8 1700000000000)) scheme BlockHeader.zero
  = (BlockHeader.set_Timestamp 1700000000000
       (BlockHeader.set_Version 2 BlockHeader.zero),
     Returns (Some (errors_New "invalid data size"))).
Proof. vm_compute. reflexivity. Qed.

(** A block whose declared transaction-block length reaches past the
    data. *)
Example overlong_body_is_invalid_data_size :
  snd (Block.UnmarshalBinary
         (slice_of (firstn 117 (marshalled (plain_block (-1)))
                    ++ [x00; x00; xff; xff; x00]))
         scheme (Block.zero (T := tx)))
  = Returns (Some (errors_New "invalid data size")).
Proof. vm_compute. reflexivity. Qed.

End DecoderSafetyOnSamples.

(* ------------------------------------------------------------------ *)
(** ** Transactions root *)

Lemma bytes_Equal_true_iff (a b : list byte) : bytes_Equal a b = true <-> a = b.
Proof.
  unfold bytes_Equal. revert b.
  induction a as [| x a IH]; intros [| y b]; cbn [list_eqb]; split;
    try reflexivity; try discriminate.
  - rewrite andb_true_iff. intros [Hxy Hab].
    apply Byte.byte_dec_bl in Hxy. apply IH in Hab. congruence.
  - intro Heq. injection Heq as -> ->. rewrite andb_true_iff. split.
    + apply Byte.byte_dec_lb. reflexivity.
    + apply IH. reflexivity.
Qed.


Section TransactionsRoot.
Context {T : Type} `{Transaction T} `{Crypto}.
Variable scheme : Scheme.


Lemma transactionsRoot_legacy (b : Block.t T) :
  Block.Version b < ProtobufBlockVersion ->
  exists e : error, Block.transactionsRoot b scheme = Fail e.
Proof.
  intro Hv. unfold Block.transactionsRoot.
  rewrite (proj2 (Z.ltb_lt _ _)) by exact Hv. eauto.
Qed.

Lemma transactionsRoot_ignores_header
      (b : Block.t T) (f : BlockHeader.t -> BlockHeader.t) :
  BlockHeader.Version (f (Block.BlockHeader b)) = Block.Version b ->
  Block.transactionsRoot (Block.set_header f b) scheme
  = Block.transactionsRoot b scheme.
Proof.
  intro Hv. unfold Block.transactionsRoot, Block.Version, Block.set_header.
  cbn [Block.BlockHeader Block.Transactions]. rewrite Hv. reflexivity.
Qed.

Lemma VerifyTransactionsRoot_protobuf (b : Block.t T) (rh : list byte) :
  ProtobufBlockVersion <= Block.Version b ->
  Block.transactionsRoot b scheme = Val rh ->
  Block.VerifyTransactionsRoot b scheme
  = Val (bytes_Equal (BlockHeader.TransactionsRoot (Block.BlockHeader b)) rh).
Proof.
  intros Hv Hroot. unfold Block.VerifyTransactionsRoot.
  rewrite (proj2 (Z.ltb_ge _ _)) by exact Hv. rewrite Hroot. reflexivity.
Qed.

Lemma SetTransactionsRoot_stores (b b' : Block.t T) :
  Block.SetTransactionsRoot scheme b = (b', Val tt) ->
  ProtobufBlockVersion <= Block.Version b /\
  exists rh : list byte,
    Block.transactionsRoot b scheme = Val rh /\
    b' = Block.set_header (BlockHeader.set_TransactionsRoot rh) b.
Proof.
  unfold Block.SetTransactionsRoot, bind, get, lift, modify.
  destruct (Block.transactionsRoot b scheme) as [rh | e |] eqn:Hroot;
    try discriminate.
  intro Hset. injection Hset as <-. split.
  - destruct (Z.lt_ge_cases (Block.Version b) ProtobufBlockVersion) as [Hlt | Hge];
      [| exact Hge].
    destruct (transactionsRoot_legacy b Hlt) as [e He]. congruence.
  - exists rh. split; reflexivity.
Qed.






End TransactionsRoot.

Section TransactionsRootOnSamples.
Import Sample.







End TransactionsRootOnSamples.

(* ================================================================== *)
(** * Further properties *)

(* ------------------------------------------------------------------ *)
(** ** [BlockID] construction, bytes and text *)

Lemma constructed_Bytes_length (id : BlockID.t) :
  constructed id ->
  length (BlockID.Bytes id) = 64%nat \/ length (BlockID.Bytes id) = 32%nat.
Proof.
  intros [[s [Hs ->]] | [d [Hd ->]]]; [left | right]; assumption.
Qed.

(** X1: [NewBlockIDFromBytes] accepts exactly the data of 64 or 32
    bytes.  The identifier it returns gives the data back from [Bytes],
    is a signature exactly when the data has 64 bytes, and hands out the
    data (or the zero signature, for a digest) from [Signature]; every
    other length is [ErrInvalidBlockIDDataSize], and it never panics. *)
Theorem NewBlockIDFromBytes_by_length :
  forall data : list byte,
    match BlockID.NewBlockIDFromBytes data with
    | Val id =>
        (length data = 64%nat \/ length data = 32%nat) /\
        BlockID.Bytes id = data /\
        BlockID.IsSignature id = (length data =? 64)%nat /\
        BlockID.SignatureOf id
        = (if (length data =? 64)%nat then data else Signature_zero) /\
        BlockID.IsValid id ProtobufBlockVersion = (length data =? 32)%nat
    | Fail e =>
        e = ErrInvalidBlockIDDataSize /\
        length data <> 64%nat /\ length data <> 32%nat
    | Panic => False
    end.
Proof.
  intro data. unfold BlockID.NewBlockIDFromBytes, SignatureSize, DigestSize.
  destruct (Z.eqb_spec (Z.of_nat (length data)) 64) as [H64 | H64].
  - assert (Hlen : length data = 64%nat) by lia.
    rewrite Hlen. repeat split; auto.
  - destruct (Z.eqb_spec (Z.of_nat (length data)) 32) as [H32 | H32].
    + assert (Hlen : length data = 32%nat) by lia.
      rewrite Hlen. repeat split; auto.
    + repeat split; lia.
Qed.

(** X2: the bytes of a constructed identifier lead back to it:
    [NewBlockIDFromBytes (id.Bytes())] is [id]. *)
Theorem NewBlockIDFromBytes_Bytes :
  forall id : BlockID.t,
    constructed id ->
    BlockID.NewBlockIDFromBytes (BlockID.Bytes id) = Val id.
Proof.
  intros id [[s [Hs ->]] | [d [Hd ->]]].
  - change (BlockID.Bytes (BlockID.NewBlockIDFromSignature s)) with s.
    unfold BlockID.NewBlockIDFromBytes. rewrite Hs. reflexivity.
  - change (BlockID.Bytes (BlockID.NewBlockIDFromDigest d)) with d.
    unfold BlockID.NewBlockIDFromBytes. rewrite Hd. reflexivity.
Qed.

Lemma NewBlockIDFromBytes_Bytes_witness :
  BlockID.NewBlockIDFromBytes
    (BlockID.Bytes (BlockID.NewBlockIDFromDigest (repeat x11 32)))
  = Val (BlockID.NewBlockIDFromDigest (repeat x11 32)).
Proof.
  apply (NewBlockIDFromBytes_Bytes (BlockID.NewBlockIDFromDigest (repeat x11 32))).
  right. exists (repeat x11 32). split; reflexivity.
Defined.

(** X3: [WriteTo] hands the identifier's [Bytes] to the writer in one
    [Write] and returns that write's count and error as they are; for an
    identifier that is neither a signature nor a digest it leaves the
    writer alone and returns 0 and an error.  So a nil error means the
    identifier has a variant and all of its bytes were taken, and a writer
    that has room for [k] bytes fewer than the identifier has makes
    [WriteTo] return [k] and the writer's error.  Into an empty buffer it
    writes exactly [Bytes], reports their number, and fails exactly for an
    identifier without a variant. *)
Theorem WriteTo_writes_Bytes :
  forall (id : BlockID.t) (w : Writer),
    (BlockID.idType id = SignatureID \/ BlockID.idType id = DigestID ->
     BlockID.WriteTo id w = io_Write w (BlockID.Bytes id)) /\
    (BlockID.idType id <> SignatureID -> BlockID.idType id <> DigestID ->
     BlockID.WriteTo id w = (w, 0, Some (errors_New "undefined BlockID type"))) /\
    (forall (w' : Writer) (n : Z),
       BlockID.WriteTo id w = (w', n, None) ->
       (BlockID.idType id = SignatureID \/ BlockID.idType id = DigestID) /\
       taken w' = taken w ++ BlockID.Bytes id /\
       n = Z.of_nat (length (BlockID.Bytes id))) /\
    (forall (k : nat) (e : error),
       BlockID.idType id = SignatureID \/ BlockID.idType id = DigestID ->
       room w = Some (k, e) -> (k < length (BlockID.Bytes id))%nat ->
       BlockID.WriteTo id w
       = ({| taken := taken w ++ firstn k (BlockID.Bytes id);
             room := Some (0%nat, e) |}, Z.of_nat k, Some e)) /\
    (let '(w', n, err) := BlockID.WriteTo id buffer in
     taken w' = BlockID.Bytes id /\
     n = Z.of_nat (length (BlockID.Bytes id)) /\
     (err = None <->
      BlockID.idType id = SignatureID \/ BlockID.idType id = DigestID)).
Proof.
  intros id w.
  assert (Htyped : BlockID.idType id = SignatureID \/ BlockID.idType id = DigestID ->
                   BlockID.WriteTo id w = io_Write w (BlockID.Bytes id)).
  { unfold BlockID.WriteTo, BlockID.Bytes.
    destruct (Z.eqb_spec (BlockID.idType id) SignatureID) as [H1 | H1];
      [reflexivity |].
    destruct (Z.eqb_spec (BlockID.idType id) DigestID) as [H2 | H2];
      [reflexivity |].
    intros [? | ?]; contradiction. }
  assert (Huntyped : BlockID.idType id <> SignatureID ->
                     BlockID.idType id <> DigestID ->
                     BlockID.WriteTo id w
                     = (w, 0, Some (errors_New "undefined BlockID type"))).
  { intros H1 H2. unfold BlockID.WriteTo.
    destruct (Z.eqb_spec (BlockID.idType id) SignatureID); [contradiction |].
    destruct (Z.eqb_spec (BlockID.idType id) DigestID); [contradiction |].
    reflexivity. }
  split; [exact Htyped |]. split; [exact Huntyped |]. split; [| split].
  - intros w' n Hw.
    assert (Hor : BlockID.idType id = SignatureID \/
                  BlockID.idType id = DigestID).
    { destruct (Z.eq_dec (BlockID.idType id) SignatureID) as [H1 | H1];
        [left; exact H1 |].
      destruct (Z.eq_dec (BlockID.idType id) DigestID) as [H2 | H2];
        [right; exact H2 |].
      rewrite (Huntyped H1 H2) in Hw. discriminate. }
    split; [exact Hor |].
    rewrite (Htyped Hor) in Hw. unfold io_Write in Hw.
    destruct (room w) as [[k e] |].
    + destruct (length (BlockID.Bytes id) <=? k)%nat; [| discriminate].
      injection Hw as <- <-. split; reflexivity.
    + injection Hw as <- <-. split; reflexivity.
  - intros k e Hor Hroom Hk. rewrite (Htyped Hor). unfold io_Write.
    rewrite Hroom.
    destruct (Nat.leb_spec (length (BlockID.Bytes id)) k); [lia | reflexivity].
  - unfold BlockID.WriteTo, BlockID.Bytes, io_Write, buffer.
    cbn [room taken app].
    destruct (Z.eqb_spec (BlockID.idType id) SignatureID) as [H1 | H1].
    + repeat split; auto.
    + destruct (Z.eqb_spec (BlockID.idType id) DigestID) as [H2 | H2].
      * repeat split; auto.
      * repeat split; auto; try discriminate. intros [? | ?]; contradiction.
Qed.

(** X4: what [WriteTo] writes into an empty buffer for a constructed
    identifier, a fresh [BlockID] reads back with [ReadFrom] from a stream
    that ends there: the receiver becomes the identifier, the stream is
    consumed and both report the same count. *)
Theorem WriteTo_ReadFrom_fresh :
  forall id : BlockID.t,
    constructed id ->
    exists written : list byte,
      BlockID.WriteTo id buffer
      = ({| taken := written; room := None |},
         Z.of_nat (length written), None) /\
      BlockID.ReadFrom BlockID.zero (stream written)
      = (id, stream [], Z.of_nat (length written), None).
Proof.
  intros id [[s [Hs ->]] | [d [Hd ->]]].
  - exists s. split; [reflexivity |].
    unfold BlockID.ReadFrom. cbn [BlockID.zero BlockID.idType].
    change (0 =? SignatureID) with false. change (0 =? DigestID) with false.
    cbv iota.
    rewrite readUndefinedFrom_stream_signature by (lia || reflexivity).
    rewrite firstn_all2 by lia. rewrite skipn_all2 by lia.
    rewrite Hs. reflexivity.
  - exists d. split; [reflexivity |].
    unfold BlockID.ReadFrom. cbn [BlockID.zero BlockID.idType].
    change (0 =? SignatureID) with false. change (0 =? DigestID) with false.
    cbv iota.
    rewrite readUndefinedFrom_stream_digest by (lia || reflexivity).
    rewrite (@firstn_all2 _ 32 d) by lia. rewrite (@skipn_all2 _ 32 d) by lia.
    rewrite copy_nil, firstn_skipn. rewrite Hd. reflexivity.
Qed.

Lemma WriteTo_ReadFrom_fresh_witness :
  exists written : list byte,
    BlockID.WriteTo (BlockID.NewBlockIDFromSignature (repeat x22 64)) buffer
    = ({| taken := written; room := None |},
       Z.of_nat (length written), None) /\
    BlockID.ReadFrom BlockID.zero (stream written)
    = (BlockID.NewBlockIDFromSignature (repeat x22 64), stream [],
       Z.of_nat (length written), None).
Proof.
  apply (WriteTo_ReadFrom_fresh (BlockID.NewBlockIDFromSignature (repeat x22 64))).
  left. exists (repeat x22 64). split; reflexivity.
Defined.

(** X5: a receiver that already has the identifier's variant reads it
    back from the front of a longer stream and leaves what follows
    unread.  A fresh receiver cannot: given a written digest followed by
    32 or more bytes it reads a signature made of the digest and the 32
    bytes after it. *)
Theorem WriteTo_ReadFrom_framing :
  forall (id receiver : BlockID.t) (rest : list byte),
    constructed id ->
    constructed receiver ->
    BlockID.idType receiver = BlockID.idType id ->
    BlockID.ReadFrom receiver (stream (BlockID.Bytes id ++ rest))
    = (id, stream rest, Z.of_nat (length (BlockID.Bytes id)), None) /\
    (BlockID.idType id = DigestID ->
     (32 <= length rest)%nat ->
     BlockID.ReadFrom BlockID.zero (stream (BlockID.Bytes id ++ rest))
     = (BlockID.NewBlockIDFromSignature (BlockID.Bytes id ++ firstn 32 rest),
        stream (skipn 32 rest), 64, None)).
Proof.
  intros id receiver rest Hid Hreceiver Htype.
  destruct Hid as [[s [Hs ->]] | [d [Hd ->]]];
    destruct Hreceiver as [[s0 [Hs0 ->]] | [d0 [Hd0 ->]]];
    try discriminate Htype; clear Htype.
  - split; [| discriminate].
    change (BlockID.Bytes (BlockID.NewBlockIDFromSignature s)) with s.
    unfold BlockID.ReadFrom. cbn [BlockID.NewBlockIDFromSignature BlockID.idType].
    change (SignatureID =? SignatureID) with true. cbv iota.
    rewrite readSignatureFrom_stream_full
      by (cbn [BlockID.sig BlockID.dig]; rewrite ?length_app; (exact Hs0 || reflexivity || lia)).
    rewrite firstn_app_exact, skipn_app_exact by exact Hs.
    rewrite Hs. reflexivity.
  - change (BlockID.Bytes (BlockID.NewBlockIDFromDigest d)) with d.
    split.
    + unfold BlockID.ReadFrom. cbn [BlockID.NewBlockIDFromDigest BlockID.idType].
      change (DigestID =? SignatureID) with false.
      change (DigestID =? DigestID) with true. cbv iota.
      rewrite readDigestFrom_stream_full
        by (cbn [BlockID.sig BlockID.dig]; rewrite ?length_app; (exact Hd0 || reflexivity || lia)).
      rewrite firstn_app_exact, skipn_app_exact by exact Hd.
      rewrite Hd. reflexivity.
    + intros _ Hrest.
      unfold BlockID.ReadFrom. cbn [BlockID.zero BlockID.idType].
      change (0 =? SignatureID) with false. change (0 =? DigestID) with false.
      cbv iota.
      rewrite readUndefinedFrom_stream_signature
        by (reflexivity || (rewrite length_app; lia)).
      rewrite firstn_app, skipn_app, Hd.
      rewrite firstn_all2, skipn_all2 by lia.
      change (64 - 32)%nat with 32%nat. reflexivity.
Qed.

Lemma WriteTo_ReadFrom_framing_witness :
  BlockID.ReadFrom (BlockID.NewBlockIDFromDigest (zeros 32))
    (stream (repeat x11 32 ++ repeat x33 40))
  = (BlockID.NewBlockIDFromDigest (repeat x11 32), stream (repeat x33 40), 32, None) /\
  BlockID.ReadFrom BlockID.zero (stream (repeat x11 32 ++ repeat x33 40))
  = (BlockID.NewBlockIDFromSignature (repeat x11 32 ++ repeat x33 32),
     stream (repeat x33 8), 64, None).
Proof.
  destruct (WriteTo_ReadFrom_framing
              (BlockID.NewBlockIDFromDigest (repeat x11 32))
              (BlockID.NewBlockIDFromDigest (zeros 32))
              (repeat x33 40)) as [Htyped Hfresh].
  - right. exists (repeat x11 32). split; reflexivity.
  - right. exists (zeros 32). split; reflexivity.
  - reflexivity.
  - split; [exact Htyped |].
    apply Hfresh; [reflexivity | vm_compute; lia].
Defined.

Section Base58Text.
Context `{Base58}.

(** X6: within the 88-character limit [NewBlockIDFromBase58] is
    [NewBlockIDFromBytes] applied to the decoded text; a longer text is
    rejected with [ErrInvalidBlockIDDataSize] before it is decoded. *)
Theorem NewBlockIDFromBase58_decodes_then_builds :
  forall s : string,
    BlockID.NewBlockIDFromBase58 s
    = if (88 <? String.length s)%nat
      then Fail ErrInvalidBlockIDDataSize
      else obind (base58_Decode s) BlockID.NewBlockIDFromBytes.
Proof.
  intro s. unfold BlockID.NewBlockIDFromBase58. cbv zeta.
  destruct (Nat.ltb_spec 88 (String.length s)) as [Hlong | Hshort].
  - rewrite (proj2 (Z.ltb_lt _ _)) by lia. reflexivity.
  - rewrite (proj2 (Z.ltb_ge _ _)) by lia.
    destruct (base58_Decode s) as [d | e |]; try reflexivity.
    cbn [obind]. unfold BlockID.NewBlockIDFromBytes, SignatureSize, DigestSize.
    destruct (Z.eqb_spec (Z.of_nat (length d)) 64) as [H64 | H64].
    + rewrite copy_full by (unfold Signature_zero; rewrite length_zeros; lia).
      reflexivity.
    + destruct (Z.eqb_spec (Z.of_nat (length d)) 32) as [H32 | H32];
        [| reflexivity].
      rewrite copy_full by (unfold Digest_zero; rewrite length_zeros; lia).
      reflexivity.
Qed.

(** X7: with a base58 codec that decodes what it encodes and keeps the
    text of up to 64 bytes within 88 characters, the text of a
    constructed identifier parses back to it, also through
    [MustBlockIDFromBase58]. *)
Theorem String_NewBlockIDFromBase58 :
  forall id : BlockID.t,
    (forall bs : list byte, base58_Decode (base58_Encode bs) = Val bs) ->
    (forall bs : list byte,
        (length bs <= 64)%nat -> (String.length (base58_Encode bs) <= 88)%nat) ->
    constructed id ->
    BlockID.NewBlockIDFromBase58 (BlockID.ToString id) = Val id /\
    BlockID.MustBlockIDFromBase58 (BlockID.ToString id) = Val id.
Proof.
  intros id Hcodec Hbound Hid.
  assert (Hparse : BlockID.NewBlockIDFromBase58 (BlockID.ToString id) = Val id).
  { unfold BlockID.NewBlockIDFromBase58, BlockID.ToString. cbv zeta.
    pose proof (constructed_Bytes_length id Hid) as Hlen.
    rewrite (proj2 (Z.ltb_ge _ _))
      by (pose proof (Hbound (BlockID.Bytes id)); lia).
    rewrite Hcodec. cbn [obind].
    destruct Hid as [[s [Hs ->]] | [d [Hd ->]]].
    - change (BlockID.Bytes (BlockID.NewBlockIDFromSignature s)) with s.
      rewrite Hs. change (Z.of_nat 64 =? SignatureSize) with true. cbv iota.
      rewrite copy_full by (unfold Signature_zero; rewrite length_zeros; lia).
      reflexivity.
    - change (BlockID.Bytes (BlockID.NewBlockIDFromDigest d)) with d.
      rewrite Hd. change (Z.of_nat 32 =? SignatureSize) with false.
      change (Z.of_nat 32 =? DigestSize) with true. cbv iota.
      rewrite copy_full by (unfold Digest_zero; rewrite length_zeros; lia).
      reflexivity. }
  split; [exact Hparse |].
  unfold BlockID.MustBlockIDFromBase58. rewrite Hparse. reflexivity.
Qed.

End Base58Text.

Section Base58TextOnSamples.
Import Sample.

Lemma sample_base58_codec (bs : list byte) :
  base58_Decode (base58_Encode bs) = Val bs.
Proof.
  change (Val (list_byte_of_string (string_of_list_byte bs)) = Val bs).
  rewrite list_byte_of_string_of_list_byte. reflexivity.
Qed.

Lemma length_string_of_list_byte (bs : list byte) :
  String.length (string_of_list_byte bs) = length bs.
Proof.
  unfold string_of_list_byte.
  induction bs as [| b bs IH]; [reflexivity |].
  cbn [map string_of_list_ascii String.length length]. rewrite IH. reflexivity.
Qed.

Lemma String_NewBlockIDFromBase58_witness :
  BlockID.NewBlockIDFromBase58
    (BlockID.ToString (BlockID.NewBlockIDFromSignature (repeat x22 64)))
  = Val (BlockID.NewBlockIDFromSignature (repeat x22 64)).
Proof.
  apply (@String_NewBlockIDFromBase58 base58
           (BlockID.NewBlockIDFromSignature (repeat x22 64))).
  - exact sample_base58_codec.
  - intros bs Hbs.
    change (String.length (string_of_list_byte bs) <= 88)%nat.
    rewrite length_string_of_list_byte. lia.
  - left. exists (repeat x22 64). split; reflexivity.
Defined.

End Base58TextOnSamples.

(* ------------------------------------------------------------------ *)
(** ** Feature votes on the wire *)

(** X8: feature votes within the range of [int16] take two bytes each
    and come back from [featuresFromBinary] in order; a trailing odd
    byte is not read. *)
Theorem features_binary_roundtrip :
  forall fs : list Z,
    Forall (fun f => - 2 ^ 15 <= f < 2 ^ 15) fs ->
    exists bs : list byte,
      featuresToBinary fs = Val bs /\
      length bs = (2 * length fs)%nat /\
      featuresFromBinary bs = Val fs /\
      forall x : byte, featuresFromBinary (bs ++ [x]) = Val fs.
Proof.
  intros fs Hfs. exists (flat_map (be_encode 2) fs).
  split; [reflexivity |].
  split; [apply length_features_binary |].
  split; [apply featuresFromBinary_featuresToBinary; exact Hfs |].
  intro x. unfold featuresFromBinary.
  rewrite length_app, length_features_binary. cbn [length].
  replace (Nat.div (2 * length fs + 1) 2) with (length fs)
    by (apply (Nat.div_unique _ 2 _ 1); lia).
  rewrite read_int16s_features by exact Hfs. reflexivity.
Qed.

Lemma features_binary_roundtrip_witness :
  exists bs : list byte,
    featuresToBinary [14; -2] = Val bs /\
    length bs = 4%nat /\
    featuresFromBinary bs = Val [14; -2].
Proof.
  destruct (features_binary_roundtrip [14; -2]) as [bs [Hto [Hlen [Hfrom _]]]].
  - repeat constructor; lia.
  - exists bs. split; [exact Hto | split; [exact Hlen | exact Hfrom]].
Defined.

Lemma length_read_int16s (n : nat) (data : list byte) :
  length (read_int16s n data) = n.
Proof.
  revert data. induction n as [| n IH]; intro data; [reflexivity |].
  cbn [read_int16s length]. rewrite IH. reflexivity.
Qed.

(* ------------------------------------------------------------------ *)
(** ** The signature at the end of an encoded block *)

Lemma BlockGetSignature_app (pre sg : list byte) :
  length sg = 64%nat ->
  BlockGetSignature (slice_of (pre ++ sg)) = Val sg.
Proof.
  intro Hsg. unfold BlockGetSignature, reslice_from, SignatureSize.
  rewrite len_slice_of, length_app, Hsg.
  rewrite (proj2 (Z.ltb_ge _ _)) by lia.
  replace (pre ++ sg) with (concat [pre; sg])
    by (cbn [concat]; rewrite app_nil_r; reflexivity).
  rewrite (@reslice_concat [pre; sg] 1%nat)
    by (cbn [length firstn concat nth]; rewrite ?app_nil_r, ?Hsg; lia).
  cbn [obind nth].
  rewrite copy_full by (rewrite Hsg; reflexivity). reflexivity.
Qed.

(** X9: [BlockGetSignature] never panics: input shorter than 64 bytes
    is the error that names both sizes, any other input yields its last
    64 bytes. *)
Theorem BlockGetSignature_last_64 :
  forall data : Slice,
    match BlockGetSignature data with
    | Val s =>
        64 <= len data /\ length s = 64%nat /\
        s = skipn (length (elems data) - 64) (elems data)
    | Fail e =>
        len data < 64 /\
        e = errors_Errorf
              "not enough bytes to decode block signature, want at least %d, found %d"
              [64; len data]
    | Panic => False
    end.
Proof.
  intros [l sp]. unfold BlockGetSignature, SignatureSize.
  destruct (Z.ltb_spec (len {| elems := l; spare := sp |}) 64) as [Hshort | Hlong].
  - split; [exact Hshort | reflexivity].
  - unfold len in *. cbn [elems] in *.
    unfold reslice_from, reslice, cap, len. cbn [elems spare].
    replace ((0 <=? Z.of_nat (length l) - 64) &&
             (Z.of_nat (length l) - 64 <=? Z.of_nat (length l)) &&
             (Z.of_nat (length l) <=? Z.of_nat (length l + length sp)))
      with true
      by (symmetry; rewrite !andb_true_iff, !Z.leb_le; lia).
    cbn [obind].
    replace (Z.to_nat (Z.of_nat (length l) - 64)) with (length l - 64)%nat by lia.
    replace (Z.to_nat (Z.of_nat (length l) - (Z.of_nat (length l) - 64)))
      with 64%nat by lia.
    rewrite skipn_app.
    replace (length l - 64 - length l)%nat with 0%nat by lia.
    cbn [skipn].
    rewrite firstn_app.
    rewrite (firstn_all2 (skipn (length l - 64) l)) by (rewrite length_skipn; lia).
    rewrite length_skipn.
    replace (64 - (length l - (length l - 64)))%nat with 0%nat by lia.
    cbn [firstn]. rewrite app_nil_r.
    rewrite copy_full
      by (unfold Signature_zero; rewrite length_zeros, length_skipn; lia).
    split; [exact Hlong |].
    split; [rewrite length_skipn; lia | reflexivity].
Qed.

Section SignatureOfEncodedBlock.
Context {T : Type} `{Transaction T} `{Crypto} `{Protobuf}.

(** X10: the binary form of a block and the binary form of its header
    both end in the block signature: [BlockGetSignature] applied to
    either returns [BlockSignature] without decoding anything else. *)
Theorem BlockGetSignature_of_binary_form :
  forall (b : Block.t T) (scheme : Scheme),
    length (BlockHeader.BlockSignature (Block.BlockHeader b)) = 64%nat ->
    (forall bytes : list byte,
        Block.MarshalBinary b scheme = Val bytes ->
        BlockGetSignature (slice_of bytes)
        = Val (BlockHeader.BlockSignature (Block.BlockHeader b))) /\
    (forall bytes : list byte,
        BlockHeader.MarshalHeaderToBinary (Block.BlockHeader b) = Val bytes ->
        BlockGetSignature (slice_of bytes)
        = Val (BlockHeader.BlockSignature (Block.BlockHeader b))).
Proof.
  intros b scheme Hsg. split; intros bytes Hbytes.
  - unfold Block.MarshalBinary, Block.WriteTo in Hbytes.
    destruct (ProtobufBlockVersion <=? Block.Version b); [discriminate |].
    destruct (Block.WriteToWithoutSignature b scheme) as [bs | e |];
      try discriminate.
    cbn [obind] in Hbytes. injection Hbytes as <-.
    apply BlockGetSignature_app. exact Hsg.
  - unfold BlockHeader.MarshalHeaderToBinary in Hbytes.
    destruct (ProtobufBlockVersion <=? BlockHeader.Version (Block.BlockHeader b));
      [discriminate |].
    destruct (negb _); [discriminate |].
    cbv zeta in Hbytes.
    match type of Hbytes with
    | obind ?x _ = _ => destruct x as [res | e |]; try discriminate
    end.
    cbn [obind] in Hbytes. injection Hbytes as <-.
    rewrite app_assoc. apply BlockGetSignature_app. exact Hsg.
Qed.

End SignatureOfEncodedBlock.

Section SignatureOfEncodedBlockOnSamples.
Import Sample.

Lemma BlockGetSignature_of_binary_form_witness :
  BlockGetSignature (slice_of (marshalled reward_block)) = Val Signature_zero.
Proof.
  destruct (BlockGetSignature_of_binary_form reward_block scheme) as [Hblock _].
  - vm_compute. reflexivity.
  - apply (Hblock (marshalled reward_block)). vm_compute. reflexivity.
Defined.

End SignatureOfEncodedBlockOnSamples.

(* ------------------------------------------------------------------ *)
(** ** Setting and checking the transactions root *)

Section RootSetThenVerified.
Context {T : Type} `{Transaction T} `{Crypto}.
Variable scheme : Scheme.

Lemma bytes_Equal_refl (a : list byte) : bytes_Equal a a = true.
Proof. apply bytes_Equal_true_iff. reflexivity. Qed.

(** X11: a block on which [SetTransactionsRootIfPossible] succeeded
    passes [VerifyTransactionsRoot].  Below the Protobuf version the
    block is left as it was, though [SetTransactionsRoot] itself reports
    an error there; from the Protobuf version on only the
    [TransactionsRoot] field changes. *)
Theorem SetTransactionsRootIfPossible_then_verified :
  forall b b' : Block.t T,
    Block.SetTransactionsRootIfPossible scheme b = (b', Val tt) ->
    Block.VerifyTransactionsRoot b' scheme = Val true /\
    (Block.Version b < ProtobufBlockVersion ->
     b' = b /\ exists e : error, snd (Block.SetTransactionsRoot scheme b) = Fail e) /\
    (ProtobufBlockVersion <= Block.Version b ->
     Block.SetTransactionsRoot scheme b = (b', Val tt) /\
     b' = Block.set_header
            (BlockHeader.set_TransactionsRoot
               (BlockHeader.TransactionsRoot (Block.BlockHeader b'))) b).
Proof.
  intros b b' Hset.
  unfold Block.SetTransactionsRootIfPossible, bind, get in Hset.
  destruct (Z.ltb_spec (Block.Version b) ProtobufBlockVersion) as [Hlt | Hge].
  - unfold ret in Hset. injection Hset as <-.
    split; [| split].
    + unfold Block.VerifyTransactionsRoot.
      rewrite (proj2 (Z.ltb_lt _ _)) by exact Hlt. reflexivity.
    + intros _. split; [reflexivity |].
      destruct (transactionsRoot_legacy scheme b Hlt) as [e He].
      exists e. unfold Block.SetTransactionsRoot, bind, get, lift.
      rewrite He. reflexivity.
    + intro Hge. lia.
  - destruct (SetTransactionsRoot_stores scheme b b' Hset) as [_ [rh [Hroot ->]]].
    split; [| split].
    + rewrite (VerifyTransactionsRoot_protobuf scheme _ rh).
      * cbn [Block.set_header Block.BlockHeader BlockHeader.set_TransactionsRoot
             BlockHeader.TransactionsRoot].
        rewrite bytes_Equal_refl. reflexivity.
      * exact Hge.
      * rewrite transactionsRoot_ignores_header by reflexivity. exact Hroot.
    + intro Hlt. lia.
    + intros _. split; [exact Hset | reflexivity].
Qed.

End RootSetThenVerified.

Section RootSetThenVerifiedOnSamples.
Import Sample.

Lemma SetTransactionsRootIfPossible_then_verified_witness :
  Block.VerifyTransactionsRoot
    (fst (Block.SetTransactionsRootIfPossible scheme
            (block_of header5 [[x0a; x0b]; [x0c]])))
    scheme
  = Val true.
Proof.
  apply (SetTransactionsRootIfPossible_then_verified scheme
           (block_of header5 [[x0a; x0b]; [x0c]])).
  vm_compute. reflexivity.
Defined.

End RootSetThenVerifiedOnSamples.

(* ------------------------------------------------------------------ *)
(** ** The generated identifier *)

Section GeneratedIdentifier.
Context `{Crypto} `{Protobuf}.

(** X12: [GenerateBlockID] does not read the identifier it replaces:
    when it succeeds, running it again, or on the same header with any
    other cached identifier, gives the same header.  The identifier it
    stores is valid for the header's version and is what the [BlockID]
    accessor returns, and no other field changes. *)
Theorem GenerateBlockID_idempotent :
  forall (h h' : BlockHeader.t) (scheme : Scheme),
    BlockHeader.GenerateBlockID scheme h = (h', Val tt) ->
    BlockHeader.GenerateBlockID scheme h' = (h', Val tt) /\
    (forall cached : BlockID.t,
        BlockHeader.GenerateBlockID scheme (BlockHeader.set_ID cached h)
        = (h', Val tt)) /\
    BlockHeader.BlockID h' = BlockHeader.ID h' /\
    BlockID.IsValid (BlockHeader.ID h') (BlockHeader.Version h') = true /\
    h' = BlockHeader.set_ID (BlockHeader.ID h') h.
Proof.
  intros h h' scheme Hgen.
  destruct (Z.ltb_spec (BlockHeader.Version h) ProtobufBlockVersion) as [Hlt | Hge].
  - rewrite GenerateBlockID_legacy in Hgen by exact Hlt.
    injection Hgen as <-.
    split; [| split; [| split; [| split]]].
    + rewrite GenerateBlockID_legacy by exact Hlt. reflexivity.
    + intro cached. rewrite GenerateBlockID_legacy by exact Hlt. reflexivity.
    + unfold BlockHeader.BlockID. cbn [BlockHeader.set_ID BlockHeader.Version
        BlockHeader.BlockSignature BlockHeader.ID].
      rewrite (proj2 (Z.ltb_lt _ _)) by exact Hlt. reflexivity.
    + unfold BlockID.IsValid. cbn [BlockHeader.set_ID BlockHeader.Version
        BlockHeader.ID].
      rewrite (proj2 (Z.leb_gt _ _)) by exact Hlt. reflexivity.
    + reflexivity.
  - pose proof Hgen as Hgen0.
    unfold BlockHeader.GenerateBlockID, bind, get, lift, modify in Hgen.
    rewrite (proj2 (Z.ltb_ge _ _)) in Hgen by exact Hge.
    destruct (BlockHeader.MarshalHeaderToProtobufWithoutSignature h scheme)
      as [headerBytes | e |] eqn:Hm; try discriminate.
    destruct (crypto_FastHash headerBytes) as [hash | e |] eqn:Hh; try discriminate.
    injection Hgen as <-.
    split; [| split; [| split; [| split]]].
    + rewrite (GenerateBlockID_protobuf
                 (BlockHeader.set_ID (BlockID.NewBlockIDFromDigest hash) h)
                 scheme Hge Hm Hh).
      reflexivity.
    + intro cached.
      rewrite (GenerateBlockID_protobuf (BlockHeader.set_ID cached h)
                 scheme Hge Hm Hh).
      reflexivity.
    + unfold BlockHeader.BlockID. cbn [BlockHeader.set_ID BlockHeader.Version
        BlockHeader.ID].
      rewrite (proj2 (Z.ltb_ge _ _)) by exact Hge. reflexivity.
    + unfold BlockID.IsValid. cbn [BlockHeader.set_ID BlockHeader.Version
        BlockHeader.ID].
      rewrite (proj2 (Z.leb_le _ _)) by exact Hge. reflexivity.
    + reflexivity.
Qed.

End GeneratedIdentifier.

Section GeneratedIdentifierOnSamples.
Import Sample.

Lemma GenerateBlockID_idempotent_witness :
  BlockHeader.GenerateBlockID scheme (fst (BlockHeader.GenerateBlockID scheme header5))
  = (fst (BlockHeader.GenerateBlockID scheme header5), Val tt).
Proof.
  apply (GenerateBlockID_idempotent header5
           (fst (BlockHeader.GenerateBlockID scheme header5)) scheme).
  vm_compute. reflexivity.
Defined.

End GeneratedIdentifierOnSamples.

(* ------------------------------------------------------------------ *)
(** ** Signing *)

Section SignThenVerify.
Context {T : Type} `{Transaction T} `{Crypto} `{Protobuf} `{Signing}.
Variable scheme : Scheme.

Lemma WriteToWithoutSignature_ignores_signature (b : Block.t T) (sg : Signature) :
  Block.WriteToWithoutSignature
    (Block.set_header (BlockHeader.set_BlockSignature sg) b) scheme
  = Block.WriteToWithoutSignature b scheme.
Proof. reflexivity. Qed.

(** X13: when [Sign] succeeds with a secret key whose signatures the
    block's generator key verifies, the signed block passes
    [VerifySignature], provided a block of the Protobuf version carries
    no challenged header.  [Sign] stores the signature and nothing
    else: the cached [ID] stays as it was. *)
Theorem Sign_then_VerifySignature :
  forall (b b' : Block.t T) (secret : SecretKey),
    (forall (msg : list byte) (sg : Signature),
        crypto_Sign secret msg = Val sg ->
        crypto_Verify (BlockHeader.GeneratorPublicKey (Block.BlockHeader b)) sg msg
        = true) ->
    (ProtobufBlockVersion <= Block.Version b ->
     BlockHeader.ChallengedHeader (Block.BlockHeader b) = None) ->
    Block.Sign scheme secret b = (b', Val tt) ->
    Block.VerifySignature b' scheme = Val true /\
    b' = Block.set_header
           (BlockHeader.set_BlockSignature
              (BlockHeader.BlockSignature (Block.BlockHeader b'))) b /\
    BlockHeader.ID (Block.BlockHeader b') = BlockHeader.ID (Block.BlockHeader b).
Proof.
  intros b b' secret Hkeys Hplain Hsign.
  unfold Block.Sign, bind, get, lift, modify in Hsign.
  destruct (Z.leb_spec ProtobufBlockVersion (Block.Version b)) as [Hge | Hlt].
  - destruct (BlockHeader.MarshalHeaderToProtobufWithoutSignature
                (Block.BlockHeader b) scheme) as [bb | e |] eqn:Hbb;
      try discriminate.
    destruct (crypto_Sign secret bb) as [sg | e |] eqn:Hsg; try discriminate.
    injection Hsign as <-.
    split; [| split; reflexivity].
    unfold Block.VerifySignature, Block.Version in *.
    cbn [Block.set_header Block.BlockHeader BlockHeader.set_BlockSignature
         BlockHeader.Version BlockHeader.GeneratorPublicKey
         BlockHeader.BlockSignature].
    rewrite (proj2 (Z.ltb_ge _ _)) by exact Hge.
    change (BlockHeader.MarshalHeaderToProtobufWithoutSignature
              (BlockHeader.set_BlockSignature sg (Block.BlockHeader b)) scheme)
      with (BlockHeader.MarshalHeaderToProtobufWithoutSignature
              (Block.BlockHeader b) scheme).
    rewrite Hbb, (Hkeys bb sg Hsg). cbn [negb].
    unfold BlockHeader.origHeader, BlockHeader.GetChallengedHeader.
    cbn [BlockHeader.set_BlockSignature BlockHeader.ChallengedHeader].
    rewrite (Hplain Hge). reflexivity.
  - destruct (Block.WriteToWithoutSignature b scheme) as [bb | e |] eqn:Hbb;
      try discriminate.
    destruct (crypto_Sign secret bb) as [sg | e |] eqn:Hsg; try discriminate.
    injection Hsign as <-.
    split; [| split; reflexivity].
    unfold Block.VerifySignature.
    rewrite WriteToWithoutSignature_ignores_signature, Hbb.
    unfold Block.Version in *.
    cbn [Block.set_header Block.BlockHeader BlockHeader.set_BlockSignature
         BlockHeader.Version BlockHeader.GeneratorPublicKey
         BlockHeader.BlockSignature].
    rewrite (proj2 (Z.ltb_lt _ _)) by exact Hlt.
    cbn [obind]. rewrite (Hkeys bb sg Hsg). reflexivity.
Qed.

End SignThenVerify.

Section SignThenVerifyOnSamples.
Import Sample.

Lemma Sign_then_VerifySignature_witness :
  Block.VerifySignature
    (fst (Block.Sign scheme secret reward_block)) scheme
  = Val true.
Proof.
  destruct (Sign_then_VerifySignature scheme reward_block
              (fst (Block.Sign scheme secret reward_block)) secret)
    as [Hverified _].
  - intros msg sg Hsg. injection Hsg as <-.
    change (bytes_Equal (sign key msg) (sign key msg) = true).
    apply bytes_Equal_true_iff. reflexivity.
  - intro Hge. vm_compute in Hge. contradiction Hge. reflexivity.
  - vm_compute. reflexivity.
  - exact Hverified.
Defined.

End SignThenVerifyOnSamples.

(* ------------------------------------------------------------------ *)
(** ** The binary form of a header *)

Lemma Z_to_byte_mod (z m : Z) : 0 < m -> Z_to_byte (z mod (256 * m)) = Z_to_byte z.
Proof.
  intro Hm. unfold Z_to_byte.
  rewrite Z.rem_mul_r by lia.
  rewrite (Z.mul_comm 256), Z.mod_add by lia.
  rewrite Z.mod_mod by lia. reflexivity.
Qed.

Lemma be_encode_mod (n : nat) (z : Z) :
  be_encode n (z mod 256 ^ Z.of_nat n) = be_encode n z.
Proof.
  revert z. induction n as [| n IH]; intro z; [reflexivity |].
  cbn [be_encode].
  replace (256 ^ Z.of_nat (S n)) with (256 * 256 ^ Z.of_nat n)
    by (rewrite Nat2Z.inj_succ, Z.pow_succ_r by lia; reflexivity).
  assert (Hpos : 0 < 256 ^ Z.of_nat n) by (apply Z.pow_pos_nonneg; lia).
  rewrite Z_to_byte_mod by exact Hpos.
  f_equal.
  rewrite Z.rem_mul_r by lia.
  rewrite (Z.mul_comm 256), Z.div_add by lia.
  rewrite (Z.div_small (z mod 256) 256) by (apply Z.mod_pos_bound; lia).
  rewrite Z.add_0_l. apply IH.
Qed.

Lemma be_encode_uint64 (z : Z) : be_encode 8 (uint64 z) = be_encode 8 z.
Proof. apply (be_encode_mod 8). Qed.

Lemma be_decode_nonneg (l : list byte) : 0 <= be_decode l.
Proof.
  unfold be_decode.
  assert (Hgen : forall acc, 0 <= acc ->
            0 <= fold_left (fun a b => a * 256 + byte_to_Z b) l acc).
  { induction l as [| x l IH]; intros acc Hacc; cbn [fold_left]; [exact Hacc |].
    apply IH. pose proof (byte_to_Z_range x). lia. }
  apply Hgen. lia.
Qed.

Lemma MarshalHeaderToBinary_layout (h : BlockHeader.t) :
  header_encodable h ->
  BlockHeader.MarshalHeaderToBinary h = Val (concat (header_layout h)).
Proof.
  intros [Hv _ [ps [Hparent Hps]] _ _ Hgs _ _ _ _ _ _].
  unfold BlockHeader.MarshalHeaderToBinary, header_layout.
  replace (ProtobufBlockVersion <=? BlockHeader.Version h) with false
    by (symmetry; apply Z.leb_gt; lia).
  rewrite Hparent.
  change (BlockID.Bytes (BlockID.NewBlockIDFromSignature ps)) with ps.
  rewrite Hps. change (negb (Z.of_nat 64 =? SignatureSize)) with false.
  cbv beta iota zeta.
  rewrite copy_full by (rewrite length_zeros; exact Hgs).
  unfold featuresToBinary. cbn [obind].
  rewrite be_encode_uint64.
  destruct (Z.leb_spec NgBlockVersion (BlockHeader.Version h));
    destruct (Z.leb_spec RewardBlockVersion (BlockHeader.Version h));
    try (unfold NgBlockVersion, RewardBlockVersion in *; lia);
    cbn [obind concat app]; rewrite ?app_nil_r, <- ?app_assoc; reflexivity.
Qed.

Section HeaderDecode.
Context `{Crypto} `{Protobuf}.
Variable scheme : Scheme.

Lemma UnmarshalHeaderFromBinary_layout (h h0 : BlockHeader.t) :
  header_encodable h ->
  length (BlockHeader.GeneratorPublicKey h0) = 32%nat ->
  length (BlockHeader.BlockSignature h0) = 64%nat ->
  BlockHeader.UnmarshalHeaderFromBinary (slice_of (concat (header_layout h))) scheme h0
  = (decoded_header h0 h, Returns None).
Proof.
  destruct h as [v ts p fc fs rv cbl [bt gs] tbl tc pk sg tr sh ch id].
  destruct h0 as [v0 ts0 p0 fc0 fs0 rv0 cbl0 [bt0 gs0] tbl0 tc0 pk0 sg0 tr0 sh0 ch0 id0].
  intros [Hv Hts [ps [Hparent Hps]] Hcbl Hbt Hgs Htbl Htc Hfs Hrv Hpk Hsg].
  cbn [BlockHeader.Version BlockHeader.Timestamp BlockHeader.Parent BlockHeader.FeaturesCount BlockHeader.Features BlockHeader.RewardVote BlockHeader.ConsensusBlockLength BlockHeader.NxtConsensus BlockHeader.TransactionBlockLength BlockHeader.TransactionCount BlockHeader.GeneratorPublicKey BlockHeader.BlockSignature BlockHeader.TransactionsRoot BlockHeader.StateHash BlockHeader.ChallengedHeader BlockHeader.ID BlockHeader.BaseTarget BlockHeader.GenSignature NxtConsensus.BaseTarget NxtConsensus.GenSignature] in *.
  subst p. intros Hpk0 Hsg0.
  unfold BlockHeader.UnmarshalHeaderFromBinary, recover_invalid_data_size,
    BlockHeader.UnmarshalHeaderFromBinary_body.
  unfold header_layout, decoded_header.
  cbn [BlockHeader.Version BlockHeader.Timestamp BlockHeader.Parent BlockHeader.FeaturesCount BlockHeader.Features BlockHeader.RewardVote BlockHeader.ConsensusBlockLength BlockHeader.NxtConsensus BlockHeader.TransactionBlockLength BlockHeader.TransactionCount BlockHeader.GeneratorPublicKey BlockHeader.BlockSignature BlockHeader.TransactionsRoot BlockHeader.StateHash BlockHeader.ChallengedHeader BlockHeader.ID BlockHeader.BaseTarget BlockHeader.GenSignature NxtConsensus.BaseTarget NxtConsensus.GenSignature].
  change (BlockID.Bytes (BlockID.NewBlockIDFromSignature ps)) with ps.
  assert (Hcases : v = 0 \/ v = 1 \/ v = 2 \/ v = 3 \/ v = 4)
    by (unfold ProtobufBlockVersion in Hv; lia).
  destruct Hcases as [-> | [-> | [-> | [-> | ->]]]];
    cbn [Z.leb Z.compare Pos.compare Pos.compare_cont
         NgBlockVersion RewardBlockVersion ProtobufBlockVersion] in *.
  all: take_byte 0%nat.
  all: rewrite byte_to_Z_to_byte, Z.mod_small by lia.
  all: store.
  all: cbn [Z.leb Z.compare Pos.compare Pos.compare_cont
            NgBlockVersion RewardBlockVersion ProtobufBlockVersion].
  all: take_field 1%nat; store.
  all: take_field 2%nat.
  all: rewrite (bind_lift_Val _ _ (NewBlockIDFromBytes_signature ps Hps)); store.
  all: take_field 3%nat; store.
  all: take_field 4%nat; store; store.
  all: take_field 5%nat; store.
  all: take_field 6%nat; cbv zeta; store; store.
  all: unfold NgBlockVersion, RewardBlockVersion, ProtobufBlockVersion in *.
  all: rewrite (be64_roundtrip ts), (be64_roundtrip bt), (be32_roundtrip cbl),
         (be32_roundtrip tbl) by lia.
  all: rewrite copy_full by (rewrite length_zeros; lia).
  (* versions below Ng *)
  1-3: rewrite (proj2 (Z.ltb_ge _ _)) by lia.
  1-3: rewrite bind_assoc; take_byte 7%nat.
  1-3: rewrite bind_assoc; store.
  1-3: store.
  (* versions from Ng on *)
  4-5: destruct (Hfs ltac:(lia)) as [-> [Hfc Hrange]]; clear Hfs.
  4-5: rewrite (proj2 (Z.ltb_ge _ _)) by lia.
  4-5: rewrite bind_assoc; take_field 7%nat.
  4-5: rewrite bind_assoc; store.
  4-5: rewrite bind_assoc; take_field 8%nat.
  4-5: u32; rewrite ?be32_roundtrip by lia.
  4-5: cbv zeta; rewrite bind_assoc; store.
  4-5: rewrite bind_assoc; store.
  4-5: rewrite bind_assoc; take_field 9%nat.
  4-5: rewrite bind_assoc.
  4-5: erewrite bind_wrap_lift_Val
         by (apply featuresFromBinary_featuresToBinary; exact Hrange).
  4-5: rewrite ?bind_assoc; store.
  4-5: rewrite copy_full by (rewrite repeat_length; lia).
  4: rewrite bind_ret.
  5: rewrite bind_assoc; take_field 10%nat; store.
  5: rewrite int64_be_roundtrip by lia.
  (* generator key, signature and identifier *)
  all: rewrite len_slice_of.
  all: take_field 11%nat; store.
  all: unfold reslice_from; rewrite len_slice_of.
  all: take_field 12%nat; store.
  all: rewrite !copy_full by lia.
  all: unfold wrap.
  all: rewrite GenerateBlockID_legacy
         by (cbn [BlockHeader.Version]; unfold ProtobufBlockVersion; lia).
  all: norm_block.
  all: rewrite ?byte_to_Z_to_byte, ?Z.mod_small by lia.
  all: reflexivity.
Qed.

End HeaderDecode.

Section HeaderRoundTrip.
Context `{Crypto} `{Protobuf}.

(** X14: a header the binary header layout can carry is written by
    [MarshalHeaderToBinary] field after field and read back by
    [UnmarshalHeaderFromBinary], into any receiver, with every field of
    the layout restored.  The decoder fills in reward vote -1 below the
    Reward version and no features below the Ng version, derives [ID]
    from the decoded signature, and leaves the receiver's transactions
    root, state hash and challenged header alone. *)
Theorem header_binary_roundtrip :
  forall (h receiver : BlockHeader.t) (scheme : Scheme),
    header_encodable h ->
    length (BlockHeader.GeneratorPublicKey receiver) = 32%nat ->
    length (BlockHeader.BlockSignature receiver) = 64%nat ->
    exists bytes : list byte,
      BlockHeader.MarshalHeaderToBinary h = Val bytes /\
      bytes = concat (header_layout h) /\
      BlockHeader.UnmarshalHeaderFromBinary (slice_of bytes) scheme receiver
      = (decoded_header receiver h, Returns None) /\
      BlockHeader.MarshalHeaderToBinary (decoded_header receiver h) = Val bytes.
Proof.
  intros h receiver scheme Henc Hpk Hsg.
  exists (concat (header_layout h)).
  split; [apply MarshalHeaderToBinary_layout; exact Henc |].
  split; [reflexivity |].
  split; [apply UnmarshalHeaderFromBinary_layout; assumption |].
  rewrite <- (MarshalHeaderToBinary_layout h Henc).
  destruct Henc as [Hv _ _ _ _ _ _ _ _ _ _ _].
  unfold BlockHeader.MarshalHeaderToBinary, decoded_header, BlockHeader.BaseTarget,
    BlockHeader.GenSignature.
  cbn [BlockHeader.Version BlockHeader.Timestamp BlockHeader.Parent
       BlockHeader.FeaturesCount BlockHeader.Features BlockHeader.RewardVote
       BlockHeader.ConsensusBlockLength BlockHeader.NxtConsensus
       BlockHeader.TransactionBlockLength BlockHeader.TransactionCount
       BlockHeader.GeneratorPublicKey BlockHeader.BlockSignature].
  destruct (Z.leb_spec NgBlockVersion (BlockHeader.Version h));
    destruct (Z.leb_spec RewardBlockVersion (BlockHeader.Version h));
    try (unfold NgBlockVersion, RewardBlockVersion in *; lia);
    reflexivity.
Qed.

(** X15: both binary decoders stop at a first byte of 5 or more: the
    error is "binary format is not defined for Block versions > 4" and
    the receiver keeps every field except [Version], which already holds
    the rejected byte. *)
Theorem binary_decoders_reject_protobuf_versions :
  forall (T : Type) (tx_ops : Transaction T)
         (data : Slice) (scheme : Scheme) (b : Block.t T) (h : BlockHeader.t)
         (first : byte),
    index data 0 = Val first ->
    ProtobufBlockVersion <= byte_to_Z first ->
    Block.UnmarshalBinary data scheme b
    = (Block.set_header (BlockHeader.set_Version (byte_to_Z first)) b,
       Returns (Some (errors_New
                        "binary format is not defined for Block versions > 4"))) /\
    BlockHeader.UnmarshalHeaderFromBinary data scheme h
    = (BlockHeader.set_Version (byte_to_Z first) h,
       Returns (Some (errors_New
                        "binary format is not defined for Block versions > 4"))).
Proof.
  intros T tx_ops data scheme b h first Hfirst Hv.
  apply Z.leb_le in Hv. split.
  - unfold Block.UnmarshalBinary, recover_invalid_data_size,
      Block.UnmarshalBinary_body.
    rewrite (bind_lift_Val _ _ Hfirst). cbv beta zeta.
    rewrite bind_modify, Hv. reflexivity.
  - unfold BlockHeader.UnmarshalHeaderFromBinary, recover_invalid_data_size,
      BlockHeader.UnmarshalHeaderFromBinary_body.
    rewrite (bind_lift_Val _ _ Hfirst). cbv beta zeta.
    rewrite bind_modify, Hv. reflexivity.
Qed.

(** X16: no binary encoder writes a block of the Protobuf version:
    [WriteToWithoutSignature], [WriteTo], [MarshalBinary] and
    [MarshalHeaderToBinary] all report an error, and [Marshal] takes the
    protobuf route instead. *)
Theorem binary_encoders_reject_protobuf_versions :
  forall (T PBTx : Type) (tx_ops : Transaction T) (pb_ops : ProtobufBlock T PBTx)
         (b : Block.t T) (scheme : Scheme),
    ProtobufBlockVersion <= Block.Version b ->
    Block.WriteToWithoutSignature b scheme
    = Fail (errors_New "binary format is not defined for Block versions > 4") /\
    Block.WriteTo b scheme
    = Fail (errors_New "binary format is not defined for Block versions > 4") /\
    Block.MarshalBinary b scheme
    = Fail (errors_New "binary format is not defined for Block versions > 4") /\
    BlockHeader.MarshalHeaderToBinary (Block.BlockHeader b)
    = Fail (errors_New
              "BlockHeader.MarshalHeaderToBinary: binary format is not defined for Block versions > 4") /\
    Block.Marshal b scheme = Block.MarshalToProtobuf b scheme.
Proof.
  intros T PBTx tx_ops pb_ops b scheme Hv. apply Z.leb_le in Hv.
  unfold Block.WriteToWithoutSignature, Block.WriteTo, Block.MarshalBinary,
    BlockHeader.MarshalHeaderToBinary, Block.Marshal.
  unfold Block.Version in Hv |- *. rewrite Hv. repeat split.
Qed.

End HeaderRoundTrip.

Section HeaderRoundTripOnSamples.
Import Sample.

Lemma reward_header_encodable : header_encodable reward_header.
Proof.
  let x := eval vm_compute in reward_header in change reward_header with x.
  constructor;
    cbn [BlockHeader.Version BlockHeader.Timestamp BlockHeader.Parent
         BlockHeader.FeaturesCount BlockHeader.Features BlockHeader.RewardVote
         BlockHeader.ConsensusBlockLength BlockHeader.NxtConsensus
         BlockHeader.TransactionBlockLength BlockHeader.TransactionCount
         BlockHeader.GeneratorPublicKey BlockHeader.BlockSignature
         BlockHeader.BaseTarget BlockHeader.GenSignature
         NxtConsensus.BaseTarget NxtConsensus.GenSignature];
    unfold BlockHeader.BaseTarget, BlockHeader.GenSignature;
    cbn [BlockHeader.NxtConsensus NxtConsensus.BaseTarget NxtConsensus.GenSignature];
    unfold NgBlockVersion, RewardBlockVersion, ProtobufBlockVersion;
    cbn [Z.leb Z.compare Pos.compare Pos.compare_cont];
    try lia; try reflexivity.
  - eexists; split; reflexivity.
  - intros _. split; [reflexivity | split; [lia | repeat constructor; lia]].
Qed.

Lemma header_binary_roundtrip_witness :
  exists bytes : list byte,
    BlockHeader.MarshalHeaderToBinary reward_header = Val bytes /\
    BlockHeader.UnmarshalHeaderFromBinary (slice_of bytes) scheme BlockHeader.zero
    = (decoded_header BlockHeader.zero reward_header, Returns None).
Proof.
  destruct (header_binary_roundtrip reward_header BlockHeader.zero scheme
              reward_header_encodable eq_refl eq_refl)
    as [bytes [Hwrite [_ [Hread _]]]].
  exists bytes. split; [exact Hwrite | exact Hread].
Defined.

Lemma binary_decoders_reject_protobuf_versions_witness :
  BlockHeader.UnmarshalHeaderFromBinary (slice_of [x05; x00]) scheme BlockHeader.zero
  = (BlockHeader.set_Version 5 BlockHeader.zero,
     Returns (Some (errors_New
                      "binary format is not defined for Block versions > 4"))).
Proof.
  destruct (binary_decoders_reject_protobuf_versions tx transaction
              (slice_of [x05; x00]) scheme Block.zero BlockHeader.zero x05
              eq_refl) as [_ Hheader].
  - vm_compute. discriminate.
  - exact Hheader.
Defined.

Lemma binary_encoders_reject_protobuf_versions_witness :
  Block.Marshal (block_of header5 []) scheme
  = Block.MarshalToProtobuf (block_of header5 []) scheme.
Proof.
  destruct (binary_encoders_reject_protobuf_versions tx (list byte) transaction
              protobuf_block (block_of header5 []) scheme)
    as [_ [_ [_ [_ Hroute]]]].
  - vm_compute. discriminate.
  - exact Hroute.
Defined.

End HeaderRoundTripOnSamples.

(* ------------------------------------------------------------------ *)
(** ** What a successful header decoding guarantees *)

Lemma bind_raise {S A B : Type} (e : error) (k : A -> M S B) (s : S) :
  bind (raise e) k s = (s, Fail e).
Proof. reflexivity. Qed.

Lemma reslice_from_cases (d : Slice) (lo : Z) :
  (exists l : list byte,
     reslice_from d lo = Val l /\ Z.of_nat (length l) = len d - lo /\ 0 <= lo) \/
  reslice_from d lo = Panic.
Proof.
  unfold reslice_from, reslice, cap, len.
  destruct (Z.leb_spec 0 lo); destruct (Z.leb_spec lo (Z.of_nat (length (elems d))));
    destruct (Z.leb_spec (Z.of_nat (length (elems d)))
                (Z.of_nat (length (elems d) + length (spare d))));
    cbn [andb]; try (right; reflexivity).
  left. eexists. split; [reflexivity | split; [| lia]].
  rewrite length_firstn, length_skipn, length_app. lia.
Qed.

Lemma reslice_bounds (d : Slice) (lo hi : Z) :
  (exists l : list byte,
     reslice d lo hi = Val l /\ Z.of_nat (length l) = hi - lo /\
     0 <= lo <= hi /\ hi <= cap d) \/
  reslice d lo hi = Panic.
Proof.
  unfold reslice, cap.
  destruct (Z.leb_spec 0 lo); destruct (Z.leb_spec lo hi);
    destruct (Z.leb_spec hi (Z.of_nat (length (elems d) + length (spare d))));
    cbn [andb]; try (right; reflexivity).
  left. eexists. split; [reflexivity | split; [| lia]].
  rewrite length_firstn, length_skipn, length_app. lia.
Qed.

(** One statement of a decoder body that ran to completion. *)
Ltac decoded_step Hrun :=
  match type of Hrun with
  | bind (bind _ _) _ _ = _ => rewrite bind_assoc in Hrun
  | bind (lift (reslice_from ?d ?lo)) ?k ?s = _ =>
      let l := fresh "l" in
      let Hl := fresh "Hl" in
      let Hlen := fresh "Hlen" in
      let Hlo := fresh "Hlo" in
      let Hp := fresh "Hp" in
      destruct (reslice_from_cases d lo) as [[l [Hl [Hlen Hlo]]] | Hp];
      [ rewrite (bind_lift_Val k s Hl) in Hrun; cbv beta in Hrun
      | rewrite (bind_lift_Panic k s Hp) in Hrun; discriminate Hrun ]
  | bind (lift (reslice ?d ?lo ?hi)) ?k ?s = _ =>
      let l := fresh "l" in
      let Hl := fresh "Hl" in
      let Hlen := fresh "Hlen" in
      let Hlo := fresh "Hlo" in
      let Hhi := fresh "Hhi" in
      let Hp := fresh "Hp" in
      destruct (reslice_bounds d lo hi) as [[l [Hl [Hlen [Hlo Hhi]]]] | Hp];
      [ rewrite (bind_lift_Val k s Hl) in Hrun; cbv beta in Hrun
      | rewrite (bind_lift_Panic k s Hp) in Hrun; discriminate Hrun ]
  | bind (lift (index ?d ?i)) ?k ?s = _ =>
      let x := fresh "x" in
      let Hx := fresh "Hx" in
      let Hp := fresh "Hp" in
      destruct (index_cases d i) as [[x Hx] | Hp];
      [ rewrite (bind_lift_Val k s Hx) in Hrun; cbv beta zeta in Hrun
      | rewrite (bind_lift_Panic k s Hp) in Hrun; discriminate Hrun ]
  | bind (modify ?f) ?k ?s = _ =>
      erewrite (bind_modify_to f k s) in Hrun by (norm_block; reflexivity);
      cbv beta in Hrun
  | bind (raise ?e) ?k ?s = _ =>
      rewrite (bind_raise e k s) in Hrun; discriminate Hrun
  | bind (ret ?a) ?k ?s = _ =>
      rewrite (bind_ret a k s) in Hrun
  | bind (wrap (lift (featuresFromBinary ?bs)) ?msg) ?k ?s = _ =>
      rewrite (bind_wrap_lift_Val msg k s
                 (eq_refl : featuresFromBinary bs = Val _)) in Hrun;
      cbv beta in Hrun
  end.

Section HeaderDecodeGuarantees.
Context `{Crypto} `{Protobuf}.

(** X17: whatever the input, a header that
    [UnmarshalHeaderFromBinary] returned without error has a version
    below 5 taken from the first byte, a signature parent valid for
    that version, an [ID] derived from the decoded block signature, a
    32-byte generation signature, reward vote -1 below the Reward
    version, no features below the Ng version and as many features as
    the features count from there on, and a transaction block length of
    at least 1 (4 from the Ng version on).  The receiver's transactions
    root, state hash and challenged header are not written, and below
    the Ng version neither is its features count. *)
Theorem UnmarshalHeaderFromBinary_guarantees :
  forall (data : Slice) (scheme : Scheme) (h h' : BlockHeader.t),
    BlockHeader.UnmarshalHeaderFromBinary data scheme h = (h', Returns None) ->
    let v := BlockHeader.Version h' in
    (exists first : byte, index data 0 = Val first /\ v = byte_to_Z first) /\
    0 <= v < ProtobufBlockVersion /\
    BlockID.IsValid (BlockHeader.Parent h') v = true /\
    BlockHeader.ID h' = BlockID.NewBlockIDFromSignature (BlockHeader.BlockSignature h') /\
    BlockHeader.BlockID h' = BlockHeader.ID h' /\
    length (BlockHeader.GenSignature h') = 32%nat /\
    (v < RewardBlockVersion -> BlockHeader.RewardVote h' = -1) /\
    (v < NgBlockVersion ->
     BlockHeader.Features h' = [] /\
     BlockHeader.FeaturesCount h' = BlockHeader.FeaturesCount h /\
     1 <= BlockHeader.TransactionBlockLength h' /\
     0 <= BlockHeader.TransactionCount h' < 256) /\
    (NgBlockVersion <= v ->
     Z.of_nat (length (BlockHeader.Features h')) = BlockHeader.FeaturesCount h' /\
     4 <= BlockHeader.TransactionBlockLength h') /\
    96 <= len data /\
    BlockHeader.TransactionsRoot h' = BlockHeader.TransactionsRoot h /\
    BlockHeader.StateHash h' = BlockHeader.StateHash h /\
    BlockHeader.ChallengedHeader h' = BlockHeader.ChallengedHeader h.
Proof.
  intros data scheme h h' Hdecode.
  destruct h as [v0 ts0 p0 fc0 fs0 rv0 cbl0 [bt0 gs0] tbl0 tc0 pk0 sg0 tr0 sh0 ch0 id0].
  unfold BlockHeader.UnmarshalHeaderFromBinary, recover_invalid_data_size in Hdecode.
  match type of Hdecode with
  | (let (_, _) := ?run in _) = _ =>
      destruct run as [h1 [u | e |]] eqn:Hrun; try discriminate Hdecode
  end.
  injection Hdecode as ->. destruct u.
  unfold BlockHeader.UnmarshalHeaderFromBinary_body in Hrun.
  repeat decoded_step Hrun.
  pose proof (byte_to_Z_range x) as Hx_range.
  destruct (Z.leb_spec ProtobufBlockVersion (byte_to_Z x)) as [Hge | Hlt];
    [discriminate Hrun |].
  repeat decoded_step Hrun.
  rewrite (bind_lift_Val _ _ (NewBlockIDFromBytes_signature l0 ltac:(lia))) in Hrun.
  repeat decoded_step Hrun.
  cbv zeta in Hrun.
  repeat decoded_step Hrun.
  destruct (Z.leb_spec NgBlockVersion (byte_to_Z x)) as [Hng | Hold].
  - destruct (Z.ltb_spec (be_decode l4) 4) as [Hsmall | Hbig];
      [decoded_step Hrun |].
    repeat decoded_step Hrun.
    destruct (Z.leb_spec RewardBlockVersion (byte_to_Z x)) as [Hreward | Hnoreward];
      repeat decoded_step Hrun.
    all: unfold wrap in Hrun.
    all: rewrite GenerateBlockID_legacy in Hrun by exact Hlt.
    all: injection Hrun as <-.
    all: unfold BlockHeader.BlockID, BlockID.IsValid, BlockHeader.GenSignature.
    all: norm_block; cbn [BlockID.NewBlockIDFromSignature BlockID.idType].
    all: rewrite (proj2 (Z.ltb_lt _ _)) by exact Hlt.
    all: rewrite (proj2 (Z.leb_gt _ _)) by exact Hlt.
    all: rewrite !length_copy, length_zeros, repeat_length.
    all: pose proof (be_decode_nonneg l6).
    all: repeat split; try lia; try reflexivity.
    all: exists x; split; [exact Hx | reflexivity].
  - destruct (Z.ltb_spec (be_decode l4) 1) as [Hsmall | Hbig];
      [decoded_step Hrun |].
    repeat decoded_step Hrun.
    unfold wrap in Hrun.
    rewrite GenerateBlockID_legacy in Hrun by exact Hlt.
    injection Hrun as <-.
    unfold BlockHeader.BlockID, BlockID.IsValid, BlockHeader.GenSignature.
    norm_block. cbn [BlockID.NewBlockIDFromSignature BlockID.idType].
    rewrite (proj2 (Z.ltb_lt _ _)) by exact Hlt.
    rewrite (proj2 (Z.leb_gt _ _)) by exact Hlt.
    rewrite !length_copy, length_zeros.
    pose proof (byte_to_Z_range x0).
    unfold NgBlockVersion, RewardBlockVersion in *.
    repeat split; try lia; try reflexivity.
    exists x. split; [exact Hx | reflexivity].
Qed.

End HeaderDecodeGuarantees.

(* ------------------------------------------------------------------ *)
(** ** What a successful block decoding guarantees *)

Section BlockDecodeGuarantees.
Context {T : Type} `{Transaction T} `{Crypto} `{Protobuf}.

Lemma BytesToTransactions_length
      (count : nat) (data : list byte) (scheme : Scheme) (txs : list T) :
  Transactions.BytesToTransactions count data scheme = Val txs ->
  length txs = count.
Proof.
  revert data txs. induction count as [| count IH]; intros data txs Hread.
  - injection Hread as <-. reflexivity.
  - cbn [Transactions.BytesToTransactions] in Hread.
    destruct (length data <? 4)%nat; [discriminate |].
    destruct (length data <? 4 + _)%nat; [discriminate |].
    destruct (BytesToTransaction _ scheme) as [tx | e |]; try discriminate.
    cbn [obind] in Hread.
    destruct (Transactions.BytesToTransactions count _ scheme) as [rest | e |] eqn:Hrest;
      try discriminate.
    injection Hread as <-. cbn [length]. f_equal. apply (IH _ _ Hrest).
Qed.

Lemma bind_read_transactions_Val
      (transBytes : list byte) (scheme : Scheme)
      (k : unit -> M (Block.t T) unit) (s s' : Block.t T) :
  bind (Block.read_transactions transBytes scheme) k s = (s', Val tt) ->
  exists txs : list T,
    Transactions.NewTransactionsFromBytes
      transBytes (BlockHeader.TransactionCount (Block.BlockHeader s)) scheme
    = Val txs /\
    k tt (Block.set_Transactions txs s) = (s', Val tt).
Proof.
  unfold bind, Block.read_transactions.
  destruct (Transactions.NewTransactionsFromBytes _ _ scheme) as [txs | e |];
    try discriminate.
  intro Hrun. exists txs. split; [reflexivity | exact Hrun].
Qed.

(** X25: whatever the input, a block that [Block.UnmarshalBinary]
    returned without error has a version below 5 taken from the first
    byte, a signature parent valid for that version, an [ID] derived
    from the decoded block signature, a 32-byte generation signature,
    reward vote -1 below the Reward version, no features below the Ng
    version and as many features as the features count from there on,
    and as many transactions as the transaction count, which is below
    256 before the Ng version.  The receiver's transactions root, state
    hash and challenged header are not written. *)
Theorem UnmarshalBinary_guarantees :
  forall (data : Slice) (scheme : Scheme) (b b' : Block.t T),
    Block.UnmarshalBinary data scheme b = (b', Returns None) ->
    let h' := Block.BlockHeader b' in
    let v := BlockHeader.Version h' in
    (exists first : byte, index data 0 = Val first /\ v = byte_to_Z first) /\
    0 <= v < ProtobufBlockVersion /\
    BlockID.IsValid (BlockHeader.Parent h') v = true /\
    BlockHeader.ID h' = BlockID.NewBlockIDFromSignature (BlockHeader.BlockSignature h') /\
    BlockHeader.BlockID h' = BlockHeader.ID h' /\
    length (BlockHeader.GenSignature h') = 32%nat /\
    Z.of_nat (length (Block.Transactions b')) = BlockHeader.TransactionCount h' /\
    (v < RewardBlockVersion -> BlockHeader.RewardVote h' = -1) /\
    (v < NgBlockVersion ->
     BlockHeader.Features h' = [] /\
     1 <= BlockHeader.TransactionBlockLength h' /\
     BlockHeader.TransactionCount h' < 256) /\
    (NgBlockVersion <= v ->
     Z.of_nat (length (BlockHeader.Features h')) = BlockHeader.FeaturesCount h' /\
     4 <= BlockHeader.TransactionBlockLength h') /\
    96 <= len data /\
    BlockHeader.TransactionsRoot h' = BlockHeader.TransactionsRoot (Block.BlockHeader b) /\
    BlockHeader.StateHash h' = BlockHeader.StateHash (Block.BlockHeader b) /\
    BlockHeader.ChallengedHeader h'
    = BlockHeader.ChallengedHeader (Block.BlockHeader b).
Proof.
  intros data scheme b b' Hdecode.
  destruct b as [[v0 ts0 p0 fc0 fs0 rv0 cbl0 [bt0 gs0] tbl0 tc0 pk0 sg0 tr0 sh0 ch0 id0] txs0].
  unfold Block.UnmarshalBinary, recover_invalid_data_size in Hdecode.
  match type of Hdecode with
  | (let (_, _) := ?run in _) = _ =>
      destruct run as [b1 [u | e |]] eqn:Hrun; try discriminate Hdecode
  end.
  injection Hdecode as ->. destruct u.
  unfold Block.UnmarshalBinary_body in Hrun.
  repeat decoded_step Hrun.
  pose proof (byte_to_Z_range x) as Hx_range.
  destruct (Z.leb_spec ProtobufBlockVersion (byte_to_Z x)) as [Hge | Hlt];
    [discriminate Hrun |].
  repeat decoded_step Hrun.
  rewrite (bind_lift_Val _ _ (NewBlockIDFromBytes_signature l0 ltac:(lia))) in Hrun.
  repeat decoded_step Hrun.
  cbv zeta in Hrun.
  repeat decoded_step Hrun.
  destruct (Z.leb_spec NgBlockVersion (byte_to_Z x)) as [Hng | Hold].
  - destruct (Z.ltb_spec (be_decode l4) 4) as [Hsmall | Hbig];
      [decoded_step Hrun |].
    repeat decoded_step Hrun.
    apply bind_read_transactions_Val in Hrun.
    destruct Hrun as [txs [Hread Hrun]].
    unfold Block.set_Transactions in Hrun.
    cbn [Block.BlockHeader Block.Transactions BlockHeader.TransactionCount] in Hread, Hrun.
    apply BytesToTransactions_length in Hread.
    pose proof (be_decode_nonneg l5) as Hcount.
    repeat decoded_step Hrun.
    destruct (Z.leb_spec RewardBlockVersion (byte_to_Z x)) as [Hreward | Hnoreward];
      repeat decoded_step Hrun.
    all: unfold wrap, Block.on_header in Hrun.
    all: cbn [Block.BlockHeader Block.Transactions] in Hrun.
    all: rewrite GenerateBlockID_legacy in Hrun by exact Hlt.
    all: injection Hrun as <-.
    all: unfold BlockHeader.BlockID, BlockID.IsValid, BlockHeader.GenSignature.
    all: norm_block; cbn [BlockID.NewBlockIDFromSignature BlockID.idType].
    all: rewrite (proj2 (Z.ltb_lt _ _)) by exact Hlt.
    all: rewrite (proj2 (Z.leb_gt _ _)) by exact Hlt.
    all: rewrite !length_copy, length_zeros, repeat_length.
    all: pose proof (be_decode_nonneg l7).
    all: repeat split; try lia; try reflexivity.
    all: exists x; split; [exact Hx | reflexivity].
  - destruct (Z.ltb_spec (be_decode l4) 1) as [Hsmall | Hbig];
      [decoded_step Hrun |].
    repeat decoded_step Hrun.
    apply bind_read_transactions_Val in Hrun.
    destruct Hrun as [txs [Hread Hrun]].
    unfold Block.set_Transactions in Hrun.
    cbn [Block.BlockHeader Block.Transactions BlockHeader.TransactionCount] in Hread, Hrun.
    apply BytesToTransactions_length in Hread.
    pose proof (byte_to_Z_range x0) as Hcount.
    repeat decoded_step Hrun.
    unfold wrap, Block.on_header in Hrun.
    cbn [Block.BlockHeader Block.Transactions] in Hrun.
    rewrite GenerateBlockID_legacy in Hrun by exact Hlt.
    injection Hrun as <-.
    unfold BlockHeader.BlockID, BlockID.IsValid, BlockHeader.GenSignature.
    norm_block. cbn [BlockID.NewBlockIDFromSignature BlockID.idType].
    rewrite (proj2 (Z.ltb_lt _ _)) by exact Hlt.
    rewrite (proj2 (Z.leb_gt _ _)) by exact Hlt.
    rewrite !length_copy, length_zeros.
    unfold NgBlockVersion, RewardBlockVersion in *.
    repeat split; try lia; try reflexivity.
    exists x. split; [exact Hx | reflexivity].
Qed.

End BlockDecodeGuarantees.

(* ------------------------------------------------------------------ *)
(** ** Header bytes and transaction bytes put together *)

Lemma skipn_zeros (n k : nat) : skipn n (zeros (n + k)) = zeros k.
Proof.
  unfold zeros. induction n as [| n IH]; [reflexivity | exact IH].
Qed.

Lemma assemble_by_copy (before transactions rest : list byte) :
  let res := zeros (length before + length rest + length transactions) in
  let res := copy res before in
  let filled := length before in
  let res := firstn filled res ++ copy (skipn filled res) transactions in
  let filled := (filled + length transactions)%nat in
  firstn filled res ++ copy (skipn filled res) rest
  = before ++ transactions ++ rest.
Proof.
  cbv zeta.
  assert (Hfirst :
    copy (zeros (length before + length rest + length transactions)) before
    = before ++ zeros (length transactions + length rest)).
  { rewrite copy_prefix by (rewrite length_zeros; lia).
    f_equal.
    replace (length before + length rest + length transactions)%nat
      with (length before + (length transactions + length rest))%nat by lia.
    apply skipn_zeros. }
  rewrite Hfirst.
  rewrite (@firstn_app_exact _ before _ (length before)) by reflexivity.
  rewrite (@skipn_app_exact _ before _ (length before)) by reflexivity.
  assert (Hsecond :
    copy (zeros (length transactions + length rest)) transactions
    = transactions ++ zeros (length rest)).
  { rewrite copy_prefix by (rewrite length_zeros; lia).
    rewrite skipn_zeros. reflexivity. }
  rewrite Hsecond.
  rewrite (app_assoc before transactions).
  rewrite (@firstn_app_exact _ (before ++ transactions) _
             (length before + length transactions))
    by (rewrite length_app; reflexivity).
  rewrite (@skipn_app_exact _ (before ++ transactions) _
             (length before + length transactions))
    by (rewrite length_app; reflexivity).
  rewrite copy_full by (rewrite length_zeros; reflexivity).
  rewrite <- app_assoc. reflexivity.
Qed.

Lemma reslice_prefix (d : Slice) (hi : Z) :
  0 <= hi <= len d ->
  reslice d 0 hi = Val (firstn (Z.to_nat hi) (elems d)).
Proof.
  intros Hhi. unfold reslice, cap, len in *.
  replace ((0 <=? 0) && (0 <=? hi) &&
           (hi <=? Z.of_nat (length (elems d) + length (spare d))))
    with true by (symmetry; rewrite !andb_true_iff, !Z.leb_le; lia).
  f_equal. rewrite Z.sub_0_r. cbn [Z.to_nat skipn].
  rewrite firstn_app.
  replace (Z.to_nat hi - length (elems d))%nat with 0%nat by lia.
  cbn [firstn]. apply app_nil_r.
Qed.

Lemma reslice_from_suffix (d : Slice) (lo : Z) :
  0 <= lo <= len d ->
  reslice_from d lo = Val (skipn (Z.to_nat lo) (elems d)).
Proof.
  intros Hlo. unfold reslice_from, reslice, cap, len in *.
  replace ((0 <=? lo) && (lo <=? Z.of_nat (length (elems d))) &&
           (Z.of_nat (length (elems d))
            <=? Z.of_nat (length (elems d) + length (spare d))))
    with true by (symmetry; rewrite !andb_true_iff, !Z.leb_le; lia).
  f_equal. rewrite skipn_app.
  replace (Z.to_nat lo - length (elems d))%nat with 0%nat by lia.
  cbn [skipn]. rewrite firstn_app.
  rewrite firstn_all2 by (rewrite length_skipn; lia).
  rewrite length_skipn.
  replace (Z.to_nat (Z.of_nat (length (elems d)) - lo)
           - (length (elems d) - Z.to_nat lo))%nat with 0%nat by lia.
  cbn [firstn]. apply app_nil_r.
Qed.

Lemma index_in_range (d : Slice) (i : Z) :
  0 <= i < len d -> exists x : byte, index d i = Val x.
Proof.
  intro Hi. unfold index.
  replace ((0 <=? i) && (i <? len d)) with true
    by (symmetry; rewrite andb_true_iff, Z.leb_le, Z.ltb_lt; lia).
  eexists. reflexivity.
Qed.

Lemma reslice_in_range (d : Slice) (lo hi : Z) :
  0 <= lo <= hi -> hi <= cap d -> exists l : list byte, reslice d lo hi = Val l.
Proof.
  intros Hlo Hhi. unfold reslice.
  replace ((0 <=? lo) && (lo <=? hi) && (hi <=? cap d)) with true
    by (symmetry; rewrite !andb_true_iff, !Z.leb_le; lia).
  eexists. reflexivity.
Qed.

Lemma len_le_cap (d : Slice) : len d <= cap d.
Proof. unfold len, cap. lia. Qed.

(** Where [AppendHeaderBytesToTransactions] cuts the header, given the
    size it attributes to the features. *)
Lemma AppendHeaderBytesToTransactions_cut
      (headerBytes : Slice) (transactions : list byte) (cut : Z) :
  0 <= cut <= len headerBytes ->
  (obind (reslice headerBytes 0 cut) (fun headerBeforeTx =>
   obind (reslice_from headerBytes cut) (fun headerAfterTx =>
   let res := zeros (Z.to_nat (len headerBytes + Z.of_nat (length transactions))) in
   let res := copy res headerBeforeTx in
   let filled := length headerBeforeTx in
   let res := firstn filled res ++ copy (skipn filled res) transactions in
   let filled := (filled + length transactions)%nat in
   let res := firstn filled res ++ copy (skipn filled res) headerAfterTx in
   Val res)))
  = Val (firstn (Z.to_nat cut) (elems headerBytes) ++ transactions ++
         skipn (Z.to_nat cut) (elems headerBytes)).
Proof.
  intro Hcut.
  rewrite reslice_prefix, reslice_from_suffix by exact Hcut. cbn [obind].
  f_equal.
  set (before := firstn (Z.to_nat cut) (elems headerBytes)).
  set (rest := skipn (Z.to_nat cut) (elems headerBytes)).
  replace (Z.to_nat (len headerBytes + Z.of_nat (length transactions)))
    with (length before + length rest + length transactions)%nat.
  - apply assemble_by_copy.
  - subst before rest. rewrite length_firstn, length_skipn. unfold len in *. lia.
Qed.

(** X18: [AppendHeaderBytesToTransactions] never panics.  It either
    reports "insufficient header data size" or returns the header bytes
    with the transaction bytes inserted at one cut, so the result is as
    long as both inputs together; the cut lies 96 bytes before the end
    of the header, and from the Ng version on a further four bytes and
    two bytes per feature counted at offset 125. *)
Theorem AppendHeaderBytesToTransactions_inserts :
  forall (headerBytes : Slice) (transactions : list byte),
    match AppendHeaderBytesToTransactions headerBytes transactions with
    | Val res =>
        exists (first : byte) (featuresSize : Z),
          index headerBytes 0 = Val first /\
          (if NgBlockVersion <=? byte_to_Z first
           then exists fc : list byte,
                  reslice headerBytes 125 129 = Val fc /\
                  featuresSize = be_decode fc * 2 + 4
           else featuresSize = 0) /\
          let cut := Z.to_nat (len headerBytes - 96 - featuresSize) in
          96 + featuresSize <= len headerBytes /\
          res = firstn cut (elems headerBytes) ++ transactions ++
                skipn cut (elems headerBytes) /\
          Z.of_nat (length res) = len headerBytes + Z.of_nat (length transactions)
    | Fail e => e = errors_New "insufficient header data size"
    | Panic => False
    end.
Proof.
  intros headerBytes transactions. unfold AppendHeaderBytesToTransactions.
  cbv zeta.
  destruct (Z.ltb_spec (len headerBytes) 1) as [Hempty | Hsome]; [reflexivity |].
  destruct (index_in_range headerBytes 0 ltac:(lia)) as [first Hfirst].
  rewrite Hfirst. cbn [obind].
  assert (Hresult :
    forall featuresSize : Z,
      0 <= featuresSize ->
      match
        (if len headerBytes <? PublicKeySize + SignatureSize + featuresSize
         then Fail (errors_New "insufficient header data size")
         else
           obind (reslice headerBytes 0
                    (len headerBytes - PublicKeySize - SignatureSize - featuresSize))
             (fun headerBeforeTx =>
           obind (reslice_from headerBytes
                    (len headerBytes - PublicKeySize - SignatureSize - featuresSize))
             (fun headerAfterTx =>
           Val
             (firstn (length headerBeforeTx + length transactions)
                (firstn (length headerBeforeTx)
                   (copy (zeros (Z.to_nat (len headerBytes
                                           + Z.of_nat (length transactions))))
                      headerBeforeTx) ++
                 copy (skipn (length headerBeforeTx)
                         (copy (zeros (Z.to_nat (len headerBytes
                                                 + Z.of_nat (length transactions))))
                            headerBeforeTx)) transactions) ++
              copy (skipn (length headerBeforeTx + length transactions)
                      (firstn (length headerBeforeTx)
                         (copy (zeros (Z.to_nat (len headerBytes
                                                 + Z.of_nat (length transactions))))
                            headerBeforeTx) ++
                       copy (skipn (length headerBeforeTx)
                               (copy (zeros (Z.to_nat (len headerBytes
                                                       + Z.of_nat (length transactions))))
                                  headerBeforeTx)) transactions))
                headerAfterTx))))
      with
      | Val res =>
          let cut := Z.to_nat (len headerBytes - 96 - featuresSize) in
          96 + featuresSize <= len headerBytes /\
          res = firstn cut (elems headerBytes) ++ transactions ++
                skipn cut (elems headerBytes) /\
          Z.of_nat (length res) = len headerBytes + Z.of_nat (length transactions)
      | Fail e => e = errors_New "insufficient header data size"
      | Panic => False
      end).
  { intros featuresSize Hfs. unfold PublicKeySize, SignatureSize.
    destruct (Z.ltb_spec (len headerBytes) (32 + 64 + featuresSize)) as [Hshort | Hlong];
      [reflexivity |].
    pose proof (AppendHeaderBytesToTransactions_cut headerBytes transactions
                  (len headerBytes - 32 - 64 - featuresSize) ltac:(lia)) as Hcut.
    cbv zeta in Hcut. rewrite Hcut.
    replace (len headerBytes - 32 - 64 - featuresSize)
      with (len headerBytes - 96 - featuresSize) by lia.
    cbv zeta. split; [lia |]. split; [reflexivity |].
    rewrite !length_app, length_firstn, length_skipn. unfold len in *. lia. }
  destruct (Z.leb_spec NgBlockVersion (byte_to_Z first)) as [Hng | Hold].
  - destruct (Z.ltb_spec (len headerBytes) 129) as [Hshort | Hlong]; [reflexivity |].
    destruct (reslice_in_range headerBytes 125 129 ltac:(lia)
                ltac:(pose proof (len_le_cap headerBytes); lia)) as [fc Hfc].
    rewrite Hfc. cbn [obind].
    pose proof (be_decode_nonneg fc) as Hnonneg.
    specialize (Hresult (be_decode fc * 2 + 4) ltac:(lia)).
    match type of Hresult with
    | match ?x with _ => _ end => destruct x as [res | e |]
    end; [| exact Hresult | exact Hresult].
    exists first, (be_decode fc * 2 + 4).
    split; [reflexivity |].
    split; [| exact Hresult].
    rewrite (proj2 (Z.leb_le _ _) Hng). exists fc. split; reflexivity.
  - cbn [obind].
    specialize (Hresult 0 ltac:(lia)).
    match type of Hresult with
    | match ?x with _ => _ end => destruct x as [res | e |]
    end; [| exact Hresult | exact Hresult].
    exists first, 0.
    split; [reflexivity |].
    split; [| exact Hresult].
    rewrite (proj2 (Z.leb_gt _ _) Hold). reflexivity.
Qed.

Lemma concat_firstn_skipn {A : Type} (fs : list (list A)) (k n : nat) :
  n = length (concat (firstn k fs)) ->
  firstn n (concat fs) = concat (firstn k fs) /\
  skipn n (concat fs) = concat (skipn k fs).
Proof.
  intros ->.
  assert (Hsplit : concat fs = concat (firstn k fs) ++ concat (skipn k fs))
    by (rewrite <- concat_app, firstn_skipn; reflexivity).
  rewrite Hsplit at 1 2.
  split.
  - apply firstn_app_exact. reflexivity.
  - apply skipn_app_exact. reflexivity.
Qed.

Lemma MarshalHeaderToBinary_fields (h : BlockHeader.t) (ps : Signature) :
  BlockHeader.Version h < ProtobufBlockVersion ->
  BlockHeader.Parent h = BlockID.NewBlockIDFromSignature ps ->
  length ps = 64%nat ->
  length (BlockHeader.GenSignature h) = 32%nat ->
  BlockHeader.MarshalHeaderToBinary h = Val (concat (header_layout h)).
Proof.
  intros Hv Hparent Hps Hgs.
  unfold BlockHeader.MarshalHeaderToBinary, header_layout.
  replace (ProtobufBlockVersion <=? BlockHeader.Version h) with false
    by (symmetry; apply Z.leb_gt; lia).
  rewrite Hparent.
  change (BlockID.Bytes (BlockID.NewBlockIDFromSignature ps)) with ps.
  rewrite Hps. change (negb (Z.of_nat 64 =? SignatureSize)) with false.
  cbv beta iota zeta.
  rewrite copy_full by (rewrite length_zeros; exact Hgs).
  unfold featuresToBinary. cbn [obind].
  rewrite be_encode_uint64.
  destruct (Z.leb_spec NgBlockVersion (BlockHeader.Version h));
    destruct (Z.leb_spec RewardBlockVersion (BlockHeader.Version h));
    try (unfold NgBlockVersion, RewardBlockVersion in *; lia);
    cbn [obind concat app]; rewrite ?app_nil_r, <- ?app_assoc; reflexivity.
Qed.

Section HeaderAndTransactions.
Context {T : Type} `{Transaction T} `{Crypto} `{Protobuf}.
Variable scheme : Scheme.

(** X19: for a block the legacy layout can carry, the header bytes of
    [MarshalHeaderToBinary] and the transaction bytes of
    [WriteToBinary] are the two parts of [Block.MarshalBinary]: the
    block form is the header form with the transactions inserted right
    after the transaction count, at offset 122 below the Ng version and
    125 from there on.  [AppendHeaderBytesToTransactions] inserts them
    at that offset, and so rebuilds the block form, for every version
    below Reward; for a Reward-version header it inserts them at offset
    133, which is eight bytes further on. *)
Theorem AppendHeaderBytesToTransactions_of_marshalled :
  forall b : Block.t T,
    legacy_encodable scheme b ->
    BlockHeader.FeaturesCount (Block.BlockHeader b) < 2 ^ 32 ->
    exists headerBytes transactions : list byte,
      BlockHeader.MarshalHeaderToBinary (Block.BlockHeader b) = Val headerBytes /\
      Transactions.WriteToBinary (Block.Transactions b) scheme = Val transactions /\
      let inserted_at (offset : nat) :=
        Val (firstn offset headerBytes ++ transactions ++ skipn offset headerBytes) in
      Block.MarshalBinary b scheme
      = inserted_at (if Block.Version b <? NgBlockVersion then 122%nat else 125%nat) /\
      AppendHeaderBytesToTransactions (slice_of headerBytes) transactions
      = inserted_at (if Block.Version b <? NgBlockVersion then 122%nat
                     else if Block.Version b <? RewardBlockVersion then 125%nat
                          else 133%nat) /\
      (Block.Version b < RewardBlockVersion ->
       AppendHeaderBytesToTransactions (slice_of headerBytes) transactions
       = Block.MarshalBinary b scheme).
Proof.
  intros b Henc Hfc32.
  pose proof (MarshalBinary_layout scheme b Henc) as Hblock.
  unfold layout in Hblock.
  destruct Henc as [Hv _ [ps [Hparent Hps]] _ _ Hgs Htxs _ _ Hfs _ Hpk Hsg].
  destruct (WriteToBinary_transactions_bytes scheme _ Htxs) as [Hw _].
  pose proof (MarshalHeaderToBinary_fields (Block.BlockHeader b) ps
                ltac:(unfold Block.Version in Hv; lia) Hparent Hps Hgs) as Hheader.
  exists (concat (header_layout (Block.BlockHeader b))).
  exists (transactions_bytes (Block.Transactions b) scheme).
  split; [exact Hheader |]. split; [exact Hw |].
  cbv zeta.
  set (txb := transactions_bytes (Block.Transactions b) scheme) in *.
  clearbody txb. clear Hw Htxs Hheader.
  destruct b as [[v ts p fc fs rv cbl [bt gs] tbl tc pk sg tr sh ch id] txs].
  unfold Block.Version, layout in *.
  cbn [BlockHeader.Version BlockHeader.Timestamp BlockHeader.Parent BlockHeader.FeaturesCount BlockHeader.Features BlockHeader.RewardVote BlockHeader.ConsensusBlockLength BlockHeader.NxtConsensus BlockHeader.TransactionBlockLength BlockHeader.TransactionCount BlockHeader.GeneratorPublicKey BlockHeader.BlockSignature BlockHeader.TransactionsRoot BlockHeader.StateHash BlockHeader.ChallengedHeader BlockHeader.ID BlockHeader.BaseTarget BlockHeader.GenSignature NxtConsensus.BaseTarget NxtConsensus.GenSignature Block.BlockHeader Block.Transactions] in *.
  subst p. unfold header_layout.
  cbn [BlockHeader.Version BlockHeader.Timestamp BlockHeader.Parent BlockHeader.FeaturesCount BlockHeader.Features BlockHeader.RewardVote BlockHeader.ConsensusBlockLength BlockHeader.NxtConsensus BlockHeader.TransactionBlockLength BlockHeader.TransactionCount BlockHeader.GeneratorPublicKey BlockHeader.BlockSignature BlockHeader.TransactionsRoot BlockHeader.StateHash BlockHeader.ChallengedHeader BlockHeader.ID BlockHeader.BaseTarget BlockHeader.GenSignature NxtConsensus.BaseTarget NxtConsensus.GenSignature].
  change (BlockID.Bytes (BlockID.NewBlockIDFromSignature ps)) with ps in *.
  assert (Hcases : v = 0 \/ v = 1 \/ v = 2 \/ v = 3 \/ v = 4)
    by (unfold ProtobufBlockVersion in Hv; lia).
  assert (Hinsert :
    forall (fields : list (list byte)) (offset : nat),
      offset = length (concat (firstn 8 fields)) ->
      Val (firstn offset (concat fields) ++ txb ++ skipn offset (concat fields))
      = Val (concat (firstn 8 fields ++ [txb] ++ skipn 8 fields))).
  { intros fields offset Hoffset.
    destruct (concat_firstn_skipn fields 8 offset Hoffset) as [-> ->].
    rewrite !concat_app. cbn [concat]. rewrite app_nil_r. reflexivity. }
  assert (Hblock_form :
    forall offset : nat,
      offset = (if v <? NgBlockVersion then 122%nat else 125%nat) ->
      Block.MarshalBinary
        {| Block.BlockHeader :=
             {| BlockHeader.Version := v; BlockHeader.Timestamp := ts;
                BlockHeader.Parent := BlockID.NewBlockIDFromSignature ps;
                BlockHeader.FeaturesCount := fc; BlockHeader.Features := fs;
                BlockHeader.RewardVote := rv;
                BlockHeader.ConsensusBlockLength := cbl;
                BlockHeader.NxtConsensus :=
                  {| NxtConsensus.BaseTarget := bt;
                     NxtConsensus.GenSignature := gs |};
                BlockHeader.TransactionBlockLength := tbl;
                BlockHeader.TransactionCount := tc;
                BlockHeader.GeneratorPublicKey := pk;
                BlockHeader.BlockSignature := sg;
                BlockHeader.TransactionsRoot := tr; BlockHeader.StateHash := sh;
                BlockHeader.ChallengedHeader := ch; BlockHeader.ID := id |};
           Block.Transactions := txs |} scheme
      = Val (firstn offset
               (concat
                  [[Z_to_byte v]; be_encode 8 ts; ps; be_encode 4 cbl;
                   be_encode 8 bt; gs; be_encode 4 tbl;
                   if NgBlockVersion <=? v
                   then be_encode 4 (uint32 tc) else [Z_to_byte tc];
                   if NgBlockVersion <=? v then be_encode 4 (uint32 fc) else [];
                   if NgBlockVersion <=? v
                   then flat_map (be_encode 2) fs else [];
                   if RewardBlockVersion <=? v then be_encode 8 rv else [];
                   pk; sg]) ++
             txb ++
             skipn offset
               (concat
                  [[Z_to_byte v]; be_encode 8 ts; ps; be_encode 4 cbl;
                   be_encode 8 bt; gs; be_encode 4 tbl;
                   if NgBlockVersion <=? v
                   then be_encode 4 (uint32 tc) else [Z_to_byte tc];
                   if NgBlockVersion <=? v then be_encode 4 (uint32 fc) else [];
                   if NgBlockVersion <=? v
                   then flat_map (be_encode 2) fs else [];
                   if RewardBlockVersion <=? v then be_encode 8 rv else [];
                   pk; sg]))).
  { intros offset ->. rewrite Hblock. rewrite Hinsert; [reflexivity |].
    destruct Hcases as [-> | [-> | [-> | [-> | ->]]]];
      cbn [Z.ltb Z.leb Z.compare Pos.compare Pos.compare_cont NgBlockVersion];
      field_lengths. }
  assert (Happend :
    AppendHeaderBytesToTransactions
      (slice_of
         (concat
            [[Z_to_byte v]; be_encode 8 ts; ps; be_encode 4 cbl;
             be_encode 8 bt; gs; be_encode 4 tbl;
             if NgBlockVersion <=? v
             then be_encode 4 (uint32 tc) else [Z_to_byte tc];
             if NgBlockVersion <=? v then be_encode 4 (uint32 fc) else [];
             if NgBlockVersion <=? v then flat_map (be_encode 2) fs else [];
             if RewardBlockVersion <=? v then be_encode 8 rv else [];
             pk; sg])) txb
    = Val (firstn (if v <? NgBlockVersion then 122%nat
                   else if v <? RewardBlockVersion then 125%nat else 133%nat)
             (concat
                [[Z_to_byte v]; be_encode 8 ts; ps; be_encode 4 cbl;
                 be_encode 8 bt; gs; be_encode 4 tbl;
                 if NgBlockVersion <=? v
                 then be_encode 4 (uint32 tc) else [Z_to_byte tc];
                 if NgBlockVersion <=? v then be_encode 4 (uint32 fc) else [];
                 if NgBlockVersion <=? v then flat_map (be_encode 2) fs else [];
                 if RewardBlockVersion <=? v then be_encode 8 rv else [];
                 pk; sg]) ++
           txb ++
           skipn (if v <? NgBlockVersion then 122%nat
                  else if v <? RewardBlockVersion then 125%nat else 133%nat)
             (concat
                [[Z_to_byte v]; be_encode 8 ts; ps; be_encode 4 cbl;
                 be_encode 8 bt; gs; be_encode 4 tbl;
                 if NgBlockVersion <=? v
                 then be_encode 4 (uint32 tc) else [Z_to_byte tc];
                 if NgBlockVersion <=? v then be_encode 4 (uint32 fc) else [];
                 if NgBlockVersion <=? v then flat_map (be_encode 2) fs else [];
                 if RewardBlockVersion <=? v then be_encode 8 rv else [];
                 pk; sg]))).
  { unfold AppendHeaderBytesToTransactions. cbv zeta.
    destruct Hcases as [-> | [-> | [-> | [-> | ->]]]];
      cbn [Z.ltb Z.leb Z.compare Pos.compare Pos.compare_cont
           NgBlockVersion RewardBlockVersion] in *.
    all: match goal with
         | |- context [index (slice_of (concat ?fields)) 0] =>
             rewrite (@index_concat fields 0%nat 0 _
                        ltac:(cbn [length]; lia) eq_refl ltac:(field_lengths))
         end.
    all: unfold NgBlockVersion, RewardBlockVersion, ProtobufBlockVersion in *.
    all: cbn [obind]; rewrite byte_to_Z_to_byte.
    all: match goal with
         | |- context [?v mod 256] =>
             change (v mod 256) with v
         end.
    all: cbn [Z.leb Z.compare Pos.compare Pos.compare_cont].
    4-5: destruct (Hfs ltac:(lia)) as [Hfc _].
    4-5: match goal with
         | |- context [reslice (slice_of (concat ?fields)) 125 129] =>
             rewrite (@reslice_concat fields 8%nat 125 129
                        ltac:(cbn [length]; lia) ltac:(field_lengths)
                        ltac:(field_lengths))
         end.
    4-5: cbn [nth obind]; u32; rewrite be32_roundtrip by lia.
    1-3: match goal with
         | |- context [len (slice_of ?l)] =>
             assert (Hlen : len (slice_of l) = 218)
               by (rewrite len_slice_of; field_lengths)
         end.
    4: match goal with
       | |- context [len (slice_of ?l)] =>
           assert (Hlen : len (slice_of l) = 225 + 2 * fc)
             by (rewrite len_slice_of; field_lengths)
       end.
    5: match goal with
       | |- context [len (slice_of ?l)] =>
           assert (Hlen : len (slice_of l) = 233 + 2 * fc)
             by (rewrite len_slice_of; field_lengths)
       end.
    all: unfold PublicKeySize, SignatureSize.
    all: repeat match goal with
                | |- context [len ?d <? ?n] =>
                    rewrite (proj2 (Z.ltb_ge (len d) n)) by (rewrite Hlen; lia);
                    cbn [obind]
                end.
    all: match goal with
         | |- context [reslice ?d 0 ?cut] =>
             pose proof (AppendHeaderBytesToTransactions_cut d txb cut
                           ltac:(rewrite Hlen; lia)) as Hcut;
             cbv zeta in Hcut; rewrite Hcut; clear Hcut
         end.
    all: cbn [slice_of elems]; rewrite Hlen.
    1-3: replace (Z.to_nat (218 - 32 - 64 - 0)) with 122%nat by lia.
    4: replace (Z.to_nat (225 + 2 * fc - 32 - 64 - (fc * 2 + 4))) with 125%nat by lia.
    5: replace (Z.to_nat (233 + 2 * fc - 32 - 64 - (fc * 2 + 4))) with 133%nat by lia.
    all: reflexivity. }
  split; [apply Hblock_form; reflexivity |].
  split; [exact Happend |].
  intro Hlegacy.
  etransitivity; [exact Happend |]. symmetry.
  etransitivity; [apply Hblock_form; reflexivity |].
  destruct Hcases as [-> | [-> | [-> | [-> | ->]]]];
    try reflexivity.
  unfold RewardBlockVersion in Hlegacy. lia.
Qed.

End HeaderAndTransactions.

Section HeaderAndTransactionsOnSamples.
Import Sample.

Lemma AppendHeaderBytesToTransactions_of_marshalled_witness :
  exists headerBytes transactions : list byte,
    BlockHeader.MarshalHeaderToBinary (Block.BlockHeader (plain_block 0))
    = Val headerBytes /\
    AppendHeaderBytesToTransactions (slice_of headerBytes) transactions
    = Block.MarshalBinary (plain_block 0) scheme.
Proof.
  destruct (AppendHeaderBytesToTransactions_of_marshalled scheme (plain_block 0)
              (plain_block_encodable 0))
    as [headerBytes [transactions [Hheader [_ [_ [_ Hsame]]]]]].
  - vm_compute. reflexivity.
  - exists headerBytes, transactions. split; [exact Hheader |].
    apply Hsame. vm_compute. reflexivity.
Defined.

(** On the Reward-version sample the two forms differ: after the
    features count at offset 125 the assembled bytes go on with the
    feature votes, the block form with the first transaction. *)
Example reward_block_assembled_differs :
  exists headerBytes transactions assembled : list byte,
    BlockHeader.MarshalHeaderToBinary (Block.BlockHeader reward_block)
    = Val headerBytes /\
    Transactions.WriteToBinary (Block.Transactions reward_block) scheme
    = Val transactions /\
    AppendHeaderBytesToTransactions (slice_of headerBytes) transactions
    = Val assembled /\
    firstn 4 (skipn 129 assembled) = be_encode 2 14 ++ be_encode 2 (-2) /\
    firstn 2 (skipn 129 (marshalled reward_block)) = [x0a; x0b] /\
    assembled <> marshalled reward_block.
Proof.
  eexists. eexists. eexists.
  split; [vm_compute; reflexivity |].
  split; [vm_compute; reflexivity |].
  split; [vm_compute; reflexivity |].
  vm_compute. repeat split. discriminate.
Qed.

End HeaderAndTransactionsOnSamples.

(* ------------------------------------------------------------------ *)
(** ** Transaction lists *)

Section TransactionLists.
Context {T : Type} `{Transaction T} `{SignedProtobuf T}.
Variable scheme : Scheme.

Lemma slice_lengths (l sp : list byte) :
  len {| elems := l; spare := sp |} = Z.of_nat (length l) /\
  cap {| elems := l; spare := sp |} = Z.of_nat (length l + length sp).
Proof. split; reflexivity. Qed.

Lemma reslice_app_front (front back sp : list byte) (lo hi : Z) :
  0 <= lo <= hi ->
  hi <= Z.of_nat (length front) ->
  reslice {| elems := front ++ back; spare := sp |} lo hi
  = Val (firstn (Z.to_nat (hi - lo)) (skipn (Z.to_nat lo) front)).
Proof.
  intros Hlo Hhi. unfold reslice, cap. cbn [elems spare].
  replace ((0 <=? lo) && (lo <=? hi) &&
           (hi <=? Z.of_nat (length (front ++ back) + length sp)))
    with true
    by (symmetry; rewrite !andb_true_iff, !Z.leb_le, length_app; lia).
  f_equal. rewrite <- app_assoc, skipn_app, firstn_app.
  rewrite length_skipn.
  replace (Z.to_nat (hi - lo) - (length front - Z.to_nat lo))%nat with 0%nat by lia.
  cbn [firstn]. apply app_nil_r.
Qed.

(** The loop of [UnmarshalFromProtobuf] reads the written entries one
    by one and goes on with what follows them. *)
Lemma unmarshal_loop_written
      (txs : list T) (data tail sp : list byte) (acc : list T) (rounds : nat) :
  Forall (signed_roundtrips scheme) txs ->
  Transactions.write_signed_protobuf txs scheme = Val data ->
  (length (data ++ tail) <= rounds)%nat ->
  exists rounds' : nat,
    (length tail <= rounds')%nat /\
    Transactions.unmarshal_loop rounds {| elems := data ++ tail; spare := sp |} acc
    = Transactions.unmarshal_loop rounds' {| elems := tail; spare := sp |} (acc ++ txs).
Proof.
  intro Htxs. revert data acc rounds.
  induction Htxs as [| tx txs [bs [Hm [Hu Hbs]]] Htxs IH];
    intros data acc rounds Hwrite Hrounds.
  - cbn [Transactions.write_signed_protobuf] in Hwrite. injection Hwrite as <-.
    exists rounds. rewrite app_nil_r. cbn [app] in *. split; [exact Hrounds | reflexivity].
  - cbn [Transactions.write_signed_protobuf] in Hwrite.
    rewrite Hm in Hwrite. cbn [obind] in Hwrite.
    destruct (Transactions.write_signed_protobuf txs scheme) as [rest | e |] eqn:Hrest;
      try discriminate Hwrite.
    cbn [obind] in Hwrite.
    rewrite uint32_small in Hwrite by lia.
    set (prefix := be_encode 4 (Z.of_nat (length bs))) in Hwrite.
    assert (Hprefix : length prefix = 4%nat) by apply length_be_encode.
    assert (Hdecode : be_decode prefix = Z.of_nat (length bs))
      by (apply be32_roundtrip; lia).
    clearbody prefix. injection Hwrite as <-.
    rewrite !length_app, Hprefix in Hrounds.
    destruct rounds as [| rounds]; [lia |].
    cbn [Transactions.unmarshal_loop].
    destruct (slice_lengths ((prefix ++ bs ++ rest) ++ tail) sp) as [Hlen _].
    rewrite Hlen, !length_app, Hprefix.
    rewrite (proj2 (Z.leb_gt _ _)) by lia.
    rewrite <- !app_assoc.
    rewrite (reslice_app_front prefix _ sp 0 4) by (rewrite ?Hprefix; lia).
    cbn [obind]. change (Z.to_nat (4 - 0)) with 4%nat.
    change (Z.to_nat 0) with 0%nat. cbn [skipn].
    rewrite firstn_all2 by (rewrite Hprefix; lia).
    rewrite Hdecode.
    rewrite (proj2 (Z.ltb_ge _ _)) by lia.
    rewrite (app_assoc prefix bs).
    rewrite (reslice_app_front (prefix ++ bs) _ sp 4 (Z.of_nat (length bs) + 4))
      by (rewrite ?length_app, ?Hprefix; lia).
    replace (Z.to_nat (Z.of_nat (length bs) + 4 - 4)) with (length bs) by lia.
    change (Z.to_nat 4) with 4%nat.
    rewrite (@skipn_app_exact _ prefix bs 4) by exact Hprefix.
    rewrite firstn_all. cbn [obind]. rewrite Hu. cbn [obind].
    unfold Transactions.slice_from.
    destruct (slice_lengths ((prefix ++ bs) ++ rest ++ tail) sp) as [Hlen' _].
    rewrite Hlen', !length_app, Hprefix.
    replace ((0 <=? Z.of_nat (length bs) + 4) &&
             (Z.of_nat (length bs) + 4
              <=? Z.of_nat (4 + length bs + (length rest + length tail))))
      with true by (symmetry; rewrite andb_true_iff, !Z.leb_le; lia).
    cbn [obind elems spare].
    rewrite (@skipn_app_exact _ (prefix ++ bs))
      by (rewrite length_app, Hprefix; lia).
    destruct (IH rest (acc ++ [tx]) rounds eq_refl
                ltac:(rewrite length_app; lia)) as [rounds' [Hr' Hloop]].
    exists rounds'. split; [exact Hr' |].
    rewrite Hloop, <- app_assoc. reflexivity.
Qed.

(** X20: transactions whose signed protobuf codec inverts itself are
    written by [WriteTo] in protobuf mode as length-prefixed entries
    that [UnmarshalFromProtobuf] reads back, in order, into any
    receiver. *)
Theorem WriteTo_UnmarshalFromProtobuf :
  forall (txs receiver : list T) (sp : list byte),
    Forall (signed_roundtrips scheme) txs ->
    exists data : list byte,
      Transactions.WriteTo true scheme txs = Val data /\
      Transactions.UnmarshalFromProtobuf {| elems := data; spare := sp |} receiver
      = (txs, Val tt).
Proof.
  intros txs receiver sp Htxs.
  assert (Hwritten : exists data, Transactions.write_signed_protobuf txs scheme = Val data).
  { induction Htxs as [| tx txs [bs [Hm _]] _ [rest Hrest]].
    - exists []. reflexivity.
    - eexists. cbn [Transactions.write_signed_protobuf].
      rewrite Hm, Hrest. reflexivity. }
  destruct Hwritten as [data Hdata].
  exists data. split; [exact Hdata |].
  unfold Transactions.UnmarshalFromProtobuf. cbn [elems].
  destruct (unmarshal_loop_written txs data [] sp [] (length data) Htxs Hdata
              ltac:(rewrite app_nil_r; lia)) as [rounds' [_ Hloop]].
  rewrite app_nil_r in Hloop. rewrite Hloop.
  destruct rounds'; reflexivity.
Qed.

(** X21: [UnmarshalFromProtobuf] has no recovery.  After any number of
    well-formed entries, a remainder of one to three bytes in a slice
    without spare capacity makes it panic on the length prefix, and an
    entry whose declared size exceeds what is left is "invalid data
    size"; the receiver keeps its transactions in both cases. *)
Theorem UnmarshalFromProtobuf_malformed_tail :
  forall (txs receiver : list T) (data : list byte),
    Forall (signed_roundtrips scheme) txs ->
    Transactions.WriteTo true scheme txs = Val data ->
    (forall fragment : list byte,
        (0 < length fragment < 4)%nat ->
        Transactions.UnmarshalFromProtobuf (slice_of (data ++ fragment)) receiver
        = (receiver, Panic)) /\
    (forall (size : Z) (body : list byte),
        Z.of_nat (length body) < size < 2 ^ 32 ->
        Transactions.UnmarshalFromProtobuf
          (slice_of (data ++ be_encode 4 size ++ body)) receiver
        = (receiver, Fail (errors_New "invalid data size"))).
Proof.
  intros txs receiver data Htxs Hdata.
  change (Transactions.write_signed_protobuf txs scheme = Val data) in Hdata.
  split.
  - intros fragment Hfragment.
    unfold Transactions.UnmarshalFromProtobuf, slice_of. cbn [elems].
    destruct (unmarshal_loop_written txs data fragment [] [] _ Htxs Hdata
                (Nat.le_refl _)) as [rounds' [Hr' Hloop]].
    rewrite Hloop.
    destruct rounds' as [| rounds']; [lia |].
    cbn [Transactions.unmarshal_loop].
    destruct (slice_lengths fragment []) as [Hlen Hcap].
    rewrite Hlen, (proj2 (Z.leb_gt _ _)) by lia.
    rewrite reslice_out_of_range
      by (right; right; rewrite Hcap; cbn [length]; lia).
    reflexivity.
  - intros size body Hsize.
    unfold Transactions.UnmarshalFromProtobuf, slice_of. cbn [elems].
    destruct (unmarshal_loop_written txs data (be_encode 4 size ++ body) [] [] _
                Htxs Hdata (Nat.le_refl _)) as [rounds' [Hr' Hloop]].
    rewrite Hloop. clear Hloop.
    set (prefix := be_encode 4 size) in *.
    assert (Hprefix : length prefix = 4%nat) by apply length_be_encode.
    assert (Hdecode : be_decode prefix = size) by (apply be32_roundtrip; lia).
    clearbody prefix.
    rewrite length_app, Hprefix in Hr'.
    destruct rounds' as [| rounds']; [lia |].
    cbn [Transactions.unmarshal_loop].
    destruct (slice_lengths (prefix ++ body) []) as [Hlen _].
    rewrite Hlen, length_app, Hprefix.
    rewrite (proj2 (Z.leb_gt _ _)) by lia.
    rewrite (reslice_app_front prefix body [] 0 4) by (rewrite ?Hprefix; lia).
    cbn [obind]. change (Z.to_nat (4 - 0)) with 4%nat.
    change (Z.to_nat 0) with 0%nat. cbn [skipn].
    rewrite firstn_all2 by (rewrite Hprefix; lia).
    rewrite Hdecode.
    rewrite (proj2 (Z.ltb_lt _ _)) by lia. reflexivity.
Qed.

Lemma copy_into_fresh {A : Type} (x : A) (src : list A) (k : nat) :
  copy (repeat x (length src + k)) src = src ++ repeat x k.
Proof.
  rewrite copy_prefix by (rewrite repeat_length; lia).
  f_equal. induction src as [| y src IH]; [reflexivity | exact IH].
Qed.

(** X22: the slice [Join] allocates and fills by two copies holds the
    receiver's transactions followed by the other's, with no nil entry
    left: [Join] is list concatenation and the counts add up. *)
Theorem Join_concatenates :
  forall a other : list T,
    Transactions.JoinCopying a other = map Some (Transactions.Join a other) /\
    Transactions.Count (Transactions.Join a other)
    = Transactions.Count a + Transactions.Count other.
Proof.
  intros a other. split.
  - unfold Transactions.JoinCopying, Transactions.Join, Transactions.Count.
    cbv zeta.
    replace (Z.to_nat (Z.of_nat (length other) + Z.of_nat (length a)))
      with (length (map Some a) + length other)%nat
      by (rewrite length_map; lia).
    rewrite copy_into_fresh, Nat2Z.id.
    rewrite (@firstn_app_exact _ (map Some a)) by apply length_map.
    rewrite (@skipn_app_exact _ (map Some a)) by apply length_map.
    rewrite copy_full by (rewrite repeat_length, length_map; reflexivity).
    rewrite map_app. reflexivity.
  - unfold Transactions.Join, Transactions.Count. rewrite length_app. lia.
Qed.

Lemma BinarySize_WriteToBinary (txs : list T) (data : list byte) :
  Forall (fun tx => forall bs : list byte,
              tx_MarshalBinary tx scheme = Val bs ->
              tx_BinarySize tx = Z.of_nat (length bs)) txs ->
  Transactions.WriteToBinary txs scheme = Val data ->
  Transactions.BinarySize txs = Z.of_nat (length data).
Proof.
  intros Hhonest. revert data.
  induction Hhonest as [| tx txs Htx _ IH]; intros data Hwrite.
  - injection Hwrite as <-. reflexivity.
  - cbn [Transactions.WriteToBinary] in Hwrite.
    destruct (tx_MarshalBinary tx scheme) as [bs | e |] eqn:Hm; try discriminate.
    cbn [obind] in Hwrite.
    destruct (Transactions.WriteToBinary txs scheme) as [rest | e |];
      try discriminate.
    cbn [obind] in Hwrite.
    set (prefix := be_encode 4 _) in Hwrite.
    assert (Hprefix : length prefix = 4%nat) by apply length_be_encode.
    clearbody prefix. injection Hwrite as <-.
    cbn [Transactions.BinarySize].
    rewrite (Htx bs eq_refl), (IH rest eq_refl).
    rewrite !length_app, Hprefix. lia.
Qed.

(** X23: when every transaction reports as [BinarySize] the length of
    its binary form, [Transactions.BinarySize] is the number of bytes
    [WriteToBinary] writes: four bytes of length prefix and the binary
    form per transaction. *)
Theorem BinarySize_is_written_length :
  forall (txs : list T) (data : list byte),
    Forall (fun tx => forall bs : list byte,
                tx_MarshalBinary tx scheme = Val bs ->
                tx_BinarySize tx = Z.of_nat (length bs)) txs ->
    Transactions.WriteToBinary txs scheme = Val data ->
    Transactions.BinarySize txs = Z.of_nat (length data) /\
    Transactions.BinarySize txs
    = 4 * Transactions.Count txs
      + fold_right (fun tx total => tx_BinarySize tx + total) 0 txs.
Proof.
  intros txs data Hhonest Hwrite.
  split; [exact (BinarySize_WriteToBinary txs data Hhonest Hwrite) |].
  clear. unfold Transactions.Count.
  induction txs as [| tx txs IH]; [reflexivity |].
  cbn [Transactions.BinarySize fold_right length]. rewrite IH. lia.
Qed.

End TransactionLists.

Section TransactionListsOnSamples.
Import Sample.

Lemma sample_signed_roundtrips (txs : list tx) :
  Forall (fun t => Z.of_nat (length t) + 1 < 2 ^ 32) txs ->
  Forall (signed_roundtrips scheme) txs.
Proof.
  intro Hsmall. induction Hsmall as [| t txs Ht _ IH]; constructor; [| exact IH].
  exists (x70 :: t). split; [reflexivity |]. split; [reflexivity |].
  cbn [length]. lia.
Qed.

Lemma WriteTo_UnmarshalFromProtobuf_witness :
  exists data : list byte,
    Transactions.WriteTo true scheme [[x0a; x0b]; [x0c]] = Val data /\
    Transactions.UnmarshalFromProtobuf (slice_of data) []
    = ([[x0a; x0b]; [x0c]], Val tt).
Proof.
  apply (WriteTo_UnmarshalFromProtobuf scheme [[x0a; x0b]; [x0c]] [] []).
  apply sample_signed_roundtrips. repeat constructor; cbn [length]; lia.
Defined.

Lemma UnmarshalFromProtobuf_malformed_tail_witness :
  Transactions.UnmarshalFromProtobuf
    (slice_of ([x00; x00; x00; x02; x70; x0c] ++ [x00; x00])) [[x0d]]
  = ([[x0d]], Panic).
Proof.
  destruct (UnmarshalFromProtobuf_malformed_tail scheme [[x0c]] [[x0d]]
              [x00; x00; x00; x02; x70; x0c]) as [Hfragment _].
  - apply sample_signed_roundtrips. repeat constructor; cbn [length]; lia.
  - reflexivity.
  - apply Hfragment. cbn [length]. lia.
Defined.

Lemma BinarySize_is_written_length_witness :
  Transactions.BinarySize [[x0a; x0b]; [x0c]] = 11.
Proof.
  destruct (BinarySize_is_written_length scheme [[x0a; x0b]; [x0c]]
              [x00; x00; x00; x02; x0a; x0b; x00; x00; x00; x01; x0c])
    as [Hsize _].
  - repeat constructor; intros bs Hbs; injection Hbs as <-; reflexivity.
  - reflexivity.
  - exact Hsize.
Defined.

End TransactionListsOnSamples.

(* ------------------------------------------------------------------ *)
(** ** From construction to the wire and back *)

Section CreateThenDecode.
Context {T PBTx : Type}.
Context `{Transaction T} `{Crypto} `{Protobuf} `{ProtobufBlock T PBTx}.
Variable scheme : Scheme.

Lemma created_legacy_encodable
      (txs : list T) (ts : Z) (ps : Signature) (pk : PublicKey)
      (nc : NxtConsensus.t) (version : BlockVersion) (features : list Z)
      (rewardVote : Z) (stateHash : option Digest) (sg : Signature) :
  0 <= version < ProtobufBlockVersion ->
  0 <= ts < 2 ^ 64 ->
  length ps = 64%nat ->
  length pk = 32%nat ->
  0 <= NxtConsensus.BaseTarget nc < 2 ^ 64 ->
  length (NxtConsensus.GenSignature nc) = 32%nat ->
  Forall (tx_roundtrips scheme) txs ->
  Forall (fun tx => forall bs : list byte,
              tx_MarshalBinary tx scheme = Val bs ->
              tx_BinarySize tx = Z.of_nat (length bs)) txs ->
  (version < NgBlockVersion -> Z.of_nat (length txs) < 256) ->
  Transactions.BinarySize txs + 4 < 2 ^ 32 ->
  (NgBlockVersion <= version -> Forall (fun f => - 2 ^ 15 <= f < 2 ^ 15) features) ->
  (RewardBlockVersion <= version -> - 2 ^ 63 <= rewardVote < 2 ^ 63) ->
  length sg = 64%nat ->
  legacy_encodable scheme
    (Block.set_header (BlockHeader.set_BlockSignature sg)
       (created_legacy txs ts (BlockID.NewBlockIDFromSignature ps) pk nc
          version features rewardVote stateHash)).
Proof.
  intros Hv Hts Hps Hpk Hbt Hgs Htxs Hhonest Hcount Hfit Hfeat Hrv Hsg.
  destruct nc as [bt gs].
  cbn [NxtConsensus.BaseTarget NxtConsensus.GenSignature] in Hbt, Hgs.
  destruct (WriteToBinary_transactions_bytes scheme txs Htxs) as [Hw _].
  pose proof (BinarySize_WriteToBinary scheme txs _ Hhonest Hw) as Hsize.
  constructor; unfold Block.Version, created_legacy; norm_block;
    unfold NxtConsensus.BinarySize, Transactions.Count;
    cbn [NxtConsensus.GenSignature];
    try assumption; try lia.
  all: try (exists ps; split; [reflexivity | exact Hps]).
  all: try (unfold uint32; apply Z.mod_pos_bound; lia).
  all: try (split; [reflexivity | exact Hcount]).
  all: try (intro Hng; split; [reflexivity | exact (Hfeat Hng)]).
  rewrite Hsize in *. unfold NgBlockVersion in *.
  destruct (Z.ltb_spec version 3); destruct (Z.leb_spec 3 version); try lia;
    rewrite uint32_small by lia; reflexivity.
Qed.

(** X24: a block that [CreateBlock] builds below the Protobuf version
    from values within the ranges of the layout, with transactions
    whose codec inverts itself and whose [BinarySize] is the length of
    their binary form, survives the wire once a signature is in place:
    [Marshal] writes it and [UnmarshalBinary] reads back the same
    transactions, signature and header fields, the stored transaction
    block length being the exact size of the transaction bytes plus the
    count. *)
Theorem CreateBlock_then_binary_roundtrip :
  forall (txs : list T) (ts : Z) (ps : Signature) (pk : PublicKey)
         (nc : NxtConsensus.t) (version : BlockVersion) (features : list Z)
         (rewardVote : Z) (stateHash : option Digest) (sg : Signature),
    0 <= version < ProtobufBlockVersion ->
    0 <= ts < 2 ^ 64 ->
    length ps = 64%nat ->
    length pk = 32%nat ->
    0 <= NxtConsensus.BaseTarget nc < 2 ^ 64 ->
    length (NxtConsensus.GenSignature nc) = 32%nat ->
    Forall (tx_roundtrips scheme) txs ->
    Forall (fun tx => forall bs : list byte,
                tx_MarshalBinary tx scheme = Val bs ->
                tx_BinarySize tx = Z.of_nat (length bs)) txs ->
    (version < NgBlockVersion -> Z.of_nat (length txs) < 256) ->
    Transactions.BinarySize txs + 4 < 2 ^ 32 ->
    (NgBlockVersion <= version -> Forall (fun f => - 2 ^ 15 <= f < 2 ^ 15) features) ->
    (RewardBlockVersion <= version -> - 2 ^ 63 <= rewardVote < 2 ^ 63) ->
    length sg = 64%nat ->
    exists (b : Block.t T) (bytes : list byte),
      Block.CreateBlock txs ts (BlockID.NewBlockIDFromSignature ps) pk nc version
        features rewardVote scheme stateHash = Val b /\
      Block.Marshal (Block.set_header (BlockHeader.set_BlockSignature sg) b) scheme
      = Val bytes /\
      (Z.of_nat (length bytes) < 2 ^ 32 ->
       exists decoded : Block.t T,
         Block.UnmarshalBinary (slice_of bytes) scheme Block.zero
         = (decoded, Returns None) /\
         decoded
         = decoded_view Block.zero
             (Block.set_header (BlockHeader.set_BlockSignature sg) b) /\
         Block.Transactions decoded = txs /\
         BlockHeader.BlockSignature (Block.BlockHeader decoded) = sg /\
         BlockHeader.ID (Block.BlockHeader decoded)
         = BlockID.NewBlockIDFromSignature sg /\
         BlockHeader.Timestamp (Block.BlockHeader decoded) = ts /\
         BlockHeader.Parent (Block.BlockHeader decoded)
         = BlockID.NewBlockIDFromSignature ps /\
         BlockHeader.NxtConsensus (Block.BlockHeader decoded) = nc /\
         BlockHeader.GeneratorPublicKey (Block.BlockHeader decoded) = pk /\
         BlockHeader.TransactionCount (Block.BlockHeader decoded)
         = Z.of_nat (length txs) /\
         BlockHeader.TransactionBlockLength (Block.BlockHeader decoded)
         = Transactions.BinarySize txs
           + (if version <? NgBlockVersion then 1 else 4)).
Proof.
  intros txs ts ps pk nc version features rewardVote stateHash sg
         Hv Hts Hps Hpk Hbt Hgs Htxs Hhonest Hcount Hfit Hfeat Hrv Hsg.
  pose proof (created_legacy_encodable txs ts ps pk nc version features rewardVote
                stateHash sg Hv Hts Hps Hpk Hbt Hgs Htxs Hhonest Hcount Hfit
                Hfeat Hrv Hsg) as Henc.
  eexists. eexists.
  split; [apply CreateBlock_legacy; lia |].
  split.
  - rewrite Marshal_legacy by (destruct Henc as [[_ Hlt] _ _ _ _ _ _ _ _ _ _ _ _]; exact Hlt).
    apply MarshalBinary_layout. exact Henc.
  - intro Hsize. eexists.
    split; [apply UnmarshalBinary_layout;
            [exact Henc | exact Hsize | reflexivity | reflexivity] |].
    split; [reflexivity |].
    unfold decoded_view, created_legacy. norm_block.
    repeat split.
    apply uint32_small.
    pose proof (BinarySize_WriteToBinary scheme txs _ Hhonest
                  (proj1 (WriteToBinary_transactions_bytes scheme txs Htxs))) as Hbs.
    destruct (version <? NgBlockVersion); lia.
Qed.

End CreateThenDecode.

Section CreateThenDecodeOnSamples.
Import Sample.

Lemma CreateBlock_then_binary_roundtrip_witness :
  exists (b : Block.t tx) (bytes : list byte),
    Block.CreateBlock [[x0a; x0b]; [x0c]] 1700000000000
      (BlockID.NewBlockIDFromSignature (repeat x22 64)) key
      {| NxtConsensus.BaseTarget := 100; NxtConsensus.GenSignature := zeros 32 |}
      RewardBlockVersion [14; -2] 600000000 scheme None = Val b /\
    Block.Marshal (Block.set_header (BlockHeader.set_BlockSignature (repeat x5a 64)) b)
      scheme = Val bytes.
Proof.
  destruct (CreateBlock_then_binary_roundtrip scheme
              [[x0a; x0b]; [x0c]] 1700000000000 (repeat x22 64) key
              {| NxtConsensus.BaseTarget := 100; NxtConsensus.GenSignature := zeros 32 |}
              RewardBlockVersion [14; -2] 600000000 None (repeat x5a 64))
    as [b [bytes [Hcreate [Hmarshal _]]]].
  - unfold RewardBlockVersion, ProtobufBlockVersion. lia.
  - lia.
  - reflexivity.
  - reflexivity.
  - cbn [NxtConsensus.BaseTarget]. lia.
  - reflexivity.
  - repeat (constructor;
            [ eexists; split; [reflexivity | split; [reflexivity | cbn; lia]] | ]).
    constructor.
  - repeat constructor; intros bs Hbs; injection Hbs as <-; reflexivity.
  - intro Hlt. vm_compute in Hlt. discriminate Hlt.
  - vm_compute. reflexivity.
  - intros _. repeat constructor; lia.
  - intros _. lia.
  - reflexivity.
  - exists b, bytes. split; [exact Hcreate | exact Hmarshal].
Defined.

End CreateThenDecodeOnSamples.

(* ------------------------------------------------------------------ *)
(** ** The signed part of the binary form *)

Section LegacySignedPart.
Context {T : Type} `{Transaction T} `{Crypto} `{Protobuf}.

(** X26: below the Protobuf version the binary form of a block is the
    signed payload followed by the 64-byte signature:
    [VerifySignature] checks the block signature, under the generator
    key, against the binary form without its last 64 bytes, and those
    last 64 bytes are what [BlockGetSignature] returns. *)
Theorem VerifySignature_over_binary_form :
  forall (b : Block.t T) (scheme : Scheme) (bytes : list byte),
    Block.Version b < ProtobufBlockVersion ->
    length (BlockHeader.BlockSignature (Block.BlockHeader b)) = 64%nat ->
    Block.MarshalBinary b scheme = Val bytes ->
    Block.VerifySignature b scheme
    = Val (crypto_Verify
             (BlockHeader.GeneratorPublicKey (Block.BlockHeader b))
             (BlockHeader.BlockSignature (Block.BlockHeader b))
             (firstn (length bytes - 64) bytes)) /\
    Block.WriteToWithoutSignature b scheme = Val (firstn (length bytes - 64) bytes) /\
    skipn (length bytes - 64) bytes = BlockHeader.BlockSignature (Block.BlockHeader b) /\
    BlockGetSignature (slice_of bytes)
    = Val (BlockHeader.BlockSignature (Block.BlockHeader b)).
Proof.
  intros b scheme bytes Hv Hsg Hbytes.
  unfold Block.MarshalBinary, Block.WriteTo in Hbytes.
  rewrite (proj2 (Z.leb_gt _ _)) in Hbytes by exact Hv.
  destruct (Block.WriteToWithoutSignature b scheme) as [payload | e |] eqn:Hpayload;
    try discriminate Hbytes.
  cbn [obind] in Hbytes. injection Hbytes as <-.
  rewrite length_app, Hsg.
  replace (length payload + 64 - 64)%nat with (length payload) by lia.
  rewrite firstn_app_exact, skipn_app_exact by reflexivity.
  unfold Block.VerifySignature.
  rewrite (proj2 (Z.ltb_lt _ _)) by exact Hv.
  rewrite Hpayload. cbn [obind].
  repeat split. apply BlockGetSignature_app. exact Hsg.
Qed.

(** X27: every block [CreateBlock] returns holds the version and the
    transactions it was given, passes [VerifyTransactionsRoot], and
    carries a cached [ID] that is valid for its version and equal to
    what the [BlockID] accessor returns.  Below the Protobuf version
    that identifier is built from the zero signature, the block not
    being signed yet. *)
Theorem CreateBlock_result_is_consistent :
  forall (txs : list T) (ts : Z) (parentID : BlockID.t) (pk : PublicKey)
         (nc : NxtConsensus.t) (version : BlockVersion) (features : list Z)
         (rewardVote : Z) (scheme : Scheme) (stateHash : option Digest)
         (b : Block.t T),
    Block.CreateBlock txs ts parentID pk nc version features rewardVote scheme stateHash
    = Val b ->
    Block.Version b = version /\
    Block.Transactions b = txs /\
    Block.VerifyTransactionsRoot b scheme = Val true /\
    BlockID.IsValid (BlockHeader.ID (Block.BlockHeader b)) version = true /\
    BlockHeader.BlockID (Block.BlockHeader b) = BlockHeader.ID (Block.BlockHeader b) /\
    BlockHeader.BlockSignature (Block.BlockHeader b) = Signature_zero /\
    (version < ProtobufBlockVersion ->
     BlockHeader.ID (Block.BlockHeader b)
     = BlockID.NewBlockIDFromSignature Signature_zero).
Proof.
  intros txs ts parentID pk nc version features rewardVote scheme stateHash b Hcreate.
  destruct (Z.ltb_spec version ProtobufBlockVersion) as [Hlt | Hge].
  - rewrite CreateBlock_legacy in Hcreate by exact Hlt.
    injection Hcreate as <-.
    unfold Block.VerifyTransactionsRoot, BlockHeader.BlockID, BlockID.IsValid,
      Block.Version, created_legacy.
    cbn [Block.BlockHeader Block.Transactions BlockHeader.Version BlockHeader.ID
         BlockHeader.BlockSignature BlockID.NewBlockIDFromSignature BlockID.idType].
    rewrite (proj2 (Z.ltb_lt _ _)) by exact Hlt.
    rewrite (proj2 (Z.leb_gt _ _)) by exact Hlt.
    repeat split.
  - destruct (CreateBlock_protobuf txs ts parentID pk nc version features rewardVote
                scheme stateHash b Hge Hcreate) as [_ Hroot].
    unfold Block.CreateBlock in Hcreate.
    unfold ProtobufBlockVersion, NgBlockVersion, RewardBlockVersion in *.
    rewrite (proj2 (Z.ltb_ge version 3)) in Hcreate by lia.
    rewrite (proj2 (Z.leb_gt version 4)) in Hcreate by lia.
    rewrite (proj2 (Z.leb_le 5 version)) in Hcreate by lia.
    cbv zeta in Hcreate.
    unfold Block.SetTransactionsRoot, bind, get, lift, modify in Hcreate.
    match type of Hcreate with
    | context [Block.transactionsRoot ?b0 scheme] =>
        destruct (Block.transactionsRoot b0 scheme) as [rh | e |]
    end; try discriminate.
    unfold wrap, Block.on_header in Hcreate.
    cbn [Block.BlockHeader Block.Transactions Block.set_header] in Hcreate.
    match type of Hcreate with
    | context [BlockHeader.GenerateBlockID scheme ?h0] =>
        destruct (BlockHeader.GenerateBlockID scheme h0) as [h' [u | e |]] eqn:Hgen
    end; try discriminate.
    injection Hcreate as <-.
    unfold BlockHeader.GenerateBlockID, bind, get, lift, modify in Hgen.
    cbn [BlockHeader.set_TransactionsRoot BlockHeader.Version] in Hgen.
    rewrite (proj2 (Z.ltb_ge version ProtobufBlockVersion)) in Hgen
      by (unfold ProtobufBlockVersion; lia).
    destruct (BlockHeader.MarshalHeaderToProtobufWithoutSignature _ scheme)
      as [headerBytes | e |]; try discriminate.
    destruct (crypto_FastHash headerBytes) as [hash | e |]; try discriminate.
    injection Hgen as <-.
    split; [reflexivity |]. split; [reflexivity |].
    split.
    { unfold Block.VerifyTransactionsRoot, Block.Version.
      cbn [Block.BlockHeader BlockHeader.set_ID BlockHeader.set_TransactionsRoot
           BlockHeader.Version BlockHeader.TransactionsRoot] in Hroot |- *.
      rewrite (proj2 (Z.ltb_ge version ProtobufBlockVersion))
        by (unfold ProtobufBlockVersion; lia).
      rewrite Hroot. cbn [obind].
      rewrite (proj2 (bytes_Equal_true_iff _ _) eq_refl). reflexivity. }
    split.
    { unfold BlockID.IsValid.
      rewrite (proj2 (Z.leb_le ProtobufBlockVersion version))
        by (unfold ProtobufBlockVersion; lia). reflexivity. }
    split.
    { unfold BlockHeader.BlockID.
      cbn [Block.BlockHeader BlockHeader.set_ID BlockHeader.set_TransactionsRoot
           BlockHeader.Version BlockHeader.ID].
      rewrite (proj2 (Z.ltb_ge version ProtobufBlockVersion))
        by (unfold ProtobufBlockVersion; lia). reflexivity. }
    split; [reflexivity |].
    intro Hlt. lia.
Qed.

End LegacySignedPart.

Section LegacySignedPartOnSamples.
Import Sample.

Lemma VerifySignature_over_binary_form_witness :
  Block.VerifySignature reward_block scheme
  = Val (crypto_Verify key Signature_zero
           (firstn (length (marshalled reward_block) - 64) (marshalled reward_block))).
Proof.
  destruct (VerifySignature_over_binary_form reward_block scheme
              (marshalled reward_block)) as [Hverify _].
  - vm_compute. reflexivity.
  - reflexivity.
  - vm_compute. reflexivity.
  - exact Hverify.
Defined.

Lemma CreateBlock_result_is_consistent_witness :
  Block.VerifyTransactionsRoot reward_block scheme = Val true /\
  BlockHeader.BlockID (Block.BlockHeader reward_block)
  = BlockHeader.ID (Block.BlockHeader reward_block).
Proof.
  destruct (CreateBlock_result_is_consistent
              [[x0a; x0b]; [x0c]] 1700000000000
              (BlockID.NewBlockIDFromSignature (repeat x22 64)) key
              {| NxtConsensus.BaseTarget := 100; NxtConsensus.GenSignature := zeros 32 |}
              RewardBlockVersion [14; -2] 600000000 scheme None reward_block eq_refl)
    as [_ [_ [Hroot [_ [Hid _]]]]].
  split; [exact Hroot | exact Hid].
Defined.

Lemma UnmarshalHeaderFromBinary_guarantees_witness :
  BlockID.IsValid
    (BlockHeader.Parent (decoded_header BlockHeader.zero reward_header))
    (BlockHeader.Version (decoded_header BlockHeader.zero reward_header))
  = true.
Proof.
  assert (Hdecode :
    BlockHeader.UnmarshalHeaderFromBinary
      (slice_of (concat (header_layout reward_header))) scheme BlockHeader.zero
    = (decoded_header BlockHeader.zero reward_header, Returns None))
    by (vm_compute; reflexivity).
  pose proof (UnmarshalHeaderFromBinary_guarantees _ _ _ _ Hdecode) as Hg.
  cbv zeta in Hg. destruct Hg as [_ [_ [Hvalid _]]]. exact Hvalid.
Defined.

Lemma UnmarshalBinary_guarantees_witness :
  Z.of_nat (length (Block.Transactions (decoded_view Block.zero reward_block)))
  = BlockHeader.TransactionCount
      (Block.BlockHeader (decoded_view Block.zero reward_block)).
Proof.
  assert (Hdecode :
    Block.UnmarshalBinary (slice_of (marshalled reward_block)) scheme Block.zero
    = (decoded_view Block.zero reward_block, Returns None))
    by (vm_compute; reflexivity).
  pose proof (UnmarshalBinary_guarantees _ _ _ _ Hdecode) as Hg.
  cbv zeta in Hg. destruct Hg as [_ [_ [_ [_ [_ [_ [Hcount _]]]]]]]. exact Hcount.
Defined.

End LegacySignedPartOnSamples.
